(** * OpenCBM transfer engines: xum1541 IEC firmware and the libtrans SRQ backend

    A shallow embedding of
      - [xum1541/board-minimus.h], [xum1541/board-minimus.c]: the line accessors,
      - [xum1541/iec.c]: the standard serial protocol engine,
      - [opencbm/libtrans/srq.c]: the burst (SRQ) transfer backend,
    together with the properties of the transfer protocol that are checked
    against them.

    Integers of the C code are [Z] with the wrap-around of their width written
    out.  Hardware registers, the USB byte channel and the abort predicate are
    inputs of the firmware: they are read from an environment of sample
    streams, and every access is recorded in an event trace. *)

From Stdlib Require Import ZArith List Bool Lia String.
Import ListNotations.
Open Scope Z_scope.

(** ** Machine integers *)

Definition wrap8 (x : Z) : Z := x mod 256.
Definition wrap16 (x : Z) : Z := x mod 65536.
Definition wrap32 (x : Z) : Z := x mod 4294967296.

(** avr-libc's [_BV(bit)] is [1 << bit]. *)
Definition _BV (bit : Z) : Z := Z.shiftl 1 bit.

(** [n] consecutive integers from [start]. *)
Fixpoint Zseq (start : Z) (n : nat) : list Z :=
  match n with
  | O => []
  | S n' => start :: Zseq (start + 1) n'
  end.

(** ** Computations with a trace

    A computation starts from a state and yields the events it emitted, the
    state it reached and how it ended: with a value, by exhausting the
    iteration budget of a loop that has no bound of its own, or by stopping
    outside of its return values (a read past a table, a failed [assert]). *)

Inductive outcome (A : Type) :=
| Done (a : A)
| Spin
| Fault.
Arguments Done {A} a.
Arguments Spin {A}.
Arguments Fault {A}.

Record run (event state A : Type) := Run {
  emitted : list event;
  final : state;
  result : outcome A
}.
Arguments Run {event state A} _ _ _.
Arguments emitted {event state A} _.
Arguments final {event state A} _.
Arguments result {event state A} _.

Definition Mon (event state A : Type) : Type := state -> run event state A.

Section Monad.

Context {event state : Type}.

Definition ret {A} (a : A) : Mon event state A := fun s => Run [] s (Done a).

Definition bind {A B} (m : Mon event state A) (f : A -> Mon event state B)
  : Mon event state B :=
  fun s =>
    let r := m s in
    match result r with
    | Done a =>
        let r' := f a (final r) in
        Run (emitted r ++ emitted r') (final r') (result r')
    | Spin => Run (emitted r) (final r) Spin
    | Fault => Run (emitted r) (final r) Fault
    end.

Definition emit (e : event) : Mon event state unit := fun s => Run [e] s (Done tt).
Definition spin {A} : Mon event state A := fun s => Run [] s Spin.
Definition fault {A} : Mon event state A := fun s => Run [] s Fault.

(** [wp c s Q]: the run of [c] from [s] satisfies [Q]. *)
Definition wp {A} (c : Mon event state A) (s : state)
           (Q : list event -> state -> outcome A -> Prop) : Prop :=
  Q (emitted (c s)) (final (c s)) (result (c s)).

(** [keeps P c]: every run of [c], however it ends, is related by [P] to the
    state it starts from. *)
Definition keeps {A} (P : state -> list event -> state -> Prop)
           (c : Mon event state A) : Prop :=
  forall s, P s (emitted (c s)) (final (c s)).

End Monad.

Declare Scope monad_scope.
Delimit Scope monad_scope with monad.
Notation "x <- m ;; k" := (bind m (fun x => k))
  (at level 61, m at next level, right associativity) : monad_scope.
Notation "m ;; k" := (bind m (fun _ => k))
  (at level 61, right associativity) : monad_scope.
Open Scope monad_scope.

Module Xum1541.

(** ** board-minimus.h: pin assignment *)

Definition IO_DATA : Z := _BV 2.
Definition IO_CLK : Z := _BV 3.
Definition IO_ATN : Z := _BV 4.
Definition IO_SRQ : Z := _BV 5.
Definition IO_RESET : Z := _BV 6.

(** ** iec.c: logical line specifiers *)

Definition IEC_DATA : Z := 0x01.
Definition IEC_CLOCK : Z := 0x02.
Definition IEC_ATN : Z := 0x04.
Definition IEC_RESET : Z := 0x08.

(** ** Events, environment and state *)

Inductive direction := ENDPOINT_DIR_IN | ENDPOINT_DIR_OUT.

(** One entry per externally visible action of the firmware.  [EvWait2ms]
    records a call of [iec_wait_timeout_2ms] with its arguments; [EvDebug]
    records a [DEBUGF] of level [DBG_ERROR] by its format string (the
    messages of the levels [DBG_INFO] and [DBG_ALL] are left out). *)
Inductive event :=
| EvSet (line : Z)                 (* IEC_DDR |= line *)
| EvRelease (line : Z)             (* IEC_DDR &= ~line *)
| EvPin (v : Z)                    (* a read of IEC_PIN gave v *)
| EvDelayUs (us : Z)
| EvDelayMs (ms : Z)
| EvWait2ms (mask st : Z)
| EvTimerWorker (go_on : bool)
| EvUsbInitIo (len : Z) (dir : direction)
| EvUsbIoDone
| EvUsbRecvByte (status data : Z)
| EvUsbSendByte (data status : Z)
| EvDebug (msg : string)
| EvCli
| EvSei
| EvWdtReset.

(** What the firmware reads from outside, by the number of the access. *)
Record env := Env {
  pin_sample : nat -> Z;            (* the n-th read of IEC_PIN *)
  timer_sample : nat -> bool;       (* the n-th result of TimerWorker() *)
  usb_recv_sample : nat -> Z * Z;   (* n-th usbRecvByte: (status, data) *)
  usb_send_sample : nat -> Z -> Z   (* n-th usbSendByte(data): status *)
}.

Record state := State {
  IEC_DDR : Z;       (* direction register: a set bit pulls the line *)
  eoi : Z;           (* the global end-of-transmission latch *)
  n_pin : nat;
  n_timer : nat;
  n_recv : nat;
  n_send : nat
}.

Definition M (A : Type) : Type := Mon event state A.

Definition get_eoi : M Z := fun s => Run [] s (Done (eoi s)).
Definition set_eoi (v : Z) : M unit :=
  fun s => Run [] (State (IEC_DDR s) v (n_pin s) (n_timer s) (n_recv s) (n_send s))
               (Done tt).

Definition DELAY_US (us : Z) : M unit := emit (EvDelayUs us).
Definition DELAY_MS (ms : Z) : M unit := emit (EvDelayMs ms).
Definition DEBUGF (msg : string) : M unit := emit (EvDebug msg).
Definition cli : M unit := emit EvCli.
Definition sei : M unit := emit EvSei.
Definition wdt_reset : M unit := emit EvWdtReset.
Definition usbInitIo (len : Z) (dir : direction) : M unit := emit (EvUsbInitIo len dir).
Definition usbIoDone : M unit := emit EvUsbIoDone.

Section Firmware.

Variable E : env.

(** Constants of the firmware headers, which are not part of the sources at
    hand: the two flags of a write, and the number of rounds of the wait for a
    free bus, [(uint16_t)(XUM1541_TIMEOUT * 10000)]. *)
Variable XUM_WRITE_TALK : Z.
Variable XUM_WRITE_ATN : Z.
Variable XUM1541_TIMEOUT_ROUNDS : Z.

Definition read_IEC_PIN : M Z :=
  fun s =>
    let v := pin_sample E (n_pin s) in
    Run [EvPin v]
        (State (IEC_DDR s) (eoi s) (S (n_pin s)) (n_timer s) (n_recv s) (n_send s))
        (Done v).

Definition TimerWorker : M bool :=
  fun s =>
    let b := timer_sample E (n_timer s) in
    Run [EvTimerWorker b]
        (State (IEC_DDR s) (eoi s) (n_pin s) (S (n_timer s)) (n_recv s) (n_send s))
        (Done b).

Definition usbRecvByte : M (Z * Z) :=
  fun s =>
    let r := usb_recv_sample E (n_recv s) in
    Run [EvUsbRecvByte (fst r) (snd r)]
        (State (IEC_DDR s) (eoi s) (n_pin s) (n_timer s) (S (n_recv s)) (n_send s))
        (Done r).

Definition usbSendByte (data : Z) : M Z :=
  fun s =>
    let st := usb_send_sample E (n_send s) data in
    Run [EvUsbSendByte data st]
        (State (IEC_DDR s) (eoi s) (n_pin s) (n_timer s) (n_recv s) (S (n_send s)))
        (Done st).

(** ** board-minimus.h: line accessors *)

Definition iec_get (line : Z) : M bool :=
  v <- read_IEC_PIN ;;
  ret (Z.land v line =? 0).

Definition iec_set (line : Z) : M unit :=
  fun s =>
    Run [EvSet line]
        (State (Z.lor (IEC_DDR s) line) (eoi s) (n_pin s) (n_timer s) (n_recv s) (n_send s))
        (Done tt).

Definition iec_release (line : Z) : M unit :=
  fun s =>
    Run [EvRelease line]
        (State (Z.land (IEC_DDR s) (Z.lnot line)) (eoi s) (n_pin s) (n_timer s)
               (n_recv s) (n_send s))
        (Done tt).

Definition iec_set_release (s r : Z) : M unit :=
  iec_set s ;;
  iec_release r.

(** board-minimus.c *)
Definition iec_poll_pins : M Z :=
  v <- read_IEC_PIN ;;
  ret (Z.land v (Z.lor (Z.lor (Z.lor (Z.lor IO_DATA IO_CLK) IO_ATN) IO_SRQ) IO_RESET)).

(** [iec.c] polls through [iec_poll()]; the header that maps it onto the board
    is not part of the sources at hand.  The board offers one poll routine,
    [iec_poll_pins], and [iec_poll] stands for it. *)
Definition iec_poll : M Z := iec_poll_pins.

(** ** iec.c *)

Definition iec2hw_table : list Z :=
  [ 0;
    IO_DATA;
    IO_CLK;
    Z.lor IO_DATA IO_CLK;
    IO_ATN;
    Z.lor IO_DATA IO_ATN;
    Z.lor IO_CLK IO_ATN;
    Z.lor (Z.lor IO_DATA IO_CLK) IO_ATN;
    IO_RESET;
    Z.lor IO_DATA IO_RESET;
    Z.lor IO_CLK IO_RESET;
    Z.lor (Z.lor IO_DATA IO_CLK) IO_RESET;
    Z.lor IO_ATN IO_RESET;
    Z.lor (Z.lor IO_DATA IO_ATN) IO_RESET;
    Z.lor (Z.lor IO_CLK IO_ATN) IO_RESET;
    Z.lor (Z.lor (Z.lor IO_DATA IO_CLK) IO_ATN) IO_RESET ].

(** [pgm_read_byte(iec2hw_table + iec)]: [None] is a read past the table. *)
Definition iec2hw (iec : Z) : option Z :=
  nth_error iec2hw_table (Z.to_nat iec).

Definition cbm_init : M unit :=
  iec_release (Z.lor (Z.lor (Z.lor IO_ATN IO_CLK) IO_DATA) IO_RESET) ;;
  DELAY_US 100.

Definition check_if_bus_free : M Z :=
  iec_release (Z.lor (Z.lor (Z.lor IO_ATN IO_CLK) IO_DATA) IO_RESET) ;;
  DELAY_US 50 ;;
  d1 <- iec_get IO_DATA ;;
  if d1 then ret 0
  else
    DELAY_US 50 ;;
    d2 <- iec_get IO_DATA ;;
    if d2 then ret 0
    else
      iec_set IO_ATN ;;
      DELAY_US 100 ;;
      d3 <- iec_get IO_DATA ;;
      if negb d3 then
        iec_release IO_ATN ;;
        ret 0
      else
        iec_release IO_ATN ;;
        DELAY_US 100 ;;
        d4 <- iec_get IO_DATA ;;
        ret (if negb d4 then 1 else 0).

(** [for (i = ...; i != 0; i--) { if (check_if_bus_free()) return; ... }] *)
Fixpoint wait_for_free_bus_loop (i : nat) : M unit :=
  match i with
  | O => DEBUGF "wait4free bus to\n"
  | S i' =>
      free <- check_if_bus_free ;;
      if negb (free =? 0) then ret tt
      else
        DELAY_US 100 ;;
        go_on <- TimerWorker ;;
        if negb go_on then ret tt
        else wait_for_free_bus_loop i'
  end.

Definition wait_for_free_bus : M unit :=
  wait_for_free_bus_loop (Z.to_nat (wrap16 XUM1541_TIMEOUT_ROUNDS)).

Definition cbm_reset : M unit :=
  iec_release (Z.lor (Z.lor IO_DATA IO_ATN) IO_CLK) ;;
  iec_set IO_RESET ;;
  DELAY_MS 30 ;;
  iec_release IO_RESET ;;
  wait_for_free_bus.

(** [while ((iec_poll() & mask) == state && count-- != 0) DELAY_US(10);] *)
Fixpoint wait_timeout_2ms_loop (count : nat) (mask st : Z) : M unit :=
  v <- iec_poll ;;
  if Z.land v mask =? st then
    match count with
    | O => ret tt
    | S count' => DELAY_US 10 ;; wait_timeout_2ms_loop count' mask st
    end
  else ret tt.

Definition iec_wait_timeout_2ms (mask st : Z) : M bool :=
  emit (EvWait2ms mask st) ;;
  wait_timeout_2ms_loop 200 mask st ;;
  v <- iec_poll ;;
  ret (negb (Z.land v mask =? st)).

(** [while (iec_get(IO_CLK) == 0 && count-- != 0) DELAY_US(2);] *)
Fixpoint wait_clk_loop (count : nat) : M unit :=
  c <- iec_get IO_CLK ;;
  if negb c then
    match count with
    | O => ret tt
    | S count' => DELAY_US 2 ;; wait_clk_loop count'
    end
  else ret tt.

Definition iec_wait_clk : M unit := wait_clk_loop 200.

(** The bit loop of [send_byte], [for (i = 0; i < 8; i++)], by the number of
    iterations left. *)
Fixpoint send_byte_bits (left : nat) (b : Z) : M unit :=
  match left with
  | O => ret tt
  | S left' =>
      DELAY_US 75 ;;
      (if Z.land b 1 =? 0 then iec_set IO_DATA else ret tt) ;;
      iec_release IO_CLK ;;
      DELAY_US 20 ;;
      iec_set_release IO_CLK IO_DATA ;;
      send_byte_bits left' (Z.shiftr b 1)
  end.

Definition send_byte (b : Z) : M bool :=
  send_byte_bits 8 b ;;
  ack <- iec_wait_timeout_2ms IO_DATA IO_DATA ;;
  (if negb ack then DEBUGF "sndbyte nak\n" else ret tt) ;;
  ret ack.

(** [while (iec_get(IO_DATA) != 0) { if (!TimerWorker()) return false; }]
    has no bound of its own: [fuel] bounds the number of its iterations. *)
Fixpoint wait_for_listener_loop (fuel : nat) : M bool :=
  d <- iec_get IO_DATA ;;
  if d then
    go_on <- TimerWorker ;;
    if negb go_on then ret false
    else
      match fuel with
      | O => spin
      | S fuel' => wait_for_listener_loop fuel'
      end
  else ret true.

Definition wait_for_listener (fuel : nat) : M bool :=
  iec_release IO_CLK ;;
  wait_for_listener_loop fuel.

(** The [while (len && rv)] loop of [cbm_raw_write]; it returns the final
    [(len, rv)].  [inner] is the budget handed to [wait_for_listener]. *)
Fixpoint cbm_raw_write_loop (inner fuel : nat) (atn len rv : Z) : M (Z * Z) :=
  if (len =? 0) || (rv =? 0) then ret (len, rv)
  else
    match fuel with
    | O => spin
    | S fuel' =>
        DELAY_US 50 ;;
        d <- iec_get IO_DATA ;;
        if d then
          ready <- wait_for_listener inner ;;
          if negb ready then
            DEBUGF "write: w4l abrt\n" ;;
            ret (len, 0)
          else
            (if (len =? 1) && (atn =? 0) then
               iec_wait_timeout_2ms IO_DATA IO_DATA ;;
               iec_wait_timeout_2ms IO_DATA 0 ;;
               ret tt
             else ret tt) ;;
            iec_set IO_CLK ;;
            r <- usbRecvByte ;;
            if negb (fst r =? 0) then ret (len, 0)
            else
              ack <- send_byte (snd r) ;;
              if ack then
                DELAY_US 100 ;;
                wdt_reset ;;
                cbm_raw_write_loop inner fuel' atn (wrap16 (len - 1)) rv
              else
                DEBUGF "write: io err\n" ;;
                wdt_reset ;;
                cbm_raw_write_loop inner fuel' atn len 0
        else
          DEBUGF "write: dev not pres\n" ;;
          wdt_reset ;;
          cbm_raw_write_loop inner fuel' atn len 0
    end.

(** [while (iec_get(IO_CLK) == 0) { if (!TimerWorker()) { rv = 0; break; } }] *)
Fixpoint talk_wait_loop (fuel : nat) (rv : Z) : M Z :=
  c <- iec_get IO_CLK ;;
  if negb c then
    go_on <- TimerWorker ;;
    if negb go_on then ret 0
    else
      match fuel with
      | O => spin
      | S fuel' => talk_wait_loop fuel' rv
      end
  else ret rv.

Definition cbm_raw_write (fuel : nat) (len flags : Z) : M Z :=
  let rv := len in
  let atn := wrap8 (Z.land flags XUM_WRITE_ATN) in
  let talk := wrap8 (Z.land flags XUM_WRITE_TALK) in
  set_eoi 0 ;;
  usbInitIo len ENDPOINT_DIR_OUT ;;
  iec_release IO_DATA ;;
  iec_set (Z.lor IO_CLK (if negb (atn =? 0) then IO_ATN else 0)) ;;
  dev <- iec_wait_timeout_2ms IO_DATA IO_DATA ;;
  if negb dev then
    DEBUGF "write: no devs\n" ;;
    iec_release (Z.lor IO_CLK IO_ATN) ;;
    usbIoDone ;;
    ret 0
  else
    lr <- cbm_raw_write_loop fuel fuel atn len rv ;;
    usbIoDone ;;
    if negb (snd lr =? 0) then
      rv' <- (if negb (talk =? 0) then
                iec_set IO_DATA ;;
                iec_release (Z.lor IO_CLK IO_ATN) ;;
                talk_wait_loop fuel (snd lr)
              else
                iec_release IO_ATN ;;
                ret (snd lr)) ;;
      DELAY_US 100 ;;
      ret rv'
    else
      iec_release (Z.lor IO_CLK IO_ATN) ;;
      ret (snd lr).

(** The first loop of a read iteration,
    [while (iec_get(IO_CLK)) { if (to >= 50000 || !TimerWorker()) { ...;
    return 0; } to++; DELAY_US(20); }].  It yields [false] when the function
    has to return 0 from inside it. *)
Fixpoint wait_clk_released_loop (fuel : nat) (to : Z) : M bool :=
  c <- iec_get IO_CLK ;;
  if c then
    timed_out <- (if 50000 <=? to then ret true
                else go_on <- TimerWorker ;; ret (negb go_on)) ;;
    if timed_out then
      DEBUGF "rd to\n" ;;
      usbIoDone ;;
      ret false
    else
      match fuel with
      | O => spin
      | S fuel' =>
          DELAY_US 20 ;;
          wait_clk_released_loop fuel' (wrap16 (to + 1))
      end
  else ret true.

(** [for (bit = b = 0; bit < 8 && ok; bit++)], by the number of iterations
    left. *)
Fixpoint read_byte_bits (left : nat) (b : Z) (ok : bool) : M (Z * bool) :=
  match left with
  | O => ret (b, ok)
  | S left' =>
      if ok then
        ok1 <- iec_wait_timeout_2ms IO_CLK 0 ;;
        if ok1 then
          d <- iec_get IO_DATA ;;
          let b1 := Z.shiftr b 1 in
          let b2 := if negb d then Z.lor b1 0x80 else b1 in
          ok2 <- iec_wait_timeout_2ms IO_CLK IO_CLK ;;
          read_byte_bits left' b2 ok2
        else read_byte_bits left' b ok1
      else ret (b, ok)
  end.

(** What follows the [do ... while] loop of [cbm_raw_read]. *)
Definition cbm_raw_read_end (count : Z) (ok : bool) : M Z :=
  count' <- (if negb ok then DEBUGF "read io err\n" ;; ret 0 else ret count) ;;
  usbIoDone ;;
  ret count'.

(** The byte transfer of a read iteration, from [cli()] to [sei()]: the
    final [(b, ok)]. *)
Definition read_byte : M (Z * bool) :=
  cli ;;
  ok0 <- iec_wait_timeout_2ms IO_CLK IO_CLK ;;
  bo <- read_byte_bits 8 0 ok0 ;;
  sei ;;
  ret bo.

(** One pass through the body of the [do ... while (count != len && ok &&
    !eoi)] loop of [cbm_raw_read], with the statements after the loop where it
    is left; [again] is the loop taken once more, with the count
    incremented.  The value is what the function returns. *)
Definition cbm_raw_read_iteration (inner : nat) (len count : Z) (again : M Z) : M Z :=
  released <- wait_clk_released_loop inner 0 ;;
  if negb released then ret 0
  else
    latched <- get_eoi ;;
    if negb (latched =? 0) then
      usbIoDone ;;
      ret 0
    else
      iec_release IO_DATA ;;
      iec_wait_clk ;;
      c <- iec_get IO_CLK ;;
      (if negb c then
         set_eoi 1 ;;
         iec_set IO_DATA ;;
         DELAY_US 70 ;;
         iec_release IO_DATA
       else ret tt) ;;
      bo <- read_byte ;;
      if snd bo then
        iec_set IO_DATA ;;
        st <- usbSendByte (fst bo) ;;
        if negb (st =? 0) then cbm_raw_read_end count (snd bo)
        else
          DELAY_US 50 ;;
          wdt_reset ;;
          latched' <- get_eoi ;;
          if negb (wrap16 (count + 1) =? len) && snd bo && (latched' =? 0) then again
          else cbm_raw_read_end (wrap16 (count + 1)) (snd bo)
      else
        wdt_reset ;;
        cbm_raw_read_end count (snd bo).

(** The loop: [fuel] bounds the number of further passes, [inner] is the
    budget handed to the wait for a released CLOCK. *)
Fixpoint cbm_raw_read_loop (inner fuel : nat) (len count : Z) : M Z :=
  cbm_raw_read_iteration inner len count
    match fuel with
    | O => spin
    | S fuel' => cbm_raw_read_loop inner fuel' len (wrap16 (count + 1))
    end.

Definition cbm_raw_read (fuel : nat) (len : Z) : M Z :=
  usbInitIo len ENDPOINT_DIR_IN ;;
  cbm_raw_read_loop fuel fuel len 0.

(** The physical pin of each logical line. *)
Definition line_pins : list (Z * Z) :=
  [ (IEC_DATA, IO_DATA); (IEC_CLOCK, IO_CLK); (IEC_ATN, IO_ATN); (IEC_RESET, IO_RESET) ].

(** The OR of the pins of the logical lines that are set in [iec]. *)
Definition or_of_set_lines (iec : Z) : Z :=
  fold_right
    (fun lp acc => if Z.land iec (fst lp) =? 0 then acc else Z.lor (snd lp) acc)
    0 line_pins.

(** What [iec_get line] reports for a sample [v] of [IEC_PIN]: the line is
    asserted (pulled) when its pin reads 0. *)
Definition asserted (line v : Z) : bool := Z.land v line =? 0.

(** [while ((iec_poll() & hw_mask) == hw_state) { if (!TimerWorker()) return
    false; DELAY_US(10); }] has no bound of its own. *)
Fixpoint xu1541_wait_loop (fuel : nat) (hw_mask hw_state : Z) : M bool :=
  v <- iec_poll ;;
  if Z.land v hw_mask =? hw_state then
    go_on <- TimerWorker ;;
    if negb go_on then ret false
    else
      DELAY_US 10 ;;
      match fuel with
      | O => spin
      | S fuel' => xu1541_wait_loop fuel' hw_mask hw_state
      end
  else ret true.

Definition xu1541_wait (fuel : nat) (line st : Z) : M bool :=
  match iec2hw line with
  | Some hw_mask =>
      let hw_state := if negb (st =? 0) then hw_mask else 0 in
      xu1541_wait_loop fuel hw_mask hw_state
  | None => fault
  end.

Definition xu1541_poll : M Z :=
  iec_state <- iec_poll ;;
  let rv := 0 in
  let rv := if Z.land iec_state IO_DATA =? 0 then Z.lor rv IEC_DATA else rv in
  let rv := if Z.land iec_state IO_CLK =? 0 then Z.lor rv IEC_CLOCK else rv in
  let rv := if Z.land iec_state IO_ATN =? 0 then Z.lor rv IEC_ATN else rv in
  ret rv.

Definition xu1541_setrelease (set release : Z) : M unit :=
  match iec2hw set, iec2hw release with
  | Some s, Some r => iec_set_release s r
  | _, _ => fault
  end.

End Firmware.

(** ** Reading traces *)

(** Samples of the pins and delays: what a polling wait emits. *)
Definition is_sample (e : event) : bool :=
  match e with
  | EvPin _ | EvDelayUs _ => true
  | _ => false
  end.

(** Events of the bus and of time alone: line changes, samples, delays. *)
Definition quiet (e : event) : bool :=
  match e with
  | EvSet _ | EvRelease _ | EvPin _ | EvDelayUs _ | EvTimerWorker _
  | EvCli | EvSei | EvWdtReset => true
  | _ => false
  end.

(** What is left of a trace without the events of the bus and of time. *)
Fixpoint marks (tr : list event) : list event :=
  match tr with
  | [] => []
  | e :: tr' => if quiet e then marks tr' else e :: marks tr'
  end.


Definition is_fetch (e : event) : bool :=
  match e with
  | EvUsbRecvByte _ _ => true
  | _ => false
  end.


(** The marks of the EOI delay in an iteration of the write loop. *)
Definition eoi_marks (atn len : Z) : list event :=
  if (len =? 1) && (atn =? 0)
  then [EvWait2ms IO_DATA IO_DATA; EvWait2ms IO_DATA 0]
  else [].

(** The marks that the write loop can leave when entered with [len] bytes to
    go and the return value [rv], and how it ends. *)
Inductive write_run (atn : Z) : Z -> Z -> list event -> outcome (Z * Z) -> Prop :=
| write_exit len rv :
    (len =? 0) || (rv =? 0) = true ->
    write_run atn len rv [] (Done (len, rv))
| write_spin len rv :
    (len =? 0) || (rv =? 0) = false ->
    write_run atn len rv [] Spin
| write_no_device len rv :
    (len =? 0) || (rv =? 0) = false ->
    write_run atn len rv [EvDebug "write: dev not pres\n"] (Done (len, 0))
| write_abort len rv :
    (len =? 0) || (rv =? 0) = false ->
    write_run atn len rv [EvDebug "write: w4l abrt\n"] (Done (len, 0))
| write_fetch_fail len rv st d :
    (len =? 0) || (rv =? 0) = false ->
    st <> 0 ->
    write_run atn len rv (eoi_marks atn len ++ [EvUsbRecvByte st d]) (Done (len, 0))
| write_nak len rv d :
    (len =? 0) || (rv =? 0) = false ->
    write_run atn len rv
              (eoi_marks atn len ++
               [EvUsbRecvByte 0 d; EvWait2ms IO_DATA IO_DATA;
                EvDebug "sndbyte nak\n"; EvDebug "write: io err\n"])
              (Done (len, 0))
| write_sent len rv d ms o :
    (len =? 0) || (rv =? 0) = false ->
    write_run atn (wrap16 (len - 1)) rv ms o ->
    write_run atn len rv
              (eoi_marks atn len ++
               [EvUsbRecvByte 0 d; EvWait2ms IO_DATA IO_DATA] ++ ms)
              o.

(** The number of bytes fetched from the host in a trace. *)
Definition fetches (tr : list event) : nat := List.length (filter is_fetch tr).


(** The direction register after an event. *)
Definition drive (ddr : Z) (e : event) : Z :=
  match e with
  | EvSet line => Z.lor ddr line
  | EvRelease line => Z.land ddr (Z.lnot line)
  | _ => ddr
  end.

(** The level of DATA that a sender presents at each release of CLOCK, from
    the direction register [ddr] on: [true] when it leaves DATA released. *)
Fixpoint data_at_clock_release (ddr : Z) (tr : list event) : list bool :=
  match tr with
  | [] => []
  | e :: tr' =>
      match e with
      | EvRelease line =>
          if Z.land line IO_CLK =? 0 then data_at_clock_release (drive ddr e) tr'
          else (Z.land (drive ddr e) IO_DATA =? 0)
                 :: data_at_clock_release (drive ddr e) tr'
      | _ => data_at_clock_release (drive ddr e) tr'
      end
  end.

(** The events of the bit loop of [send_byte] for the byte [b]. *)
Fixpoint send_byte_trace (left : nat) (b : Z) : list event :=
  match left with
  | O => []
  | S left' =>
      [EvDelayUs 75]
        ++ (if Z.land b 1 =? 0 then [EvSet IO_DATA] else [])
        ++ [EvRelease IO_CLK; EvDelayUs 20; EvSet IO_CLK; EvRelease IO_DATA]
        ++ send_byte_trace left' (Z.shiftr b 1)
  end.

(** The pins as a listener reads them: a released line reads 1; ATN, SRQ and
    RESET are idle. *)
Definition pins (clk_released data_released : bool) : Z :=
  Z.lor (Z.lor (if clk_released then IO_CLK else 0) (if data_released then IO_DATA else 0))
        (Z.lor (Z.lor IO_ATN IO_SRQ) IO_RESET).

(** What a listener samples while a talker presents one bit with DATA at the
    level [d]: CLOCK still pulled for [w1] polls, then released (seen by the
    two polls that end the wait, then DATA is sampled), held for [w2] further
    polls, then pulled again (seen by the two polls that end the wait). *)
Definition bit_samples (w1 w2 : nat) (d : bool) : list Z :=
  (repeat (pins false d) w1 ++ [pins true d; pins true d])
    ++ [pins true d]
    ++ (repeat (pins true d) w2 ++ [pins false d; pins false d]).

(** The samples for the levels [ds], bit [i] lagging by [lag (2 * i)] and
    [lag (2 * i + 1)] polls. *)
Fixpoint talker_samples (lag : nat -> nat) (i : nat) (ds : list bool) : list Z :=
  match ds with
  | [] => []
  | d :: ds' =>
      bit_samples (lag (2 * i)%nat) (lag (2 * i + 1)%nat) d
        ++ talker_samples lag (S i) ds'
  end.

(** The environment presents the samples [wave] from the read number [off]
    on. *)
Definition plays (E : env) (off : nat) (wave : list Z) : Prop :=
  forall i, (i < List.length wave)%nat -> pin_sample E (i + off) = nth i wave 0.

(** The first [n] bits of [b], lowest first. *)
Fixpoint bits_of (n : nat) (b : Z) : list bool :=
  match n with
  | O => []
  | S n' => negb (Z.land b 1 =? 0) :: bits_of n' (Z.shiftr b 1)
  end.

(** The byte that shifting in the levels [ds] makes of [b]. *)
Fixpoint shift_in (ds : list bool) (b : Z) : Z :=
  match ds with
  | [] => b
  | d :: ds' => shift_in ds' (if d then Z.lor (Z.shiftr b 1) 0x80 else Z.shiftr b 1)
  end.

(** An environment that plays a list of pin samples and then stays at
    [idle], never asks to abort, hands out the bytes of [host] and accepts
    every byte. *)
Definition scripted (wave : list Z) (idle : Z) (host : list Z) : env :=
  Env (fun n => nth n wave idle) (fun _ => true)
      (fun n => (0, nth n host 0)) (fun _ _ => 0).

(** *** Buses for the examples *)




(** A listener that answers the probe of a write, takes two bytes and
    acknowledges the EOI delay of the second. *)
Definition listener_bus : env :=
  scripted
    [ pins false false; pins false false;   (* the probe: DATA is pulled *)
      pins false false; pins true true;     (* byte 1: present, then ready *)
      pins false false; pins false false;   (* byte 1 acknowledged *)
      pins false false; pins true true;     (* byte 2: present, then ready *)
      pins true false; pins true false;     (* EOI: DATA pulled ... *)
      pins true true; pins true true;       (* ... and released *)
      pins false false; pins false false ]  (* byte 2 acknowledged *)
    (pins true true) [0x41; 0x42].

(** The messages logged by a trace. *)
Fixpoint debugs (tr : list event) : list string :=
  match tr with
  | [] => []
  | EvDebug msg :: tr' => msg :: debugs tr'
  | _ :: tr' => debugs tr'
  end.

(** *** Time, probes and calls *)

(** The four lines that the probe for a free bus lets go of. *)
Definition all_lines : Z := Z.lor (Z.lor (Z.lor IO_ATN IO_CLK) IO_DATA) IO_RESET.

(** The lines that [iec_poll_pins] reports. *)
Definition polled_lines : Z :=
  Z.lor (Z.lor (Z.lor (Z.lor IO_DATA IO_CLK) IO_ATN) IO_SRQ) IO_RESET.

(** The time a trace spends in its delays, in microseconds. *)
Fixpoint elapsed_us (tr : list event) : Z :=
  match tr with
  | [] => 0
  | EvDelayUs us :: tr' => us + elapsed_us tr'
  | EvDelayMs ms :: tr' => 1000 * ms + elapsed_us tr'
  | _ :: tr' => elapsed_us tr'
  end.

(** The trace of a polling wait that samples the pins [j] times from the read
    number [off] on and delays [us] microseconds after each sample. *)
Fixpoint poll_wait (E : env) (off j : nat) (us : Z) : list event :=
  match j with
  | O => []
  | S j' => EvPin (pin_sample E off) :: EvDelayUs us :: poll_wait E (S off) j' us
  end.

(** A probe for a free bus starts by letting go of the four lines. *)
Definition is_probe (e : event) : bool :=
  match e with
  | EvRelease line => line =? all_lines
  | _ => false
  end.

Definition probes (tr : list event) : nat := List.length (filter is_probe tr).

(** The calls of the USB byte channel. *)
Definition is_usb (e : event) : bool :=
  match e with
  | EvUsbInitIo _ _ | EvUsbIoDone | EvUsbRecvByte _ _ | EvUsbSendByte _ _ => true
  | _ => false
  end.

Definition usb_calls (tr : list event) : list event := filter is_usb tr.





Definition is_send (e : event) : bool :=
  match e with
  | EvUsbSendByte _ _ => true
  | _ => false
  end.

(** The number of bytes offered to the host in a trace. *)
Definition sends (tr : list event) : nat := List.length (filter is_send tr).

(** The events that go with no change of the state and no sample. *)
Definition is_plain (e : event) : bool :=
  match e with
  | EvSet _ | EvRelease _ | EvPin _ | EvTimerWorker _
  | EvUsbRecvByte _ _ | EvUsbSendByte _ _ => false
  | _ => true
  end.

(** The lines that an event pulls or lets go of. *)
Definition drives (e : event) : Z :=
  match e with
  | EvSet line | EvRelease line => line
  | _ => 0
  end.

(** Whether an event pulls one of the lines [lines]. *)
Definition pulls (lines : Z) (e : event) : bool :=
  match e with
  | EvSet line => negb (Z.land line lines =? 0)
  | _ => false
  end.

(** Whether a trace pulls and lets go of lines among [lines] only. *)
Definition drives_within (lines : Z) (tr : list event) : bool :=
  forallb (fun e => Z.land (drives e) (Z.lnot lines) =? 0) tr.

(** *** What a run keeps *)

(** A trace drives lines among [lines] only, and leaves the direction of
    every other pin as it was. *)
Definition stays_within (lines : Z) (s : state) (tr : list event) (s' : state) : Prop :=
  drives_within lines tr = true /\
  Z.land (IEC_DDR s') (Z.lnot lines) = Z.land (IEC_DDR s) (Z.lnot lines).

(** The latch, once clear, stays clear; once set, stays set. *)
Definition latch_stays_clear (s : state) (tr : list event) (s' : state) : Prop :=
  eoi s = 0 -> eoi s' = 0.

Definition latch_stays_set (s : state) (tr : list event) (s' : state) : Prop :=
  eoi s <> 0 -> eoi s' <> 0.

(** A run that fetches no byte from the host, that offers none to it. *)
Definition fetches_nothing (s : state) (tr : list event) (s' : state) : Prop :=
  n_recv s' = n_recv s /\ fetches tr = 0%nat.

Definition offers_nothing (s : state) (tr : list event) (s' : state) : Prop :=
  n_send s' = n_send s /\ sends tr = 0%nat.



End Xum1541.

Module Srq.

(** ** opencbm/libtrans/srq.c *)

(** The members of [enum cbm_device_type_e] that [upload] names; every other
    value of the enumeration ([opencbm.h] is not part of the sources at hand)
    is a [cbm_dt_other] and falls under the [default:] label. *)
Inductive cbm_device_type_e :=
| cbm_dt_unknown
| cbm_dt_cbm1541
| cbm_dt_cbm1570
| cbm_dt_cbm1571
| cbm_dt_cbm1581
| cbm_dt_other (code : Z).

Inductive event :=
| EvIdentify (drive : Z)
| EvDebugError (msg : string)
| EvDebugPrint (msg : string)
| EvUpload (drive adr : Z) (prog : list Z) (size : Z)
| EvBurstRead (c : Z)
| EvBurstWrite (c : Z)
| EvBurstReadTrack (buffer length : Z)
| EvSleep (seconds : Z).

(** The caller's memory, by address, and the number of bytes taken from the
    burst read primitive so far. *)
Record state := State {
  mem : Z -> Z;
  n_burst : nat
}.

Definition M (A : Type) : Type := Mon event state A.

Definition store (adr v : Z) : M unit :=
  fun s => Run [] (State (fun a => if a =? adr then v else mem s a) (n_burst s)) (Done tt).

Definition load (adr : Z) : M Z := fun s => Run [] s (Done (mem s adr)).

Section Backend.

(** The drive routine of [srq1571.inc], which is not part of the sources at
    hand, as a list of bytes. *)
Variable srq1571_drive_prog : list Z.

(** The library primitives behind the backend.  [cbm_identify] gives its
    return value and the device type it stores; [cbm_upload] gives the [int]
    it returns; the burst read gives its bytes by the number of the call;
    the track read gives the memory it leaves behind and its return value. *)
Variable cbm_identify_result : Z -> Z * cbm_device_type_e.
Variable cbm_upload_result : Z -> Z -> list Z -> Z -> Z.
Variable cbm_srq_burst_read_sample : nat -> Z.
Variable cbm_srq_burst_read_track_result : (Z -> Z) -> Z -> Z -> (Z -> Z) * Z.

(** Whether [USE_HANDSHAKED_READ_BLOCK] is defined when the file is built. *)
Variable USE_HANDSHAKED_READ_BLOCK : bool.

Definition cbm_identify (drive : Z) : M (Z * cbm_device_type_e) :=
  emit (EvIdentify drive) ;;
  ret (cbm_identify_result drive).

Definition cbm_upload (drive adr : Z) (prog : list Z) (size : Z) : M Z :=
  emit (EvUpload drive adr prog size) ;;
  ret (cbm_upload_result drive adr prog size).

Definition cbm_srq_burst_read : M Z :=
  fun s =>
    let c := cbm_srq_burst_read_sample (n_burst s) in
    Run [EvBurstRead c] (State (mem s) (S (n_burst s))) (Done c).

Definition cbm_srq_burst_write (c : Z) : M unit := emit (EvBurstWrite c).

Definition cbm_srq_burst_read_track (buffer length : Z) : M Z :=
  fun s =>
    let r := cbm_srq_burst_read_track_result (mem s) buffer length in
    Run [EvBurstReadTrack buffer length] (State (fst r) (n_burst s)) (Done (snd r)).

Definition assert (b : bool) : M unit := if b then ret tt else fault.

Definition upload (drive : Z) : M Z :=
  id <- cbm_identify drive ;;
  if negb (fst id =? 0) then ret 1
  else
    match snd id with
    | cbm_dt_cbm1541 =>
        emit (EvDebugError "1541 not supported!") ;;
        ret 1
    | cbm_dt_cbm1581 =>
        emit (EvDebugError "1581 not supported yet!") ;;
        ret 1
    | cbm_dt_cbm1570 | cbm_dt_cbm1571 =>
        emit (EvDebugPrint "recognized 1571.") ;;
        let srq_drive_prog := srq1571_drive_prog in
        let srq_drive_prog_length := wrap32 (Z.of_nat (List.length srq1571_drive_prog)) in
        assert (srq_drive_prog_length <? 0x100) ;;
        r <- cbm_upload drive 0x700 srq_drive_prog srq_drive_prog_length ;;
        let bytesWritten := wrap32 r in
        if negb (bytesWritten =? srq_drive_prog_length) then
          emit (EvDebugError
                  "wanted to write %u bytes, but only %u bytes could be written") ;;
          ret 1
        else ret 0
    | cbm_dt_unknown | cbm_dt_other _ =>
        emit (EvDebugError "unknown device type!") ;;
        ret 1
    end.

Definition init (drive : Z) : M Z :=
  emit (EvSleep 1) ;;
  ret 0.

Definition read1byte (c1 : Z) : M Z :=
  let ret_ := 0 in
  c <- cbm_srq_burst_read ;;
  store c1 c ;;
  ret ret_.

Definition read2byte (c1 c2 : Z) : M Z :=
  let ret_ := 0 in
  c <- cbm_srq_burst_read ;;
  store c1 c ;;
  c' <- cbm_srq_burst_read ;;
  store c2 c' ;;
  ret ret_.

(** [for (; length < 0x100; length++) read1byte(fd, p++);] *)
Fixpoint readblock_loop (fuel : nat) (p length : Z) : M unit :=
  if length <? 0x100 then
    match fuel with
    | O => spin
    | S fuel' =>
        read1byte p ;;
        readblock_loop fuel' (p + 1) (wrap32 (length + 1))
    end
  else ret tt.

Definition readblock (fuel : nat) (p length : Z) : M Z :=
  if USE_HANDSHAKED_READ_BLOCK then
    readblock_loop fuel p length ;;
    ret 0
  else cbm_srq_burst_read_track p (wrap32 (0x100 - length)).

Definition write1byte (c1 : Z) : M Z :=
  let ret_ := 0 in
  cbm_srq_burst_write c1 ;;
  ret ret_.

Definition write2byte (c1 c2 : Z) : M Z :=
  let ret_ := 0 in
  cbm_srq_burst_write c1 ;;
  cbm_srq_burst_write c2 ;;
  ret ret_.

(** [for (; length < 0x100; ++length) cbm_srq_burst_write(fd, *p++);] *)
Fixpoint writeblock_loop (fuel : nat) (p length : Z) : M unit :=
  if length <? 0x100 then
    match fuel with
    | O => spin
    | S fuel' =>
        c <- load p ;;
        cbm_srq_burst_write c ;;
        writeblock_loop fuel' (p + 1) (wrap32 (length + 1))
    end
  else ret tt.

Definition writeblock (fuel : nat) (p length : Z) : M Z :=
  writeblock_loop fuel p length ;;
  ret 0.

End Backend.

End Srq.

Module Board.

Import Xum1541.

(** ** board-minimus.h, board-minimus.c: the ports of the board

    The IEC lines are on port B ([IEC_DDR] is DDRB, [IEC_PORT] is PORTB,
    [IEC_PIN] is PINB); the parallel port has its upper four bits on port C
    and its lower four on port D, which the LED shares. *)

Definition PAR_PORT0_MASK : Z := 0xf0.
Definition PAR_PORT1_MASK : Z := 0x0f.
Definition LED_MASK : Z := _BV 5.

(** The registers that keep what is written to them, and the two that read
    the pins of the ports C and D. *)
Inductive register := DDRB | PORTB | DDRC | PORTC | DDRD | PORTD.
Inductive input := PINC | PIND.

Definition IEC_PORT : register := PORTB.
Definition PAR_PORT0_DDR : register := DDRC.
Definition PAR_PORT0_PORT : register := PORTC.
Definition PAR_PORT0_PIN : input := PINC.
Definition PAR_PORT1_DDR : register := DDRD.
Definition PAR_PORT1_PORT : register := PORTD.
Definition PAR_PORT1_PIN : input := PIND.
Definition LED_DDR : register := DDRD.
Definition LED_PORT : register := PORTD.

(** An access of the IEC port through the line accessors is an event of the
    serial engine; [EvDelayNs] is a [DELAY_US] of a fraction of a
    microsecond, in nanoseconds. *)
Inductive event :=
| EvIec (e : Xum1541.event)
| EvWrite (r : register) (v : Z)
| EvInput (p : input) (v : Z)
| EvDelayNs (ns : Z).

Record env := Env {
  iec_env : Xum1541.env;
  input_sample : input -> nat -> Z    (* the n-th read of PINC, of PIND *)
}.

(** The state of the serial engine, with [IEC_DDR] in it, and the other
    registers. *)
Record state := State {
  iec : Xum1541.state;
  port_b : Z;
  ddr_c : Z;
  port_c : Z;
  ddr_d : Z;
  port_d : Z;
  n_pinc : nat;
  n_pind : nat
}.

Definition M (A : Type) : Type := Mon event state A.

Definition get (r : register) (s : state) : Z :=
  match r with
  | DDRB => IEC_DDR (iec s)
  | PORTB => port_b s
  | DDRC => ddr_c s
  | PORTC => port_c s
  | DDRD => ddr_d s
  | PORTD => port_d s
  end.

Definition with_iec (s : state) (i : Xum1541.state) : state :=
  State i (port_b s) (ddr_c s) (port_c s) (ddr_d s) (port_d s) (n_pinc s) (n_pind s).

Definition set (r : register) (v : Z) (s : state) : state :=
  match r with
  | DDRB =>
      with_iec s (Xum1541.State v (eoi (iec s)) (n_pin (iec s)) (n_timer (iec s))
                                (n_recv (iec s)) (n_send (iec s)))
  | PORTB => State (iec s) v (ddr_c s) (port_c s) (ddr_d s) (port_d s) (n_pinc s) (n_pind s)
  | DDRC => State (iec s) (port_b s) v (port_c s) (ddr_d s) (port_d s) (n_pinc s) (n_pind s)
  | PORTC => State (iec s) (port_b s) (ddr_c s) v (ddr_d s) (port_d s) (n_pinc s) (n_pind s)
  | DDRD => State (iec s) (port_b s) (ddr_c s) (port_c s) v (port_d s) (n_pinc s) (n_pind s)
  | PORTD => State (iec s) (port_b s) (ddr_c s) (port_c s) (ddr_d s) v (n_pinc s) (n_pind s)
  end.

Definition read_reg (r : register) : M Z := fun s => Run [] s (Done (get r s)).

Definition write_reg (r : register) (v : Z) : M unit :=
  fun s => Run [EvWrite r v] (set r v s) (Done tt).

(** [reg &= m] and [reg |= m]. *)
Definition and_reg (r : register) (m : Z) : M unit :=
  v <- read_reg r ;;
  write_reg r (Z.land v m).

Definition or_reg (r : register) (m : Z) : M unit :=
  v <- read_reg r ;;
  write_reg r (Z.lor v m).

(** [DELAY_US(0.375)] is [DELAY_NS 375]. *)
Definition DELAY_NS (ns : Z) : M unit := emit (EvDelayNs ns).

(** A computation of the serial engine, run on the IEC port of the board. *)
Definition lift {A} (m : Xum1541.M A) : M A :=
  fun s =>
    let r := m (iec s) in
    Run (map EvIec (emitted r)) (with_iec s (final r)) (result r).

Section Ports.

Variable E : env.

Definition read_input (p : input) : M Z :=
  fun s =>
    match p with
    | PINC =>
        let v := input_sample E PINC (n_pinc s) in
        Run [EvInput PINC v]
            (State (iec s) (port_b s) (ddr_c s) (port_c s) (ddr_d s) (port_d s)
                   (S (n_pinc s)) (n_pind s))
            (Done v)
    | PIND =>
        let v := input_sample E PIND (n_pind s) in
        Run [EvInput PIND v]
            (State (iec s) (port_b s) (ddr_c s) (port_c s) (ddr_d s) (port_d s)
                   (n_pinc s) (S (n_pind s)))
            (Done v)
    end.

(** board-minimus.c *)
Definition board_init_iec : M unit :=
  write_reg DDRB 0xFF ;;
  write_reg IEC_PORT 0xFF ;;
  and_reg PAR_PORT0_DDR (Z.lnot PAR_PORT0_MASK) ;;
  and_reg PAR_PORT1_DDR (Z.lnot PAR_PORT1_MASK) ;;
  and_reg PAR_PORT0_PORT (Z.lnot PAR_PORT0_MASK) ;;
  and_reg PAR_PORT1_PORT (Z.lnot PAR_PORT1_MASK).

(** board-minimus.h *)
Definition iec_pp_read : M Z :=
  and_reg PAR_PORT0_DDR (Z.lnot PAR_PORT0_MASK) ;;
  and_reg PAR_PORT1_DDR (Z.lnot PAR_PORT1_MASK) ;;
  and_reg PAR_PORT0_PORT (Z.lnot PAR_PORT0_MASK) ;;
  and_reg PAR_PORT1_PORT (Z.lnot PAR_PORT1_MASK) ;;
  p0 <- read_input PAR_PORT0_PIN ;;
  let retval := Z.land p0 PAR_PORT0_MASK in
  p1 <- read_input PAR_PORT1_PIN ;;
  let retval := Z.lor retval (Z.land p1 PAR_PORT1_MASK) in
  ret retval.

Definition iec_pp_write (val : Z) : M unit :=
  or_reg PAR_PORT0_DDR PAR_PORT0_MASK ;;
  or_reg PAR_PORT1_DDR PAR_PORT1_MASK ;;
  and_reg PAR_PORT0_PORT (Z.lnot PAR_PORT0_MASK) ;;
  and_reg PAR_PORT1_PORT (Z.lnot PAR_PORT1_MASK) ;;
  or_reg PAR_PORT0_PORT (Z.land val PAR_PORT0_MASK) ;;
  or_reg PAR_PORT1_PORT (Z.land val PAR_PORT1_MASK).

(** [while (!iec_get(IO_SRQ)) ;] and [while (iec_get(IO_SRQ)) ;] have no
    bound of their own: [fuel] bounds the number of their iterations. *)
Fixpoint wait_srq_pulled (fuel : nat) : M unit :=
  q <- lift (iec_get (iec_env E) IO_SRQ) ;;
  if negb q then
    match fuel with
    | O => spin
    | S fuel' => wait_srq_pulled fuel'
    end
  else ret tt.

Fixpoint wait_srq_released (fuel : nat) : M unit :=
  q <- lift (iec_get (iec_env E) IO_SRQ) ;;
  if q then
    match fuel with
    | O => spin
    | S fuel' => wait_srq_released fuel'
    end
  else ret tt.

(** [for (i = 8; i != 0; --i)], by the number of iterations left. *)
Fixpoint iec_srq_read_bits (fuel i : nat) (data : Z) : M Z :=
  match i with
  | O => ret data
  | S i' =>
      wait_srq_pulled fuel ;;
      wait_srq_released fuel ;;
      DELAY_NS 375 ;;
      d <- lift (iec_get (iec_env E) IO_DATA) ;;
      iec_srq_read_bits fuel i' (wrap8 (Z.lor (Z.shiftl data 1) (if d then 0 else 1)))
  end.

Definition iec_srq_read (fuel : nat) : M Z :=
  let data := 0 in
  iec_srq_read_bits fuel 8 data.

Fixpoint iec_srq_write_bits (i : nat) (port_base_data data : Z) : M unit :=
  match i with
  | O => ret tt
  | S i' =>
      write_reg DDRB
                (Z.lor (Z.lxor (Z.land (Z.shiftr data 5) IO_DATA) IO_DATA) port_base_data) ;;
      let data := wrap8 (Z.shiftl data 1) in
      DELAY_NS 300 ;;
      lift (iec_release IO_SRQ) ;;
      DELAY_NS 800 ;;
      iec_srq_write_bits i' port_base_data data
  end.

Definition iec_srq_write (data : Z) : M unit :=
  ddr <- read_reg DDRB ;;
  let port_base_data := Z.lor (Z.land ddr IO_ATN) IO_SRQ in
  iec_srq_write_bits 8 port_base_data data.

End Ports.

(** *** Reading the traces of the board *)

(** [IEC_DDR] after an event. *)
Definition drive (ddr : Z) (e : event) : Z :=
  match e with
  | EvIec e' => Xum1541.drive ddr e'
  | EvWrite DDRB v => v
  | _ => ddr
  end.

(** The level of DATA that a sender presents at each release of SRQ, from
    the direction register [ddr] on: [true] when it leaves DATA released. *)
Fixpoint data_at_srq_release (ddr : Z) (tr : list event) : list bool :=
  match tr with
  | [] => []
  | e :: tr' =>
      match e with
      | EvIec (EvRelease line) =>
          if Z.land line IO_SRQ =? 0 then data_at_srq_release (drive ddr e) tr'
          else (Z.land (drive ddr e) IO_DATA =? 0)
                 :: data_at_srq_release (drive ddr e) tr'
      | _ => data_at_srq_release (drive ddr e) tr'
      end
  end.

(** The time a trace spends in its delays, in nanoseconds. *)
Fixpoint elapsed_ns (tr : list event) : Z :=
  match tr with
  | [] => 0
  | EvDelayNs ns :: tr' => ns + elapsed_ns tr'
  | EvIec e' :: tr' => 1000 * Xum1541.elapsed_us [e'] + elapsed_ns tr'
  | _ :: tr' => elapsed_ns tr'
  end.

(** The pins as a receiver of the burst protocol reads them: a released line
    reads 1; CLOCK, ATN and RESET are idle. *)
Definition srq_pins (srq_released data_released : bool) : Z :=
  Z.lor (Z.lor (if srq_released then IO_SRQ else 0) (if data_released then IO_DATA else 0))
        (Z.lor (Z.lor IO_CLK IO_ATN) IO_RESET).

(** What a receiver samples while a sender presents one bit with DATA at the
    level [d]: SRQ still released for [w1] polls, then pulled (seen by the
    poll that ends the first wait), held for [w2] further polls, then
    released (seen by the poll that ends the second wait), then DATA is
    sampled. *)
Definition srq_bit_samples (w1 w2 : nat) (d : bool) : list Z :=
  (repeat (srq_pins true d) w1 ++ [srq_pins false d])
    ++ (repeat (srq_pins false d) w2 ++ [srq_pins true d])
    ++ [srq_pins true d].

Fixpoint srq_sender_samples (lag : nat -> nat) (i : nat) (ds : list bool) : list Z :=
  match ds with
  | [] => []
  | d :: ds' =>
      srq_bit_samples (lag (2 * i)%nat) (lag (2 * i + 1)%nat) d
        ++ srq_sender_samples lag (S i) ds'
  end.

(** The first [n] bits of the byte [b], highest first. *)
Fixpoint bits_from_top (n : nat) (b : Z) : list bool :=
  match n with
  | O => []
  | S n' => Z.testbit b 7 :: bits_from_top n' (wrap8 (Z.shiftl b 1))
  end.

(** The byte that shifting in the levels [ds] from the right makes of [b]. *)
Fixpoint shift_in_left (ds : list bool) (b : Z) : Z :=
  match ds with
  | [] => b
  | d :: ds' => shift_in_left ds' (wrap8 (Z.lor (Z.shiftl b 1) (if d then 1 else 0)))
  end.

(** An environment of the board whose IEC pins play a list of samples. *)
Definition scripted (wave : list Z) (idle : Z) : env :=
  Env (Xum1541.scripted wave idle []) (fun _ _ => 0).

End Board.

(** * Properties *)

(** ** Running a [bind] *)

Section MonadFacts.

Context {event state : Type}.

Lemma bind_done {A B} (m : Mon event state A) (f : A -> Mon event state B)
      (s s' : state) (tr : list event) (a : A) :
  m s = Run tr s' (Done a) ->
  bind m f s = Run (tr ++ emitted (f a s')) (final (f a s')) (result (f a s')).
Proof. intros H. unfold bind. rewrite H. reflexivity. Qed.

Lemma bind_spin {A B} (m : Mon event state A) (f : A -> Mon event state B)
      (s s' : state) (tr : list event) :
  m s = Run tr s' Spin -> bind m f s = Run tr s' Spin.
Proof. intros H. unfold bind. rewrite H. reflexivity. Qed.

Lemma run_eta {A} (r : run event state A) :
  r = Run (emitted r) (final r) (result r).
Proof. destruct r; reflexivity. Qed.

Lemma wp_ret {A} (a : A) (s : state) (Q : list event -> state -> outcome A -> Prop) :
  Q [] s (Done a) -> wp (ret a) s Q.
Proof. intros H. exact H. Qed.

Lemma wp_run {A} (c : Mon event state A) (s s' : state) (tr : list event)
      (o : outcome A) (Q : list event -> state -> outcome A -> Prop) :
  c s = Run tr s' o -> Q tr s' o -> wp c s Q.
Proof. intros H HQ. unfold wp. rewrite H. exact HQ. Qed.

Lemma wp_bind {A B} (m : Mon event state A) (f : A -> Mon event state B) (s : state)
      (Q : list event -> state -> outcome B -> Prop) :
  wp m s (fun tr1 s1 o1 =>
            match o1 with
            | Done a => wp (f a) s1 (fun tr2 s2 o2 => Q (tr1 ++ tr2) s2 o2)
            | Spin => Q tr1 s1 Spin
            | Fault => Q tr1 s1 Fault
            end) ->
  wp (bind m f) s Q.
Proof.
  unfold wp, bind. destruct (m s) as [tr1 s1 [a| |]]; cbn [emitted final result];
    intros H; exact H.
Qed.

Lemma wp_weaken {A} (c : Mon event state A) (s : state)
      (Q Q' : list event -> state -> outcome A -> Prop) :
  wp c s Q -> (forall tr s' o, Q tr s' o -> Q' tr s' o) -> wp c s Q'.
Proof. unfold wp. intros H HQ. apply HQ. exact H. Qed.

Lemma wp_elim {A} (c : Mon event state A) (s : state)
      (Q : list event -> state -> outcome A -> Prop) :
  wp c s Q -> Q (emitted (c s)) (final (c s)) (result (c s)).
Proof. intros H. exact H. Qed.

End MonadFacts.

Import Xum1541.

(** ** The logical-to-physical line table *)

Lemma iec2hw_small_index (i : Z) :
  0 <= i <= 15 ->
  i = 0 \/ i = 1 \/ i = 2 \/ i = 3 \/ i = 4 \/ i = 5 \/ i = 6 \/ i = 7 \/
  i = 8 \/ i = 9 \/ i = 10 \/ i = 11 \/ i = 12 \/ i = 13 \/ i = 14 \/ i = 15.
Proof. lia. Qed.

(** C3: for each of the 16 combinations [i] of the logical lines DATA = 1,
    CLOCK = 2, ATN = 4 and RESET = 8, [iec2hw i] is the bitwise OR of the
    physical masks [IO_DATA], [IO_CLK], [IO_ATN], [IO_RESET] of exactly the
    lines whose logical bit is set in [i]. *)
Theorem iec2hw_or_of_set_lines (i : Z) :
  0 <= i <= 15 ->
  iec2hw i = Some (or_of_set_lines i).
Proof.
  intros Hi.
  destruct (iec2hw_small_index i Hi) as
    [-> | [-> | [-> | [-> | [-> | [-> | [-> | [-> |
    [-> | [-> | [-> | [-> | [-> | [-> | [-> | ->]]]]]]]]]]]]]]];
    reflexivity.
Qed.

Lemma iec2hw_or_of_set_lines_witness :
  iec2hw 13 = Some (Z.lor IO_DATA (Z.lor IO_ATN IO_RESET)).
Proof.
  apply (iec2hw_or_of_set_lines 13). lia.
Defined.

Lemma iec2hw_in_bounds (iec : Z) :
  0 <= iec -> (iec2hw iec <> None <-> iec <= 15).
Proof.
  intros H0. unfold iec2hw. rewrite nth_error_Some.
  change (List.length iec2hw_table) with 16%nat. lia.
Qed.

(** C9: [iec2hw] indexes its table of 16 entries with the raw argument, and
    [xu1541_setrelease] hands the caller's [set] and [release] bytes to it
    unchecked: the reads stay inside the table exactly when both are at most
    15, and then the call is [iec_set_release] on the two table entries. *)
Theorem xu1541_setrelease_in_bounds_iff (set release : Z) (s : state) :
  0 <= set < 256 -> 0 <= release < 256 ->
  (iec2hw set <> None <-> set <= 15) /\
  (iec2hw release <> None <-> release <= 15) /\
  (result (xu1541_setrelease set release s) <> Fault <-> set <= 15 /\ release <= 15) /\
  (set <= 15 -> release <= 15 ->
   exists hs hr,
     nth_error iec2hw_table (Z.to_nat set) = Some hs /\
     nth_error iec2hw_table (Z.to_nat release) = Some hr /\
     xu1541_setrelease set release s = iec_set_release hs hr s).
Proof.
  intros Hs Hr.
  pose proof (iec2hw_in_bounds set (proj1 Hs)) as Bs.
  pose proof (iec2hw_in_bounds release (proj1 Hr)) as Br.
  split; [exact Bs|]. split; [exact Br|].
  unfold xu1541_setrelease.
  destruct (iec2hw set) as [hs|] eqn:Es; destruct (iec2hw release) as [hr|] eqn:Er.
  - split.
    + split; [intros _; split; [apply Bs | apply Br]; discriminate|].
      intros _. cbn. discriminate.
    + intros _ _. exists hs, hr. unfold iec2hw in Es, Er. auto.
  - assert (~ release <= 15) by (rewrite <- Br; intros N; apply N; reflexivity).
    split; [|lia].
    split; [cbn; intros N; exfalso; apply N; reflexivity | lia].
  - assert (~ set <= 15) by (rewrite <- Bs; intros N; apply N; reflexivity).
    split; [|lia].
    split; [cbn; intros N; exfalso; apply N; reflexivity | lia].
  - assert (~ set <= 15) by (rewrite <- Bs; intros N; apply N; reflexivity).
    split; [|lia].
    split; [cbn; intros N; exfalso; apply N; reflexivity | lia].
Qed.

Lemma xu1541_setrelease_in_bounds_iff_witness :
  result (xu1541_setrelease 16 1 (State 0 0 0 0 0 0)) = Fault /\
  result (xu1541_setrelease 2 15 (State 0 0 0 0 0 0)) <> Fault.
Proof.
  pose proof (xu1541_setrelease_in_bounds_iff 16 1 (State 0 0 0 0 0 0)
                ltac:(lia) ltac:(lia)) as [_ [_ [H16 _]]].
  pose proof (xu1541_setrelease_in_bounds_iff 2 15 (State 0 0 0 0 0 0)
                ltac:(lia) ltac:(lia)) as [_ [_ [H2 _]]].
  split.
  - reflexivity.
  - apply H2. lia.
Defined.

(** ** Bus-free detection *)

(** C7: [check_if_bus_free] returns 1 only when DATA is sampled released at
    both checks before the ATN probe and released again after ATN has been
    released (with a drive pulling DATA while ATN is held); whenever DATA is
    sampled asserted at one of the two checks before the probe or at the check
    after the release, or no drive pulls DATA while ATN is held, it returns
    0. *)
Theorem check_if_bus_free_samples (E : env) (s : state) :
  let p0 := pin_sample E (n_pin s) in
  let p1 := pin_sample E (S (n_pin s)) in
  let p2 := pin_sample E (S (S (n_pin s))) in
  let p3 := pin_sample E (S (S (S (n_pin s)))) in
  let all_lines := Z.lor (Z.lor (Z.lor IO_ATN IO_CLK) IO_DATA) IO_RESET in
  let r := check_if_bus_free E s in
  result r =
    Done (if negb (asserted IO_DATA p0) && negb (asserted IO_DATA p1)
             && asserted IO_DATA p2 && negb (asserted IO_DATA p3)
          then 1 else 0) /\
  (result r = Done 1 ->
   emitted r =
     [ EvRelease all_lines; EvDelayUs 50; EvPin p0; EvDelayUs 50; EvPin p1;
       EvSet IO_ATN; EvDelayUs 100; EvPin p2;
       EvRelease IO_ATN; EvDelayUs 100; EvPin p3 ]) /\
  (asserted IO_DATA p0 = true -> result r = Done 0) /\
  (asserted IO_DATA p0 = false -> asserted IO_DATA p1 = true -> result r = Done 0) /\
  (asserted IO_DATA p0 = false -> asserted IO_DATA p1 = false ->
   asserted IO_DATA p2 = false -> result r = Done 0) /\
  (asserted IO_DATA p0 = false -> asserted IO_DATA p1 = false ->
   asserted IO_DATA p2 = true -> asserted IO_DATA p3 = true -> result r = Done 0).
Proof.
  cbv zeta. unfold check_if_bus_free, asserted.
  cbn [bind iec_release DELAY_US emit iec_get read_IEC_PIN ret iec_set
       result final emitted n_pin IEC_DDR eoi n_timer n_recv n_send app].
  destruct (Z.land (pin_sample E (n_pin s)) IO_DATA =? 0) eqn:D0;
    cbn [bind iec_release DELAY_US emit iec_get read_IEC_PIN ret iec_set
         result final emitted n_pin negb andb app].
  { repeat split; try reflexivity; try discriminate. }
  destruct (Z.land (pin_sample E (S (n_pin s))) IO_DATA =? 0) eqn:D1;
    cbn [bind iec_release DELAY_US emit iec_get read_IEC_PIN ret iec_set
         result final emitted n_pin negb andb app].
  { repeat split; try reflexivity; try discriminate. }
  destruct (Z.land (pin_sample E (S (S (n_pin s)))) IO_DATA =? 0) eqn:D2;
    cbn [bind iec_release DELAY_US emit iec_get read_IEC_PIN ret iec_set
         result final emitted n_pin negb andb app].
  2: { repeat split; try reflexivity; try discriminate. }
  destruct (Z.land (pin_sample E (S (S (S (n_pin s))))) IO_DATA =? 0) eqn:D3;
    cbn [bind iec_release DELAY_US emit iec_get read_IEC_PIN ret iec_set
         result final emitted n_pin negb andb app];
    repeat split; try reflexivity; try discriminate.
Qed.

Lemma check_if_bus_free_samples_witness :
  result (check_if_bus_free
            (Env (fun n => nth n [0xFF; 0xFB; 0xFB; 0xFF] 0xFF)
                 (fun _ => true) (fun _ => (0, 0)) (fun _ _ => 0))
            (State 0 0 0 0 0 0)) = Done 0.
Proof.
  pose proof (check_if_bus_free_samples
                (Env (fun n => nth n [0xFF; 0xFB; 0xFB; 0xFF] 0xFF)
                     (fun _ => true) (fun _ => (0, 0)) (fun _ _ => 0))
                (State 0 0 0 0 0 0)) as [_ [_ [_ [H _]]]].
  apply H; reflexivity.
Defined.

(** ** The burst backend *)

Lemma wrap32_small (x : Z) : 0 <= x < 4294967296 -> wrap32 x = x.
Proof. intros H. unfold wrap32. apply Z.mod_small. exact H. Qed.

Lemma writeblock_loop_run (fuel : nat) :
  forall (p length : Z) (s : Srq.state),
    0 <= length <= 256 ->
    (Z.to_nat (256 - length) <= fuel)%nat ->
    Srq.writeblock_loop fuel p length s =
    Run (map (fun a => Srq.EvBurstWrite (Srq.mem s a)) (Zseq p (Z.to_nat (256 - length))))
        s (Done tt).
Proof.
  induction fuel as [|fuel IH]; intros p length s Hl Hf.
  - assert (length = 256) as -> by lia.
    reflexivity.
  - destruct (Z.ltb_spec length 256) as [Hlt|Hge].
    + cbn [Srq.writeblock_loop].
      replace (length <? 256) with true by (symmetry; apply Z.ltb_lt; exact Hlt).
      rewrite wrap32_small by lia.
      cbn [bind Srq.load Srq.cbm_srq_burst_write emit result final emitted app].
      rewrite IH by lia.
      cbn [result final emitted].
      replace (Z.to_nat (256 - length)) with (S (Z.to_nat (256 - (length + 1)))) by lia.
      reflexivity.
    + assert (length = 256) as -> by lia.
      reflexivity.
Qed.

Lemma writeblock_loop_past (fuel : nat) (p length : Z) (s : Srq.state) :
  256 <= length ->
  Srq.writeblock_loop fuel p length s = Run [] s (Done tt).
Proof.
  intros H.
  assert ((length <? 256) = false) as Hf by (apply Z.ltb_ge; exact H).
  destruct fuel; cbn [Srq.writeblock_loop]; rewrite Hf; reflexivity.
Qed.

Lemma readblock_loop_run (burst : nat -> Z) (fuel : nat) :
  forall (p length : Z) (s : Srq.state),
    0 <= length <= 256 ->
    (Z.to_nat (256 - length) <= fuel)%nat ->
    let n := Z.to_nat (256 - length) in
    let r := Srq.readblock_loop burst fuel p length s in
    result r = Done tt /\
    emitted r = map (fun i => Srq.EvBurstRead (burst i)) (seq (Srq.n_burst s) n) /\
    Srq.n_burst (final r) = (Srq.n_burst s + n)%nat /\
    (forall a,
        Srq.mem (final r) a =
        if (p <=? a) && (a <? p + Z.of_nat n)
        then burst (Srq.n_burst s + Z.to_nat (a - p))%nat
        else Srq.mem s a).
Proof.
  induction fuel as [|fuel IH]; intros p length s Hl Hf n r.
  - assert (length = 256) as -> by lia.
    subst n r. cbn. repeat split; try lia.
    intros a. replace (a <? p + 0) with (a <? p) by (f_equal; lia).
    destruct (Z.leb_spec p a); destruct (Z.ltb_spec a p); try reflexivity; lia.
  - destruct (Z.ltb_spec length 256) as [Hlt|Hge].
    + subst r. cbn [Srq.readblock_loop].
      replace (length <? 256) with true by (symmetry; apply Z.ltb_lt; exact Hlt).
      rewrite wrap32_small by lia.
      set (s1 := Srq.State (fun a => if a =? p then burst (Srq.n_burst s) else Srq.mem s a)
                           (S (Srq.n_burst s))).
      assert (Srq.read1byte burst p s = Run [Srq.EvBurstRead (burst (Srq.n_burst s))] s1 (Done 0))
        as H1 by reflexivity.
      rewrite (bind_done _ _ _ _ _ _ H1).
      destruct (IH (p + 1) (length + 1) s1 ltac:(lia) ltac:(lia)) as (Hr & He & Hn & Hm).
      cbn [result emitted final].
      assert (n = S (Z.to_nat (256 - (length + 1)))) as Hn' by (subst n; lia).
      rewrite Hn'.
      repeat split.
      * exact Hr.
      * rewrite He. reflexivity.
      * rewrite Hn. cbn. lia.
      * intros a. rewrite Hm. cbn [Srq.mem Srq.n_burst s1].
        set (m := Z.to_nat (256 - (length + 1))).
        destruct (Z.leb_spec (p + 1) a); destruct (Z.ltb_spec a (p + 1 + Z.of_nat m));
          destruct (Z.leb_spec p a); destruct (Z.ltb_spec a (p + Z.of_nat (S m)));
          destruct (Z.eqb_spec a p); cbn [andb]; try lia; try reflexivity.
        -- f_equal. lia.
        -- subst a. f_equal. lia.
    + assert (length = 256) as -> by lia.
      subst n r. cbn. repeat split; try lia.
      intros a. replace (a <? p + 0) with (a <? p) by (f_equal; lia).
      destruct (Z.leb_spec p a); destruct (Z.ltb_spec a p); try reflexivity; lia.
Qed.

(** C8: started with [length < 256], [writeblock] hands the [256 - length]
    consecutive bytes of the buffer at [p] to the one-byte burst write, one
    call each, and returns 0; [readblock] transfers [256 - length] bytes, in
    one delegated track read, or byte by byte when the handshaked variant is
    built; started with [length >= 256], [writeblock] writes nothing and
    returns 0. *)
Theorem block_transfers_reach_256
        (burst : nat -> Z) (track : (Z -> Z) -> Z -> Z -> (Z -> Z) * Z)
        (fuel : nat) (p length : Z) (s : Srq.state) (handshaked : bool) :
  0 <= length < 4294967296 ->
  (length < 256 ->
   (Z.to_nat (256 - length) <= fuel)%nat ->
   Srq.writeblock fuel p length s =
     Run (map (fun a => Srq.EvBurstWrite (Srq.mem s a)) (Zseq p (Z.to_nat (256 - length))))
         s (Done 0) /\
   List.length (emitted (Srq.writeblock fuel p length s)) = Z.to_nat (256 - length) /\
   (handshaked = false ->
    Srq.readblock burst track handshaked fuel p length s =
      Run [Srq.EvBurstReadTrack p (256 - length)]
          (Srq.State (fst (track (Srq.mem s) p (256 - length))) (Srq.n_burst s))
          (Done (snd (track (Srq.mem s) p (256 - length))))) /\
   (handshaked = true ->
    let r := Srq.readblock burst track handshaked fuel p length s in
    result r = Done 0 /\
    emitted r = map (fun i => Srq.EvBurstRead (burst i))
                    (seq (Srq.n_burst s) (Z.to_nat (256 - length))) /\
    (forall i, 0 <= i < 256 - length ->
               Srq.mem (final r) (p + i) = burst (Srq.n_burst s + Z.to_nat i)%nat))) /\
  (256 <= length ->
   Srq.writeblock fuel p length s = Run [] s (Done 0)).
Proof.
  intros Hl. split.
  - intros Hlt Hf.
    assert (Srq.writeblock fuel p length s =
            Run (map (fun a => Srq.EvBurstWrite (Srq.mem s a))
                     (Zseq p (Z.to_nat (256 - length)))) s (Done 0)) as Hw.
    { unfold Srq.writeblock.
      rewrite (bind_done _ _ _ _ _ _ (writeblock_loop_run fuel p length s ltac:(lia) Hf)).
      cbn [ret emitted final result]. rewrite app_nil_r. reflexivity. }
    split; [exact Hw|]. split.
    { rewrite Hw. cbn [emitted]. rewrite length_map.
      generalize (Z.to_nat (256 - length)) p. clear.
      induction n as [|n IH]; intros p; cbn; [reflexivity | rewrite IH; reflexivity]. }
    split.
    + intros ->. unfold Srq.readblock, Srq.cbm_srq_burst_read_track.
      rewrite wrap32_small by lia. reflexivity.
    + intros ->. cbv zeta. unfold Srq.readblock.
      destruct (readblock_loop_run burst fuel p length s ltac:(lia) Hf) as (Hr & He & Hn & Hm).
      pose proof (run_eta (Srq.readblock_loop burst fuel p length s)) as Heta.
      rewrite Hr in Heta.
      rewrite (bind_done _ _ _ _ _ _ Heta).
      cbn [ret emitted final result]. rewrite app_nil_r.
      repeat split.
      * exact He.
      * intros i Hi. rewrite Hm.
        destruct (Z.leb_spec p (p + i)); destruct (Z.ltb_spec (p + i) (p + Z.of_nat (Z.to_nat (256 - length))));
          cbn [andb]; try lia.
        f_equal. lia.
  - intros Hge. unfold Srq.writeblock.
    rewrite (bind_done _ _ _ _ _ _ (writeblock_loop_past fuel p length s Hge)).
    reflexivity.
Qed.

Lemma block_transfers_reach_256_witness :
  Srq.writeblock 256 10 254 (Srq.State (fun a => a) 0) =
  Run [Srq.EvBurstWrite 10; Srq.EvBurstWrite 11] (Srq.State (fun a => a) 0) (Done 0).
Proof.
  pose proof (block_transfers_reach_256 (fun _ => 0) (fun m _ _ => (m, 0))
                256 10 254 (Srq.State (fun a => a) 0) false
                ltac:(lia)) as [H _].
  apply H; [lia | vm_compute; lia].
Defined.

Lemma wrap32_int_eq (w len : Z) :
  - 2147483648 <= w < 2147483648 -> 0 <= len < 256 ->
  (wrap32 w = len <-> w = len).
Proof.
  intros Hw Hl. unfold wrap32. split.
  - intros He.
    destruct (Z_lt_le_dec w 0) as [Hneg|Hpos].
    + rewrite <- (Z.mod_add w 1 4294967296) in He by lia.
      rewrite Z.mod_small in He by lia. lia.
    + rewrite Z.mod_small in He by lia. exact He.
  - intros ->. apply Z.mod_small. lia.
Qed.

(** C6: on a drive identified as a 1570 or 1571, [upload] returns 0 exactly
    when the upload primitive reports the length of the drive routine as
    written, and 1 for every other count, in particular every lesser one; a
    drive routine of 256 bytes or more stops at the assertion, before the
    upload primitive is called. *)
Theorem upload_checks_written_count
        (prog : list Z) (ident : Z -> Z * Srq.cbm_device_type_e)
        (upl : Z -> Z -> list Z -> Z -> Z)
        (drive : Z) (t : Srq.cbm_device_type_e) (s : Srq.state) :
  let len := Z.of_nat (List.length prog) in
  let written := upl drive 0x700 prog len in
  let r := Srq.upload prog ident upl drive s in
  ident drive = (0, t) ->
  t = Srq.cbm_dt_cbm1570 \/ t = Srq.cbm_dt_cbm1571 ->
  len < 4294967296 ->
  - 2147483648 <= written < 2147483648 ->
  (len < 256 ->
   (result r = Done 0 <-> written = len) /\
   (written < len -> result r = Done 1) /\
   (written <> len -> result r = Done 1) /\
   In (Srq.EvUpload drive 0x700 prog len) (emitted r)) /\
  (256 <= len ->
   result r = Fault /\
   forall d a p n, ~ In (Srq.EvUpload d a p n) (emitted r)).
Proof.
  intros len written r Hid Ht Hlen Hw.
  assert (wrap32 (Z.of_nat (List.length prog)) = len) as Hwl
    by (apply wrap32_small; subst len; lia).
  split.
  - intros Hsmall.
    assert ((len <? 256) = true) as Hlt by (apply Z.ltb_lt; exact Hsmall).
    pose proof (wrap32_int_eq written len Hw ltac:(lia)) as Heq.
    subst r. unfold Srq.upload, Srq.cbm_identify.
    cbn [bind emit ret result final emitted app].
    rewrite Hid. cbn [fst snd Z.eqb negb]. rewrite Hwl, Hlt.
    destruct Ht as [-> | ->];
      unfold Srq.assert, Srq.cbm_upload;
      cbn [bind emit ret result final emitted app];
      fold written;
      (destruct (Z.eqb_spec (wrap32 written) len) as [He|Hne];
       cbn [negb bind emit ret result final emitted app];
       [ apply Heq in He | assert (written <> len) by (rewrite <- Heq; exact Hne) ];
       repeat split; try tauto; try lia; try discriminate;
       try (intros _; reflexivity);
       try (right; right; left; reflexivity)).
  - intros Hbig.
    assert ((len <? 256) = false) as Hge by (apply Z.ltb_ge; exact Hbig).
    subst r. unfold Srq.upload, Srq.cbm_identify.
    cbn [bind emit ret result final emitted app].
    rewrite Hid. cbn [fst snd Z.eqb negb]. rewrite Hwl, Hge.
    destruct Ht as [-> | ->];
      unfold Srq.assert;
      cbn [bind emit fault ret result final emitted app];
      (split; [reflexivity|]);
      intros d a p n [H|[H|[]]]; discriminate H.
Qed.

Lemma upload_checks_written_count_witness :
  result (Srq.upload (repeat 0 255) (fun _ => (0, Srq.cbm_dt_cbm1571))
                     (fun _ _ _ n => n - 1) 8 (Srq.State (fun _ => 0) 0)) = Done 1 /\
  result (Srq.upload (repeat 0 256) (fun _ => (0, Srq.cbm_dt_cbm1571))
                     (fun _ _ _ n => n) 8 (Srq.State (fun _ => 0) 0)) = Fault.
Proof.
  split.
  - refine (proj1 (proj2 (proj1
      (upload_checks_written_count (repeat 0 255)
         (fun _ => (0, Srq.cbm_dt_cbm1571)) (fun _ _ _ n => n - 1) 8
         Srq.cbm_dt_cbm1571 (Srq.State (fun _ => 0) 0)
         eq_refl (or_intror eq_refl) _ _) _)) _); vm_compute; try split; congruence.
  - refine (proj1 (proj2
      (upload_checks_written_count (repeat 0 256)
         (fun _ => (0, Srq.cbm_dt_cbm1571)) (fun _ _ _ n => n) 8
         Srq.cbm_dt_cbm1571 (Srq.State (fun _ => 0) 0)
         eq_refl (or_intror eq_refl) _ _) _)); vm_compute; try split; congruence.
Defined.

(** ** The polling helpers of the serial engine *)

Ltac run_prim :=
  cbv beta iota;
  match goal with
  | |- context [@bind ?ev ?st ?A ?B ?m ?f ?s] =>
      let r := eval hnf in (m s) in
      let r := eval cbn [bind ret emit spin fault DELAY_US DELAY_MS DEBUGF cli sei
                         wdt_reset usbInitIo usbIoDone get_eoi set_eoi read_IEC_PIN
                         TimerWorker usbRecvByte usbSendByte iec_get iec_set
                         iec_release iec_set_release iec_poll iec_poll_pins
                         emitted final result app IEC_DDR eoi n_pin n_timer n_recv
                         n_send] in r in
      lazymatch r with
      | Run ?tr ?s' (Done ?a) =>
          rewrite (@bind_done ev st A B m f s s' tr a eq_refl);
          cbn [emitted final result app IEC_DDR eoi n_pin n_timer n_recv n_send]
      end
  end.

Ltac run_with H :=
  cbv beta iota;
  rewrite (bind_done _ _ _ _ _ _ H);
  cbn [emitted final result app IEC_DDR eoi n_pin n_timer n_recv n_send].

Ltac wp_prim :=
  lazymatch goal with
  | |- wp (bind ?m ?f) ?s ?Q =>
      let r := eval hnf in (m s) in
      let r := eval cbn [bind ret emit spin fault DELAY_US DELAY_MS DEBUGF cli sei
                         wdt_reset usbInitIo usbIoDone get_eoi set_eoi read_IEC_PIN
                         TimerWorker usbRecvByte usbSendByte iec_get iec_set
                         iec_release iec_set_release iec_poll iec_poll_pins
                         emitted final result app IEC_DDR eoi n_pin n_timer n_recv
                         n_send] in r in
      lazymatch r with
      | Run ?tr ?s' ?o =>
          apply wp_bind; apply (wp_run m s s' tr o _ eq_refl); cbv beta iota; cbn [negb]
      end
  end.

Ltac wp_last :=
  lazymatch goal with
  | |- wp ?c ?s ?Q =>
      let r := eval hnf in (c s) in
      let r := eval cbn [bind ret emit spin fault DELAY_US DELAY_MS DEBUGF cli sei
                         wdt_reset usbInitIo usbIoDone get_eoi set_eoi read_IEC_PIN
                         TimerWorker usbRecvByte usbSendByte iec_get iec_set
                         iec_release iec_set_release iec_poll iec_poll_pins
                         emitted final result app IEC_DDR eoi n_pin n_timer n_recv
                         n_send] in r in
      lazymatch r with
      | Run ?tr ?s' ?o => apply (wp_run c s s' tr o Q eq_refl); cbv beta iota; cbn [negb]
      end
  end.

Ltac wp_call H :=
  apply wp_bind; apply (wp_run _ _ _ _ _ _ H); cbv beta iota; cbn [negb].

Section Helpers.

Variable E : env.

Lemma sample_quiet (tr : list event) :
  forallb is_sample tr = true -> forallb quiet tr = true.
Proof.
  rewrite !forallb_forall. intros H e He.
  specialize (H e He). destruct e; try discriminate H; reflexivity.
Qed.

Lemma iec_poll_run (s : state) :
  iec_poll E s =
  Run [EvPin (pin_sample E (n_pin s))]
      (State (IEC_DDR s) (eoi s) (S (n_pin s)) (n_timer s) (n_recv s) (n_send s))
      (Done (Z.land (pin_sample E (n_pin s)) 124)).
Proof. reflexivity. Qed.

Lemma iec_get_run (line : Z) (s : state) :
  iec_get E line s =
  Run [EvPin (pin_sample E (n_pin s))]
      (State (IEC_DDR s) (eoi s) (S (n_pin s)) (n_timer s) (n_recv s) (n_send s))
      (Done (asserted line (pin_sample E (n_pin s)))).
Proof. reflexivity. Qed.

Lemma wait_timeout_2ms_loop_total (count : nat) (mask st : Z) :
  forall s,
  exists k tr,
    wait_timeout_2ms_loop E count mask st s =
    Run tr (State (IEC_DDR s) (eoi s) (k + n_pin s) (n_timer s) (n_recv s) (n_send s))
        (Done tt) /\
    forallb is_sample tr = true.
Proof.
  induction count as [|count IH]; intros s.
  - cbn [wait_timeout_2ms_loop]. run_with (iec_poll_run s).
    exists 1%nat. eexists. split.
    + destruct (Z.land (Z.land (pin_sample E (n_pin s)) 124) mask =? st); reflexivity.
    + destruct (Z.land (Z.land (pin_sample E (n_pin s)) 124) mask =? st); reflexivity.
  - cbn [wait_timeout_2ms_loop]. run_with (iec_poll_run s).
    destruct (Z.land (Z.land (pin_sample E (n_pin s)) 124) mask =? st).
    + run_prim.
      destruct (IH (State (IEC_DDR s) (eoi s) (S (n_pin s)) (n_timer s) (n_recv s) (n_send s)))
        as (k & tr & Hrun & Hq).
      rewrite Hrun. cbn [emitted final result IEC_DDR eoi n_pin n_timer n_recv n_send].
      exists (S k). eexists. split.
      * rewrite <- plus_n_Sm. reflexivity.
      * cbn [forallb is_sample andb]. exact Hq.
    + exists 1%nat. eexists. split; reflexivity.
Qed.

Lemma iec_wait_timeout_2ms_total (mask st : Z) (s : state) :
  exists k tr b,
    iec_wait_timeout_2ms E mask st s =
    Run (EvWait2ms mask st :: tr)
        (State (IEC_DDR s) (eoi s) (k + n_pin s) (n_timer s) (n_recv s) (n_send s))
        (Done b) /\
    forallb is_sample tr = true.
Proof.
  unfold iec_wait_timeout_2ms. run_prim.
  destruct (wait_timeout_2ms_loop_total 200 mask st s) as (k & tr & Hrun & Hq).
  run_with Hrun.
  match goal with
  | |- context [bind (iec_poll E) ?f ?s'] => run_with (iec_poll_run s')
  end.
  cbn [ret emitted final result IEC_DDR eoi n_pin n_timer n_recv n_send].
  exists (S k). eexists. eexists. split.
  - reflexivity.
  - rewrite forallb_app, Hq. reflexivity.
Qed.


Lemma marks_app (l1 l2 : list event) : marks (l1 ++ l2) = marks l1 ++ marks l2.
Proof.
  induction l1 as [|e l1 IH]; [reflexivity|].
  cbn [marks app]. rewrite IH. destruct (quiet e); reflexivity.
Qed.

Lemma marks_quiet (l : list event) : forallb quiet l = true -> marks l = [].
Proof.
  induction l as [|e l IH]; cbn [forallb marks]; intros H; [reflexivity|].
  apply andb_prop in H. destruct H as [He Hl]. rewrite He.
  apply IH. exact Hl.
Qed.

Lemma marks_sample (l : list event) : forallb is_sample l = true -> marks l = [].
Proof. intros H. apply marks_quiet, sample_quiet, H. Qed.




(** [iec_wait_timeout_2ms] in the form in which the loops use it. *)
Lemma iec_wait_timeout_2ms_marks (mask st : Z) (s : state) :
  exists tr s' b,
    iec_wait_timeout_2ms E mask st s = Run tr s' (Done b) /\
    marks tr = [EvWait2ms mask st] /\
    eoi s' = eoi s.
Proof.
  destruct (iec_wait_timeout_2ms_total mask st s) as (k & tr & b & Hrun & Hq).
  eexists. eexists. exists b. split; [exact Hrun|]. split; [|reflexivity].
  change (EvWait2ms mask st :: tr) with ([EvWait2ms mask st] ++ tr).
  rewrite marks_app, (marks_sample tr Hq). reflexivity.
Qed.

Lemma send_byte_bits_total (left : nat) :
  forall b s,
  exists tr s',
    send_byte_bits left b s = Run tr s' (Done tt) /\
    marks tr = [] /\
    eoi s' = eoi s.
Proof.
  induction left as [|left IH]; intros b s.
  - exists [], s. repeat split; reflexivity.
  - cbn [send_byte_bits]. run_prim.
    destruct (Z.land b 1 =? 0).
    + do 3 run_prim.
      match goal with
      | |- context [bind (iec_set_release ?a ?c) ?f ?s1] =>
          assert (iec_set_release a c s1 =
                  Run [EvSet a; EvRelease c]
                      (State (Z.land (Z.lor (IEC_DDR s1) a) (Z.lnot c)) (eoi s1)
                             (n_pin s1) (n_timer s1) (n_recv s1) (n_send s1))
                      (Done tt)) as Hsr by reflexivity;
          run_with Hsr
      end.
      match goal with
      | |- context [send_byte_bits left ?b' ?s1] =>
          destruct (IH b' s1) as (tr & s' & Hrun & Hm & He)
      end.
      rewrite Hrun. cbn [emitted final result].
      eexists. eexists. split; [reflexivity|]. split.
      * cbn [marks quiet]. exact Hm.
      * rewrite He. reflexivity.
    + do 3 run_prim.
      match goal with
      | |- context [bind (iec_set_release ?a ?c) ?f ?s1] =>
          assert (iec_set_release a c s1 =
                  Run [EvSet a; EvRelease c]
                      (State (Z.land (Z.lor (IEC_DDR s1) a) (Z.lnot c)) (eoi s1)
                             (n_pin s1) (n_timer s1) (n_recv s1) (n_send s1))
                      (Done tt)) as Hsr by reflexivity;
          run_with Hsr
      end.
      match goal with
      | |- context [send_byte_bits left ?b' ?s1] =>
          destruct (IH b' s1) as (tr & s' & Hrun & Hm & He)
      end.
      rewrite Hrun. cbn [emitted final result].
      eexists. eexists. split; [reflexivity|]. split.
      * cbn [marks quiet]. exact Hm.
      * rewrite He. reflexivity.
Qed.

Lemma send_byte_marks (b : Z) (s : state) :
  exists tr s' ack,
    send_byte E b s = Run tr s' (Done ack) /\
    marks tr =
      EvWait2ms IO_DATA IO_DATA :: (if ack then [] else [EvDebug "sndbyte nak\n"]) /\
    eoi s' = eoi s.
Proof.
  unfold send_byte.
  destruct (send_byte_bits_total 8 b s) as (tr1 & s1 & Hrun1 & Hm1 & He1).
  run_with Hrun1.
  destruct (iec_wait_timeout_2ms_marks IO_DATA IO_DATA s1) as (tr2 & s2 & ack & Hrun2 & Hm2 & He2).
  run_with Hrun2.
  exists (tr1 ++ tr2 ++ (if ack then [] else [EvDebug "sndbyte nak\n"])), s2, ack.
  split.
  - destruct ack; cbn [negb]; run_prim; reflexivity.
  - split; [|congruence].
    rewrite !marks_app, Hm1, Hm2. destruct ack; reflexivity.
Qed.

Lemma wait_for_listener_loop_marks (fuel : nat) :
  forall s,
  exists tr s' o,
    wait_for_listener_loop E fuel s = Run tr s' o /\
    marks tr = [] /\
    eoi s' = eoi s /\
    (o = Spin \/ exists ready, o = Done ready).
Proof.
  induction fuel as [|fuel IH]; intros s.
  - cbn [wait_for_listener_loop]. run_with (iec_get_run IO_DATA s).
    destruct (asserted IO_DATA (pin_sample E (n_pin s))).
    + run_prim.
      match goal with
      | |- context [timer_sample E ?n] => destruct (timer_sample E n)
      end; cbn [negb].
      * eexists. eexists. eexists. split; [reflexivity|].
        repeat split. left. reflexivity.
      * eexists. eexists. eexists. split; [reflexivity|].
        repeat split. right. eexists. reflexivity.
    + eexists. eexists. eexists. split; [reflexivity|].
      repeat split. right. eexists. reflexivity.
  - cbn [wait_for_listener_loop]. run_with (iec_get_run IO_DATA s).
    destruct (asserted IO_DATA (pin_sample E (n_pin s))).
    + run_prim.
      match goal with
      | |- context [timer_sample E ?n] => destruct (timer_sample E n)
      end; cbn [negb].
      * match goal with
        | |- context [wait_for_listener_loop E fuel ?s1] =>
            destruct (IH s1) as (tr & s' & o & Hrun & Hm & He & Ho)
        end.
        rewrite Hrun. cbn [emitted final result].
        eexists. eexists. eexists. split; [reflexivity|].
        split; [cbn [marks quiet]; exact Hm|].
        split; [rewrite He; reflexivity | exact Ho].
      * eexists. eexists. eexists. split; [reflexivity|].
        repeat split. right. eexists. reflexivity.
    + eexists. eexists. eexists. split; [reflexivity|].
      repeat split. right. eexists. reflexivity.
Qed.

Lemma wait_for_listener_marks (fuel : nat) (s : state) :
  exists tr s' o,
    wait_for_listener E fuel s = Run tr s' o /\
    marks tr = [] /\
    eoi s' = eoi s /\
    (o = Spin \/ exists ready, o = Done ready).
Proof.
  unfold wait_for_listener. run_prim.
  match goal with
  | |- context [wait_for_listener_loop E fuel ?s1] =>
      destruct (wait_for_listener_loop_marks fuel s1) as (tr & s' & o & Hrun & Hm & He & Ho)
  end.
  rewrite Hrun. cbn [emitted final result].
  eexists. eexists. eexists. split; [reflexivity|].
  split; [cbn [marks quiet]; exact Hm|].
  split; [rewrite He; reflexivity | exact Ho].
Qed.

End Helpers.

Ltac use_marks :=
  repeat progress
         (cbn [marks quiet app];
          rewrite ?marks_app;
          repeat match goal with
                 | H : marks ?t = _ |- context [marks ?t] => rewrite H
                 end).

(** ** Writing *)

Section Writing.

Variable E : env.
Variable TALK ATN : Z.

Lemma cbm_raw_write_loop_exit (inner fuel : nat) (atn len rv : Z) (s : state) :
  (len =? 0) || (rv =? 0) = true ->
  cbm_raw_write_loop E inner fuel atn len rv s = Run [] s (Done (len, rv)).
Proof.
  intros H. destruct fuel; cbn [cbm_raw_write_loop]; rewrite H; reflexivity.
Qed.

Lemma cbm_raw_write_loop_run (inner fuel : nat) :
  forall atn len rv s,
    write_run atn len rv
              (marks (emitted (cbm_raw_write_loop E inner fuel atn len rv s)))
              (result (cbm_raw_write_loop E inner fuel atn len rv s)).
Proof.
  induction fuel as [|fuel IH]; intros atn len rv s.
  - cbn [cbm_raw_write_loop].
    destruct ((len =? 0) || (rv =? 0)) eqn:Hexit.
    + apply write_exit. exact Hexit.
    + apply write_spin. exact Hexit.
  - cbn [cbm_raw_write_loop].
    destruct ((len =? 0) || (rv =? 0)) eqn:Hexit.
    { apply write_exit. exact Hexit. }
    run_prim. run_with (iec_get_run E IO_DATA s).
    destruct (asserted IO_DATA (pin_sample E (n_pin s))).
    2: { do 2 run_prim.
         rewrite cbm_raw_write_loop_exit
           by (rewrite Z.eqb_refl; apply orb_true_r).
         cbn [emitted result marks quiet app].
         apply write_no_device. exact Hexit. }
    match goal with
    | |- context [bind (wait_for_listener E inner) ?f ?s1] =>
        destruct (wait_for_listener_marks E inner s1)
          as (trl & sl & ol & Hrunl & Hml & _ & [-> | [ready ->]])
    end.
    { rewrite (bind_spin _ _ _ _ _ Hrunl). cbn [emitted result marks quiet app].
      rewrite Hml. apply write_spin. exact Hexit. }
    run_with Hrunl.
    destruct ready; cbn [negb].
    2: { run_prim. cbn [ret emitted result marks quiet app].
         use_marks. apply write_abort. exact Hexit. }
    assert (exists tre se,
               (if (len =? 1) && (atn =? 0)
                then iec_wait_timeout_2ms E IO_DATA IO_DATA ;;
                     iec_wait_timeout_2ms E IO_DATA 0 ;;
                     ret tt
                else ret tt) sl = Run tre se (Done tt) /\
               marks tre = eoi_marks atn len) as (tre & se & Hrune & Hme).
    { unfold eoi_marks. destruct ((len =? 1) && (atn =? 0)).
      - destruct (iec_wait_timeout_2ms_marks E IO_DATA IO_DATA sl)
          as (tr1 & s1 & b1 & Hrun1 & Hm1 & _).
        run_with Hrun1.
        destruct (iec_wait_timeout_2ms_marks E IO_DATA 0 s1)
          as (tr2 & s2 & b2 & Hrun2 & Hm2 & _).
        run_with Hrun2.
        eexists. eexists. split; [reflexivity|].
        cbn [ret emitted]. rewrite ?app_nil_r.
        use_marks. reflexivity.
      - eexists. eexists. split; reflexivity. }
    run_with Hrune. run_prim.
    match goal with
    | |- context [bind (usbRecvByte E) ?f ?s1] =>
        assert (usbRecvByte E s1 =
                Run [EvUsbRecvByte (fst (usb_recv_sample E (n_recv s1)))
                                   (snd (usb_recv_sample E (n_recv s1)))]
                    (State (IEC_DDR s1) (eoi s1) (n_pin s1) (n_timer s1)
                           (S (n_recv s1)) (n_send s1))
                    (Done (usb_recv_sample E (n_recv s1)))) as Hrecv by reflexivity;
        run_with Hrecv; clear Hrecv
    end.
    match goal with
    | |- context [usb_recv_sample E ?n] => destruct (usb_recv_sample E n) as [st d]
    end.
    cbn [fst snd].
    destruct (Z.eqb_spec st 0) as [->|Hst]; cbn [negb].
    2: { cbn [ret emitted result]. rewrite ?app_nil_r.
         use_marks.
         apply write_fetch_fail; assumption. }
    match goal with
    | |- context [bind (send_byte E d) ?f ?s1] =>
        destruct (send_byte_marks E d s1) as (trs & ss & ack & Hruns & Hms & _)
    end.
    run_with Hruns.
    destruct ack.
    + do 2 run_prim. use_marks.
      apply write_sent; [exact Hexit|]. apply IH.
    + do 2 run_prim.
      rewrite cbm_raw_write_loop_exit
        by (rewrite Z.eqb_refl; apply orb_true_r).
      cbn [emitted result]. rewrite ?app_nil_r.
      use_marks.
      apply write_nak. exact Hexit.
Qed.


Lemma talk_wait_loop_run (fuel : nat) (rv : Z) :
  forall s,
  exists tr s' o,
    talk_wait_loop E fuel rv s = Run tr s' o /\
    marks tr = [] /\
    (o = Spin \/ o = Done rv \/ o = Done 0).
Proof.
  induction fuel as [|fuel IH]; intros s;
    cbn [talk_wait_loop]; run_with (iec_get_run E IO_CLK s);
    (destruct (asserted IO_CLK (pin_sample E (n_pin s))); cbn [negb];
     [ eexists; eexists; eexists; split; [reflexivity|]; split; [reflexivity|]; auto | ]);
    run_prim;
    match goal with
    | |- context [timer_sample E ?n] => destruct (timer_sample E n)
    end; cbn [negb];
    try (eexists; eexists; eexists; split; [reflexivity|]; split; [reflexivity|]; auto; fail).
  match goal with
  | |- context [talk_wait_loop E fuel rv ?s1] =>
      destruct (IH s1) as (tr & s' & o & Hrun & Hm & Ho)
  end.
  rewrite Hrun. cbn [emitted final result].
  eexists. eexists. eexists. split; [reflexivity|].
  split; [cbn [marks quiet]; exact Hm | exact Ho].
Qed.

Lemma talk_turnaround_run (fuel : nat) (rv : Z) (s : state) :
  exists tr s' o,
    (iec_set IO_DATA ;;
     iec_release (Z.lor IO_CLK IO_ATN) ;;
     talk_wait_loop E fuel rv) s = Run tr s' o /\
    marks tr = [] /\
    (o = Spin \/ o = Done rv \/ o = Done 0).
Proof.
  do 2 run_prim.
  match goal with
  | |- context [talk_wait_loop E fuel rv ?s1] =>
      destruct (talk_wait_loop_run fuel rv s1) as (tr & s' & o & Hrun & Hm & Ho)
  end.
  rewrite Hrun. cbn [emitted final result].
  eexists. eexists. eexists. split; [reflexivity|].
  split; [cbn [marks quiet]; exact Hm | exact Ho].
Qed.

Lemma write_run_no_fault (atn len rv : Z) (ms : list event) (o : outcome (Z * Z)) :
  write_run atn len rv ms o -> o = Spin \/ exists l rv', o = Done (l, rv').
Proof.
  induction 1; eauto.
Qed.

(** The marks and the result of a whole [cbm_raw_write]. *)
Lemma cbm_raw_write_run (fuel : nat) (len flags : Z) (s : state) :
  let atn := wrap8 (Z.land flags ATN) in
  let talk := wrap8 (Z.land flags TALK) in
  wp (cbm_raw_write E TALK ATN fuel len flags) s
     (fun tr _ res =>
        (marks tr =
           [EvUsbInitIo len ENDPOINT_DIR_OUT; EvWait2ms IO_DATA IO_DATA;
            EvDebug "write: no devs\n"; EvUsbIoDone] /\
         res = Done 0) \/
        (exists ms o,
            write_run atn len len ms o /\
            ((o = Spin /\
              marks tr =
                [EvUsbInitIo len ENDPOINT_DIR_OUT; EvWait2ms IO_DATA IO_DATA] ++ ms /\
              res = Spin) \/
             (exists l rv,
                 o = Done (l, rv) /\
                 marks tr =
                   [EvUsbInitIo len ENDPOINT_DIR_OUT; EvWait2ms IO_DATA IO_DATA] ++ ms
                     ++ [EvUsbIoDone] /\
                 (res = Done rv \/
                  (rv <> 0 /\ talk <> 0 /\ (res = Done 0 \/ res = Spin))))))).
Proof.
  intros atn talk.
  cbv beta zeta delta [cbm_raw_write]. fold atn. fold talk.
  do 4 wp_prim.
  match goal with
  | |- wp (bind (iec_wait_timeout_2ms E IO_DATA IO_DATA) _) ?s1 _ =>
      destruct (iec_wait_timeout_2ms_marks E IO_DATA IO_DATA s1)
        as (trp & sp & dev & Hrunp & Hmp & _)
  end.
  wp_call Hrunp.
  destruct dev; cbn [negb]; cbv iota.
  2: { do 3 wp_prim. apply wp_ret. left.
       use_marks. split; reflexivity. }
  pose proof (cbm_raw_write_loop_run fuel fuel atn len len sp) as Hloop.
  remember (cbm_raw_write_loop E fuel fuel atn len len sp) as rl eqn:Hrl.
  destruct rl as [trw sw ow]. cbn [emitted result] in Hloop.
  symmetry in Hrl.
  destruct (write_run_no_fault _ _ _ _ _ Hloop) as [-> | (l & rv & ->)].
  - wp_call Hrl. right. exists (marks trw), Spin. split; [exact Hloop|].
    left. split; [reflexivity|].
    use_marks. split; reflexivity.
  - wp_call Hrl. wp_prim. cbn [snd].
    destruct (Z.eqb_spec rv 0) as [->|Hrv]; cbn [negb]; cbv iota.
    + wp_prim. apply wp_ret.
      right. exists (marks trw), (Done (l, 0)). split; [exact Hloop|].
      right. exists l, 0. split; [reflexivity|]. use_marks.
      split; [reflexivity | left; reflexivity].
    + destruct (Z.eqb_spec talk 0) as [Ht|Ht]; cbn [negb]; cbv iota.
      * wp_prim. wp_prim. apply wp_ret.
        right. exists (marks trw), (Done (l, rv)). split; [exact Hloop|].
        right. exists l, rv. split; [reflexivity|]. use_marks.
        split; [reflexivity | left; reflexivity].
      * destruct (talk_turnaround_run fuel rv sw) as (trt & st & ot & Hrunt & Hmt & Hot).
        destruct Hot as [-> | [-> | ->]].
        -- wp_call Hrunt.
           right. exists (marks trw), (Done (l, rv)). split; [exact Hloop|].
           right. exists l, rv. split; [reflexivity|]. use_marks.
           split; [reflexivity | right; auto].
        -- wp_call Hrunt. wp_prim. apply wp_ret.
           right. exists (marks trw), (Done (l, rv)). split; [exact Hloop|].
           right. exists l, rv. split; [reflexivity|]. use_marks.
           split; [reflexivity | left; reflexivity].
        -- wp_call Hrunt. wp_prim. apply wp_ret.
           right. exists (marks trw), (Done (l, rv)). split; [exact Hloop|].
           right. exists l, rv. split; [reflexivity|]. use_marks.
           split; [reflexivity | right; auto].
Qed.

Lemma debugs_app (l1 l2 : list event) : debugs (l1 ++ l2) = debugs l1 ++ debugs l2.
Proof.
  induction l1 as [|e l1 IH]; [reflexivity|].
  destruct e; cbn [debugs app]; rewrite IH; reflexivity.
Qed.







End Writing.

(** ** Reading *)

Ltac wp_use L :=
  apply wp_bind; eapply wp_weaken; [ apply L | cbv beta ].

Section Reading.

Variable E : env.

















End Reading.

(** ** A byte sent and read back *)

Section RoundTrip.

Lemma send_byte_bits_emitted (left : nat) :
  forall b s,
    wp (send_byte_bits left b) s
       (fun tr _ o => tr = send_byte_trace left b /\ o = Done tt).
Proof.
  induction left as [|left IH]; intros b s.
  - apply wp_ret. split; reflexivity.
  - cbn [send_byte_bits send_byte_trace]. wp_prim.
    destruct (Z.land b 1 =? 0); cbv iota;
      do 4 wp_prim;
      (eapply wp_weaken; [apply IH|]); cbv beta;
      intros tr s' o (-> & ->); split; reflexivity.
Qed.

Lemma land_data_after_release (x : Z) : Z.land (Z.land x (Z.lnot IO_DATA)) IO_DATA = 0.
Proof.
  rewrite <- Z.land_assoc.
  change (Z.land (Z.lnot IO_DATA) IO_DATA) with 0. apply Z.land_0_r.
Qed.

Lemma land_data_clk_released (x : Z) :
  Z.land (Z.land x (Z.lnot IO_CLK)) IO_DATA = Z.land x IO_DATA.
Proof.
  rewrite <- Z.land_assoc.
  change (Z.land (Z.lnot IO_CLK) IO_DATA) with IO_DATA. reflexivity.
Qed.

Lemma land_data_pulled (x : Z) : Z.land (Z.lor x IO_DATA) IO_DATA <> 0.
Proof.
  rewrite Z.land_lor_distr_l.
  change (Z.land IO_DATA IO_DATA) with IO_DATA.
  intros H. apply Z.lor_eq_0_iff in H. destruct H as [_ H]. discriminate H.
Qed.

(** At each release of CLOCK [send_byte] presents the next bit of the byte,
    lowest first, on DATA: released for a 1, pulled for a 0. *)
Lemma send_byte_trace_levels (left : nat) :
  forall b ddr rest,
    Z.land ddr IO_DATA = 0 ->
    exists ddr',
      Z.land ddr' IO_DATA = 0 /\
      data_at_clock_release ddr (send_byte_trace left b ++ rest) =
      bits_of left b ++ data_at_clock_release ddr' rest.
Proof.
  induction left as [|left IH]; intros b ddr rest Hd.
  - exists ddr. split; [exact Hd | reflexivity].
  - cbn [send_byte_trace bits_of].
    destruct (Z.eqb_spec (Z.land b 1) 0) as [Hb|Hb]; cbn [negb app].
    + cbn [data_at_clock_release drive].
      change (Z.land IO_CLK IO_CLK =? 0) with false.
      change (Z.land IO_DATA IO_CLK =? 0) with true. cbv iota.
      rewrite land_data_clk_released.
      destruct (Z.eqb_spec (Z.land (Z.lor ddr IO_DATA) IO_DATA) 0) as [H0|H0];
        [exfalso; exact (land_data_pulled ddr H0)|].
      destruct (IH (Z.shiftr b 1)
                   (Z.land (Z.lor (Z.land (Z.lor ddr IO_DATA) (Z.lnot IO_CLK)) IO_CLK)
                           (Z.lnot IO_DATA))
                   rest (land_data_after_release _)) as (ddr' & Hd' & Hl).
      exists ddr'. split; [exact Hd'|]. rewrite Hl. reflexivity.
    + cbn [data_at_clock_release drive].
      change (Z.land IO_CLK IO_CLK =? 0) with false.
      change (Z.land IO_DATA IO_CLK =? 0) with true. cbv iota.
      rewrite land_data_clk_released, Hd. cbn [Z.eqb].
      destruct (IH (Z.shiftr b 1)
                   (Z.land (Z.lor (Z.land ddr (Z.lnot IO_CLK)) IO_CLK) (Z.lnot IO_DATA))
                   rest (land_data_after_release _)) as (ddr' & Hd' & Hl).
      exists ddr'. split; [exact Hd'|]. rewrite Hl. reflexivity.
Qed.

Lemma send_byte_levels (E : env) (b : Z) (s : state) :
  Z.land (IEC_DDR s) IO_DATA = 0 ->
  data_at_clock_release (IEC_DDR s) (emitted (send_byte E b s)) = bits_of 8 b.
Proof.
  intros Hd.
  assert (wp (send_byte E b) s
             (fun tr _ _ =>
                data_at_clock_release (IEC_DDR s) tr = bits_of 8 b)) as Hwp.
  { unfold send_byte.
    wp_use send_byte_bits_emitted. intros tr1 s1 o1 (-> & ->).
    destruct (iec_wait_timeout_2ms_total E IO_DATA IO_DATA s1) as (k & tr & ack & Hrun & Hq).
    wp_call Hrun.
    destruct (send_byte_trace_levels 8 b (IEC_DDR s)
                (EvWait2ms IO_DATA IO_DATA :: tr
                   ++ (if ack then [] else [EvDebug "sndbyte nak\n"])) Hd)
      as (ddr' & _ & Hl).
    assert (data_at_clock_release ddr'
              (EvWait2ms IO_DATA IO_DATA :: tr
                 ++ (if ack then [] else [EvDebug "sndbyte nak\n"])) = []) as Hnil.
    { cbn [data_at_clock_release drive].
      assert (forall t2 d0, data_at_clock_release d0 t2 = [] ->
                            data_at_clock_release d0 (tr ++ t2) = []) as Happ.
      { clear - Hq. induction tr as [|e tr IH]; intros t2 d0 H2; [exact H2|].
        cbn [forallb] in Hq. apply andb_prop in Hq. destruct Hq as [He Ht].
        destruct e; try discriminate He; cbn [app data_at_clock_release drive];
          apply IH; assumption. }
      apply Happ. destruct ack; reflexivity. }
    rewrite Hnil, app_nil_r in Hl.
    destruct ack; cbn [negb]; cbv iota.
    - wp_prim. apply wp_ret. rewrite !app_nil_r. rewrite app_nil_r in Hl. exact Hl.
    - wp_prim. apply wp_ret. rewrite !app_nil_r. exact Hl. }
  exact Hwp.
Qed.

Lemma send_byte_bits_data_released (left : nat) :
  forall b s,
    wp (send_byte_bits left b) s
       (fun _ s' _ =>
          Z.land (IEC_DDR s) IO_DATA = 0 \/ left <> O ->
          Z.land (IEC_DDR s') IO_DATA = 0).
Proof.
  induction left as [|left IH]; intros b s.
  - apply wp_ret. intros [H|H]; [exact H | contradiction H; reflexivity].
  - cbn [send_byte_bits]. wp_prim.
    destruct (Z.land b 1 =? 0); cbv iota;
      do 4 wp_prim;
      (eapply wp_weaken; [apply IH|]); cbv beta;
      intros tr s' o H _; apply H; left; cbn [IEC_DDR];
      apply land_data_after_release.
Qed.

(** [send_byte] leaves DATA released, as it has to find it. *)
Lemma send_byte_data_released (E : env) (b : Z) (s : state) :
  Z.land (IEC_DDR (final (send_byte E b s))) IO_DATA = 0.
Proof.
  assert (wp (send_byte E b) s (fun _ s' _ => Z.land (IEC_DDR s') IO_DATA = 0)) as Hwp.
  { unfold send_byte.
    wp_use send_byte_bits_data_released. intros tr1 s1 o1 H1.
    assert (Z.land (IEC_DDR s1) IO_DATA = 0) as Hd
        by (apply H1; right; discriminate).
    destruct o1 as [[]| |]; try exact Hd.
    destruct (iec_wait_timeout_2ms_total E IO_DATA IO_DATA s1) as (k & tr & ack & Hrun & _).
    wp_call Hrun.
    destruct ack; cbv iota; wp_prim; apply wp_ret; exact Hd. }
  exact Hwp.
Qed.

Lemma plays_cons (E : env) (off : nat) (x : Z) (wave : list Z) :
  plays E off (x :: wave) -> pin_sample E off = x /\ plays E (S off) wave.
Proof.
  intros H. split.
  - apply (H 0%nat). cbn. lia.
  - intros i Hi. rewrite <- plus_n_Sm. apply (H (S i)). cbn. lia.
Qed.

Lemma plays_app (E : env) (off : nat) (l1 l2 : list Z) :
  plays E off (l1 ++ l2) -> plays E off l1 /\ plays E (List.length l1 + off) l2.
Proof.
  intros H. split.
  - intros i Hi. rewrite (H i) by (rewrite length_app; lia).
    apply app_nth1. exact Hi.
  - intros i Hi.
    replace (i + (List.length l1 + off))%nat with ((List.length l1 + i) + off)%nat by lia.
    rewrite (H (List.length l1 + i)%nat) by (rewrite length_app; lia).
    rewrite app_nth2 by lia. f_equal. lia.
Qed.

(** A bounded wait that sees its condition hold for [w] polls and then fail
    ends after [w + 1] polls of the loop and the closing poll, and succeeds. *)
Lemma wait_timeout_2ms_loop_exact (E : env) (mask st v u : Z) (w : nat) :
  Z.land (Z.land v 124) mask = st ->
  Z.land (Z.land u 124) mask <> st ->
  forall count s,
    (w <= count)%nat ->
    plays E (n_pin s) (repeat v w ++ [u]) ->
    wp (wait_timeout_2ms_loop E count mask st) s
       (fun _ s' o =>
          o = Done tt /\
          s' = State (IEC_DDR s) (eoi s) (S w + n_pin s) (n_timer s) (n_recv s)
                     (n_send s)).
Proof.
  intros Hv Hu. induction w as [|w IH]; intros count s Hc Hp.
  - cbn [repeat app] in Hp. apply plays_cons in Hp. destruct Hp as [Hp0 _].
    assert (wp (bind (iec_poll E)
                     (fun x => if Z.land x mask =? st
                               then match count with
                                    | O => ret tt
                                    | S count' =>
                                        DELAY_US 10 ;;
                                        wait_timeout_2ms_loop E count' mask st
                                    end
                               else ret tt)) s
               (fun _ s' o =>
                  o = Done tt /\
                  s' = State (IEC_DDR s) (eoi s) (1 + n_pin s) (n_timer s) (n_recv s)
                             (n_send s))) as H.
    { wp_call (iec_poll_run E s). rewrite Hp0.
      destruct (Z.eqb_spec (Z.land (Z.land u 124) mask) st) as [He|_]; [contradiction|].
      apply wp_ret. split; reflexivity. }
    destruct count; exact H.
  - destruct count as [|count]; [lia|].
    cbn [repeat app] in Hp. apply plays_cons in Hp. destruct Hp as [Hp0 Hp].
    cbn [wait_timeout_2ms_loop].
    wp_call (iec_poll_run E s). rewrite Hp0, Hv, Z.eqb_refl.
    wp_prim.
    eapply wp_weaken; [apply IH; [lia | exact Hp]|]. cbv beta.
    intros _ s' o (-> & ->). split; [reflexivity|].
    cbn [IEC_DDR eoi n_pin n_timer n_recv n_send].
    rewrite <- plus_n_Sm. reflexivity.
Qed.

Lemma iec_wait_timeout_2ms_exact (E : env) (mask st v u : Z) (w : nat) (s : state) :
  Z.land (Z.land v 124) mask = st ->
  Z.land (Z.land u 124) mask <> st ->
  (w <= 200)%nat ->
  plays E (n_pin s) (repeat v w ++ [u; u]) ->
  wp (iec_wait_timeout_2ms E mask st) s
     (fun _ s' o =>
        o = Done true /\
        s' = State (IEC_DDR s) (eoi s) (S (S w) + n_pin s) (n_timer s) (n_recv s)
                   (n_send s)).
Proof.
  intros Hv Hu Hw Hp.
  change [u; u] with ([u] ++ [u]) in Hp. rewrite app_assoc in Hp.
  apply plays_app in Hp. destruct Hp as [Hp1 Hp2].
  rewrite length_app, repeat_length in Hp2. cbn [List.length] in Hp2.
  apply plays_cons in Hp2. destruct Hp2 as [Hp2 _].
  unfold iec_wait_timeout_2ms. wp_prim.
  wp_use (wait_timeout_2ms_loop_exact E mask st v u w Hv Hu 200 s Hw Hp1).
  intros _ s1 o1 (-> & ->).
  match goal with
  | |- wp (bind (iec_poll E) _) ?s1 _ => wp_call (iec_poll_run E s1)
  end.
  cbn [n_pin]. replace (S w + n_pin s)%nat with (w + 1 + n_pin s)%nat by lia.
  rewrite Hp2.
  destruct (Z.eqb_spec (Z.land (Z.land u 124) mask) st) as [He|_]; [contradiction|].
  apply wp_ret. split; [reflexivity|].
  f_equal. lia.
Qed.

(** The bit loop of the read, on the samples of a talker that presents the
    levels [ds], shifts them in and ends well. *)
Lemma read_byte_bits_wave (E : env) (lag : nat -> nat) (ds : list bool) :
  (forall j, (lag j <= 200)%nat) ->
  forall i b s,
    plays E (n_pin s) (talker_samples lag i ds) ->
    wp (read_byte_bits E (List.length ds) b true) s
       (fun _ _ o => o = Done (shift_in ds b, true)).
Proof.
  intros Hlag. induction ds as [|d ds IH]; intros i b s Hp.
  - apply wp_ret. reflexivity.
  - cbn [List.length read_byte_bits talker_samples shift_in] in *.
    unfold bit_samples in Hp.
    apply plays_app in Hp. destruct Hp as [Hp Hrest].
    apply plays_app in Hp. destruct Hp as [Hw1 Hp].
    apply plays_app in Hp. destruct Hp as [Hd Hw2].
    apply plays_cons in Hd. destruct Hd as [Hd _].
    rewrite !length_app, !repeat_length in *. cbn [List.length] in *.
    set (w1 := lag (2 * i)%nat) in *. set (w2 := lag (2 * i + 1)%nat) in *.
    wp_use (iec_wait_timeout_2ms_exact E IO_CLK 0 (pins false d) (pins true d) w1 s).
    + destruct d; reflexivity.
    + destruct d; discriminate.
    + apply Hlag.
    + exact Hw1.
    + intros _ s1 o1 (-> & ->).
      match goal with
      | |- wp (bind (iec_get E IO_DATA) _) ?s1 _ => wp_call (iec_get_run E IO_DATA s1)
      end.
      cbn [n_pin].
      replace (S (S w1) + n_pin s)%nat with (w1 + 2 + n_pin s)%nat by lia.
      rewrite Hd.
      match goal with
      | |- wp (bind (iec_wait_timeout_2ms E IO_CLK IO_CLK) _) ?s1 _ =>
          wp_use (iec_wait_timeout_2ms_exact E IO_CLK IO_CLK (pins true d) (pins false d)
                                             w2 s1)
      end.
      * destruct d; reflexivity.
      * destruct d; discriminate.
      * apply Hlag.
      * cbn [n_pin].
        replace (S (w1 + 2 + n_pin s))%nat with (1 + (w1 + 2 + n_pin s))%nat by lia.
        exact Hw2.
      * intros _ s2 o2 (-> & ->).
        eapply wp_weaken.
        -- apply (IH (S i)). cbn [n_pin].
           replace (S (S w2) + S (w1 + 2 + n_pin s))%nat
             with (w1 + 2 + (1 + (w2 + 2)) + n_pin s)%nat by lia.
           exact Hrest.
        -- cbv beta. intros _ _ o ->.
           destruct d; reflexivity.
Qed.

Lemma shift_in_bits_of (b : Z) : 0 <= b < 256 -> shift_in (bits_of 8 b) 0 = b.
Proof.
  intros Hb.
  assert (forallb (fun n => shift_in (bits_of 8 (Z.of_nat n)) 0 =? Z.of_nat n)
                  (seq 0 256) = true) as Hall by (vm_compute; reflexivity).
  rewrite forallb_forall in Hall.
  specialize (Hall (Z.to_nat b)).
  rewrite Z2Nat.id in Hall by lia.
  apply Z.eqb_eq, Hall, in_seq. lia.
Qed.

Lemma bits_of_length (n : nat) : forall b, List.length (bits_of n b) = n.
Proof.
  induction n as [|n IH]; intros b; [reflexivity|].
  cbn [bits_of List.length]. rewrite IH. reflexivity.
Qed.

(** C2: for each of the 256 byte values [b], the levels that [send_byte]
    presents on DATA at its eight releases of CLOCK, bit 0 first, DATA pulled
    for a 0, read by the bit loop of [cbm_raw_read] (shift right, set bit 7
    when DATA is sampled released) give [b] again.  [send_byte] starts with
    DATA released, as [cbm_raw_write] calls it after its [iec_release(IO_DATA)],
    and leaves DATA released for the next byte; the talker may let the
    listener poll up to 200 times for each edge of CLOCK. *)
Theorem send_byte_read_back (E E' : env) (b : Z) (s s' : state) (lag : nat -> nat) :
  let sent := data_at_clock_release (IEC_DDR s) (emitted (send_byte E b s)) in
  0 <= b < 256 ->
  Z.land (IEC_DDR s) IO_DATA = 0 ->
  (forall j, (lag j <= 200)%nat) ->
  plays E' (n_pin s') (talker_samples lag 0 sent) ->
  sent = bits_of 8 b /\
  Z.land (IEC_DDR (final (send_byte E b s))) IO_DATA = 0 /\
  result (read_byte_bits E' 8 0 true s') = Done (b, true).
Proof.
  intros sent Hb Hd Hlag Hp.
  assert (sent = bits_of 8 b) as Hs by (apply send_byte_levels; exact Hd).
  split; [exact Hs|]. split; [apply send_byte_data_released|].
  rewrite Hs in Hp.
  pose proof (read_byte_bits_wave E' lag (bits_of 8 b) Hlag 0%nat 0 s' Hp) as Hwp.
  rewrite bits_of_length in Hwp. apply wp_elim in Hwp. cbv beta in Hwp.
  rewrite Hwp, shift_in_bits_of by exact Hb. reflexivity.
Qed.

End RoundTrip.

(** ** The claims on whole transfers *)

Lemma scripted_plays (wave : list Z) (idle : Z) (host : list Z) :
  plays (scripted wave idle host) 0 wave.
Proof.
  intros i Hi. cbn [scripted pin_sample]. rewrite Nat.add_0_r.
  apply nth_indep. exact Hi.
Qed.

Lemma send_byte_read_back_witness :
  result
    (read_byte_bits
       (scripted
          (talker_samples (fun _ => 1%nat) 0
             (data_at_clock_release 0
                (emitted (send_byte (scripted [] 0xFF []) 0xA5 (State 0 0 0 0 0 0)))))
          0 [])
       8 0 true (State 0 0 0 0 0 0)) = Done (0xA5, true).
Proof.
  apply (send_byte_read_back (scripted [] 0xFF []) _ 0xA5 (State 0 0 0 0 0 0)
                             (State 0 0 0 0 0 0) (fun _ => 1%nat)).
  - lia.
  - reflexivity.
  - intros j. lia.
  - apply scripted_plays.
Defined.










(** * Further properties of the code *)

(** ** Bits of the registers *)

Lemma testbit_byte_high (c n : Z) : 0 <= c < 256 -> 8 <= n -> Z.testbit c n = false.
Proof.
  intros Hc Hn. destruct (Z.eq_dec c 0) as [->|Hz]; [apply Z.testbit_0_l|].
  apply Z.bits_above_log2; [lia|].
  apply Z.lt_le_trans with 8; [|exact Hn].
  apply Z.log2_lt_pow2; [lia|]. change (2 ^ 8) with 256. lia.
Qed.

(** Equations between registers whose masks are variables: bit by bit. *)
Ltac bitwise :=
  apply Z.bits_inj'; intros ?n ?Hn;
  repeat rewrite ?Z.land_spec, ?Z.lor_spec, ?Z.lxor_spec, ?Z.lnot_spec, ?Z.bits_0
    by assumption;
  repeat match goal with
         | |- context [Z.testbit ?x ?k] => destruct (Z.testbit x k)
         end;
  reflexivity.

Ltac eval_bits :=
  repeat match goal with
         | |- context [Z.testbit ?c ?k] =>
             let v := eval vm_compute in (Z.testbit c k) in
             match v with
             | true => change (Z.testbit c k) with true
             | false => change (Z.testbit c k) with false
             end
         end.

Ltac high_bits :=
  repeat match goal with
         | Hn : 8 <= ?n |- context [Z.testbit ?c ?n] =>
             rewrite (testbit_byte_high c n)
               by first [ exact Hn | assumption | (vm_compute; easy) ]
         end.

(** Equations between registers of eight bits whose masks are constants. *)
Ltac bitblast :=
  apply Z.bits_inj'; intros ?n ?Hn;
  repeat rewrite ?Z.land_spec, ?Z.lor_spec, ?Z.lxor_spec, ?Z.lnot_spec, ?Z.bits_0
    by assumption;
  match goal with
  | Hn : 0 <= ?n |- _ =>
      let Hc := fresh "Hc" in
      assert (n = 0 \/ n = 1 \/ n = 2 \/ n = 3 \/ n = 4 \/ n = 5 \/ n = 6 \/ n = 7 \/ 8 <= n)
        as Hc by lia;
      repeat (destruct Hc as [-> | Hc]);
      [ eval_bits .. | high_bits ];
      repeat match goal with
             | |- context [Z.testbit ?x ?k] => destruct (Z.testbit x k)
             end;
      reflexivity
  end.

Lemma land_polled (v pin : Z) :
  Z.land polled_lines pin = pin -> Z.land (Z.land v 124) pin = Z.land v pin.
Proof.
  intros H. rewrite <- Z.land_assoc. change 124 with polled_lines. rewrite H. reflexivity.
Qed.

(** ** The lines by their logical names *)

(** Each entry of the table has the pin of a line exactly when the line is
    named, and no other pin. *)
Lemma iec2hw_pin (i hw : Z) :
  0 <= i <= 15 ->
  iec2hw i = Some hw ->
  (forall line pin, In (line, pin) line_pins ->
     Z.land hw pin = if Z.land i line =? 0 then 0 else pin) /\
  Z.land hw (Z.lnot all_lines) = 0.
Proof.
  intros Hi.
  destruct (iec2hw_small_index i Hi) as
    [-> | [-> | [-> | [-> | [-> | [-> | [-> | [-> |
    [-> | [-> | [-> | [-> | [-> | [-> | [-> | ->]]]]]]]]]]]]]]];
    intros H; injection H as <-;
    (split; [ intros line pin [P|[P|[P|[P|[]]]]]; injection P as <- <-; reflexivity
            | reflexivity ]).
Qed.

Lemma iec2hw_entry (i : Z) : 0 <= i <= 15 -> exists hw, iec2hw i = Some hw.
Proof.
  intros Hi. destruct (iec2hw i) as [hw|] eqn:H; [exists hw; reflexivity|].
  exfalso. apply (proj2 (iec2hw_in_bounds i (proj1 Hi))); [lia | exact H].
Qed.

Lemma set_release_pin (d hs hr p : Z) :
  Z.land (Z.land (Z.lor d hs) (Z.lnot hr)) p =
  Z.land (Z.lor (Z.land d p) (Z.land hs p)) (Z.lnot (Z.land hr p)).
Proof. bitwise. Qed.

Lemma set_release_rest (d hs hr m : Z) :
  Z.land hs m = 0 -> Z.land hr m = 0 ->
  Z.land (Z.land (Z.lor d hs) (Z.lnot hr)) m = Z.land d m.
Proof.
  intros Hs Hr.
  rewrite set_release_pin, Hs, Hr.
  bitwise.
Qed.

Lemma pin_released (x p : Z) : Z.land (Z.lor (Z.land x p) 0) (Z.lnot p) = 0.
Proof. bitwise. Qed.

Lemma pin_released_set (x p : Z) : Z.land (Z.lor (Z.land x p) p) (Z.lnot p) = 0.
Proof. bitwise. Qed.

Lemma pin_set (x p : Z) : Z.land (Z.lor (Z.land x p) p) (Z.lnot 0) = p.
Proof. bitwise. Qed.

Lemma pin_kept (x p : Z) : Z.land (Z.lor (Z.land x p) 0) (Z.lnot 0) = Z.land x p.
Proof. bitwise. Qed.

Lemma xu1541_setrelease_run (set release hs hr : Z) (s : state) :
  iec2hw set = Some hs -> iec2hw release = Some hr ->
  xu1541_setrelease set release s =
  Run [EvSet hs; EvRelease hr]
      (State (Z.land (Z.lor (IEC_DDR s) hs) (Z.lnot hr)) (eoi s) (n_pin s) (n_timer s)
             (n_recv s) (n_send s))
      (Done tt).
Proof.
  intros Hs Hr. unfold xu1541_setrelease. rewrite Hs, Hr. reflexivity.
Qed.

Lemma xu1541_setrelease_pin (set release hs hr : Z) (d : Z) (line pin : Z) :
  0 <= set <= 15 -> 0 <= release <= 15 ->
  iec2hw set = Some hs -> iec2hw release = Some hr ->
  In (line, pin) line_pins ->
  Z.land (Z.land (Z.lor d hs) (Z.lnot hr)) pin =
    if negb (Z.land release line =? 0) then 0
    else if negb (Z.land set line =? 0) then pin
         else Z.land d pin.
Proof.
  intros Bs Br Hs Hr Hin.
  destruct (iec2hw_pin set hs Bs Hs) as [Ps _].
  destruct (iec2hw_pin release hr Br Hr) as [Pr _].
  rewrite set_release_pin, (Ps line pin Hin), (Pr line pin Hin).
  destruct (Z.land release line =? 0); destruct (Z.land set line =? 0); cbn [negb].
  - apply pin_kept.
  - apply pin_set.
  - apply pin_released.
  - apply pin_released_set.
Qed.

Lemma xu1541_poll_run (E : env) (s : state) :
  let v := pin_sample E (n_pin s) in
  xu1541_poll E s =
  Run [EvPin v]
      (State (IEC_DDR s) (eoi s) (S (n_pin s)) (n_timer s) (n_recv s) (n_send s))
      (Done ((if asserted IO_DATA v then IEC_DATA else 0)
             + (if asserted IO_CLK v then IEC_CLOCK else 0)
             + (if asserted IO_ATN v then IEC_ATN else 0))).
Proof.
  cbv zeta. unfold xu1541_poll, asserted.
  cbn [bind iec_poll iec_poll_pins read_IEC_PIN ret result final emitted app IEC_DDR
       eoi n_pin n_timer n_recv n_send].
  change (Z.lor (Z.lor (Z.lor (Z.lor IO_DATA IO_CLK) IO_ATN) IO_SRQ) IO_RESET) with 124.
  rewrite !land_polled by reflexivity.
  destruct (Z.land (pin_sample E (n_pin s)) IO_DATA =? 0);
    destruct (Z.land (pin_sample E (n_pin s)) IO_CLK =? 0);
    destruct (Z.land (pin_sample E (n_pin s)) IO_ATN =? 0);
    reflexivity.
Qed.

(** X1: [xu1541_poll] samples the pins once and reports, by their logical
    names, exactly those of the lines DATA, CLOCK and ATN whose pin reads 0;
    RESET is never reported, whatever its pin reads; translated back by the
    table, the report is the set of those pins; the bus is not driven. *)
Theorem xu1541_poll_reports_pulled_lines (E : env) (s : state) :
  let v := pin_sample E (n_pin s) in
  let r := xu1541_poll E s in
  let rv := (if asserted IO_DATA v then IEC_DATA else 0)
            + (if asserted IO_CLK v then IEC_CLOCK else 0)
            + (if asserted IO_ATN v then IEC_ATN else 0) in
  result r = Done rv /\
  Z.land rv IEC_RESET = 0 /\
  iec2hw rv =
    Some (Z.lor (Z.lor (if asserted IO_DATA v then IO_DATA else 0)
                       (if asserted IO_CLK v then IO_CLK else 0))
                (if asserted IO_ATN v then IO_ATN else 0)) /\
  emitted r = [EvPin v] /\
  IEC_DDR (final r) = IEC_DDR s.
Proof.
  cbv zeta. rewrite xu1541_poll_run. cbn [result emitted final IEC_DDR].
  unfold asserted.
  destruct (Z.land (pin_sample E (n_pin s)) IO_DATA =? 0);
    destruct (Z.land (pin_sample E (n_pin s)) IO_CLK =? 0);
    destruct (Z.land (pin_sample E (n_pin s)) IO_ATN =? 0);
    repeat split; reflexivity.
Qed.

(** X2: the lines that [xu1541_setrelease] pulls are reported by a following
    [xu1541_poll]: when a pin that the adapter pulls reads 0, every line among
    DATA, CLOCK and ATN that is named in [set] and not in [release] is in the
    report. *)
Theorem setrelease_then_poll (E : env) (set release : Z) (s : state) :
  let s1 := final (xu1541_setrelease set release s) in
  0 <= set <= 15 -> 0 <= release <= 15 ->
  Z.land (pin_sample E (n_pin s1)) (IEC_DDR s1) = 0 ->
  exists rv,
    result (xu1541_poll E s1) = Done rv /\
    forall line, In line [IEC_DATA; IEC_CLOCK; IEC_ATN] ->
                 Z.land set line <> 0 -> Z.land release line = 0 ->
                 Z.land rv line = line.
Proof.
  intros s1 Bs Br Hwired.
  destruct (iec2hw_entry set Bs) as [hs Hs].
  destruct (iec2hw_entry release Br) as [hr Hr].
  subst s1. rewrite (xu1541_setrelease_run set release hs hr s Hs Hr) in *.
  cbn [final IEC_DDR n_pin] in *.
  set (v := pin_sample E (n_pin s)) in *.
  set (ddr := Z.land (Z.lor (IEC_DDR s) hs) (Z.lnot hr)) in *.
  assert (forall line pin, In (line, pin) line_pins ->
                           Z.land set line <> 0 -> Z.land release line = 0 ->
                           Z.land v pin = 0) as Hlow.
  { intros line pin Hin Hset Hrel.
    pose proof (xu1541_setrelease_pin set release hs hr (IEC_DDR s) line pin
                  Bs Br Hs Hr Hin) as Hp.
    fold ddr in Hp.
    rewrite Hrel in Hp. cbn [Z.eqb negb] in Hp.
    destruct (Z.eqb_spec (Z.land set line) 0) as [H0|_]; [contradiction|].
    cbn [negb] in Hp.
    rewrite <- Hp, Z.land_assoc, Hwired. reflexivity. }
  pose proof (xu1541_poll_run E
                (State ddr (eoi s) (n_pin s) (n_timer s) (n_recv s) (n_send s)))
    as Hpoll.
  cbv zeta in Hpoll. cbn [n_pin] in Hpoll. fold v in Hpoll.
  eexists. split; [rewrite Hpoll; reflexivity|].
  unfold asserted.
  intros line [<-|[<-|[<-|[]]]] Hset Hrel.
  - rewrite (Hlow IEC_DATA IO_DATA) by (cbn; auto).
    destruct (Z.land v IO_CLK =? 0); destruct (Z.land v IO_ATN =? 0); reflexivity.
  - rewrite (Hlow IEC_CLOCK IO_CLK) by (cbn; auto).
    destruct (Z.land v IO_DATA =? 0); destruct (Z.land v IO_ATN =? 0); reflexivity.
  - rewrite (Hlow IEC_ATN IO_ATN) by (cbn; auto).
    destruct (Z.land v IO_DATA =? 0); destruct (Z.land v IO_CLK =? 0); reflexivity.
Qed.

Lemma setrelease_then_poll_witness :
  exists rv,
    result (xu1541_poll (scripted [0x68] 0xFF [])
              (final (xu1541_setrelease 5 0 (State 0 0 0 0 0 0)))) = Done rv /\
    forall line, In line [IEC_DATA; IEC_CLOCK; IEC_ATN] ->
                 Z.land 5 line <> 0 -> Z.land 0 line = 0 ->
                 Z.land rv line = line.
Proof.
  apply (setrelease_then_poll (scripted [0x68] 0xFF []) 5 0 (State 0 0 0 0 0 0));
    [lia | lia | reflexivity].
Defined.

(** X3: [xu1541_setrelease] with two arguments inside the table pulls the
    lines named in [set] and lets go of the lines named in [release]; a line
    named in both ends released, a line named in neither stays as it was, and
    no pin other than those of DATA, CLOCK, ATN and RESET is touched, SRQ in
    particular. *)
Theorem xu1541_setrelease_lines (set release : Z) (s : state) :
  let r := xu1541_setrelease set release s in
  0 <= set <= 15 -> 0 <= release <= 15 ->
  result r = Done tt /\
  (forall line pin,
      In (line, pin) line_pins ->
      Z.land (IEC_DDR (final r)) pin =
        if negb (Z.land release line =? 0) then 0
        else if negb (Z.land set line =? 0) then pin
             else Z.land (IEC_DDR s) pin) /\
  Z.land (IEC_DDR (final r)) (Z.lnot all_lines) = Z.land (IEC_DDR s) (Z.lnot all_lines) /\
  Z.land (IEC_DDR (final r)) IO_SRQ = Z.land (IEC_DDR s) IO_SRQ.
Proof.
  intros r Bs Br.
  destruct (iec2hw_entry set Bs) as [hs Hs].
  destruct (iec2hw_entry release Br) as [hr Hr].
  subst r. rewrite (xu1541_setrelease_run set release hs hr s Hs Hr).
  cbn [result final IEC_DDR].
  destruct (iec2hw_pin set hs Bs Hs) as [_ Rs].
  destruct (iec2hw_pin release hr Br Hr) as [_ Rr].
  split; [reflexivity|]. split; [|split].
  - intros line pin Hin. apply xu1541_setrelease_pin; assumption.
  - apply set_release_rest; assumption.
  - apply set_release_rest.
    + rewrite <- (Z.land_0_l IO_SRQ), <- Rs, <- Z.land_assoc. reflexivity.
    + rewrite <- (Z.land_0_l IO_SRQ), <- Rr, <- Z.land_assoc. reflexivity.
Qed.

Lemma xu1541_setrelease_lines_witness :
  Z.land (IEC_DDR (final (xu1541_setrelease 3 2 (State 0x20 0 0 0 0 0)))) IO_CLK = 0 /\
  Z.land (IEC_DDR (final (xu1541_setrelease 3 2 (State 0x20 0 0 0 0 0)))) IO_DATA = IO_DATA /\
  Z.land (IEC_DDR (final (xu1541_setrelease 3 2 (State 0x20 0 0 0 0 0)))) IO_SRQ = IO_SRQ.
Proof.
  pose proof (xu1541_setrelease_lines 3 2 (State 0x20 0 0 0 0 0) ltac:(lia) ltac:(lia))
    as (_ & Hp & _ & Hq).
  split; [|split].
  - apply (Hp IEC_CLOCK IO_CLK). cbn. auto.
  - apply (Hp IEC_DATA IO_DATA). cbn. auto.
  - exact Hq.
Defined.

(** ** What a computation keeps *)

Section Keeps.

Context {event state : Type}.
Variable P : state -> list event -> state -> Prop.
Hypothesis P_refl : forall s, P s [] s.
Hypothesis P_trans :
  forall s tr1 s1 tr2 s2, P s tr1 s1 -> P s1 tr2 s2 -> P s (tr1 ++ tr2) s2.

Lemma keeps_ret {A} (a : A) : keeps P (ret a).
Proof. intros s. apply P_refl. Qed.

Lemma keeps_spin {A} : keeps P (@spin event state A).
Proof. intros s. apply P_refl. Qed.

Lemma keeps_fault {A} : keeps P (@fault event state A).
Proof. intros s. apply P_refl. Qed.

Lemma keeps_bind {A B} (m : Mon event state A) (f : A -> Mon event state B) :
  keeps P m -> (forall a, keeps P (f a)) -> keeps P (bind m f).
Proof.
  intros Hm Hf s. unfold bind. specialize (Hm s).
  destruct (m s) as [tr1 s1 [a| |]]; cbn [emitted final result] in *.
  - apply P_trans with s1; [exact Hm | apply Hf].
  - exact Hm.
  - exact Hm.
Qed.

End Keeps.

(** The serial engine keeps whatever its primitives keep: the samples, the
    delays and the other events that leave the state alone, the lines it may
    drive, the values it may give to the latch, the two calls of the byte
    channel. *)
Section Footprint.

Variable E : env.
Variable P : state -> list event -> state -> Prop.
Hypothesis P_refl : forall s, P s [] s.
Hypothesis P_trans :
  forall s tr1 s1 tr2 s2, P s tr1 s1 -> P s1 tr2 s2 -> P s (tr1 ++ tr2) s2.

Variable may_set : Z -> Prop.
Variable may_release : Z -> Prop.
Variable may_latch : Z -> Prop.

Hypothesis P_emit : forall e, is_plain e = true -> keeps P (emit e).
Hypothesis P_pin : keeps P (read_IEC_PIN E).
Hypothesis P_timer : keeps P (TimerWorker E).
Hypothesis P_set : forall line, may_set line -> keeps P (iec_set line).
Hypothesis P_release : forall line, may_release line -> keeps P (iec_release line).
Hypothesis P_latch : forall v, may_latch v -> keeps P (set_eoi v).
Hypothesis P_recv : keeps P (usbRecvByte E).
Hypothesis P_send : forall b, keeps P (usbSendByte E b).

Ltac keep :=
  repeat first
         [ apply (keeps_ret P P_refl)
         | apply (keeps_spin P P_refl)
         | apply (keeps_fault P P_refl)
         | apply P_emit; reflexivity
         | apply P_pin
         | apply P_timer
         | apply P_recv
         | apply P_send
         | assumption
         | apply (keeps_bind P P_trans); [ | intros ? ]
         | match goal with
           | |- keeps _ (if ?c then _ else _) => destruct c
           | |- keeps _ (match ?x with _ => _ end) => destruct x
           end ].

Lemma keeps_get_eoi : keeps P get_eoi.
Proof. intros s. apply P_refl. Qed.

Lemma keeps_iec_get (line : Z) : keeps P (iec_get E line).
Proof. unfold iec_get. keep. Qed.

Lemma keeps_iec_poll : keeps P (iec_poll E).
Proof. unfold iec_poll, iec_poll_pins. keep. Qed.

Lemma keeps_wait_timeout_2ms_loop (count : nat) (mask st : Z) :
  keeps P (wait_timeout_2ms_loop E count mask st).
Proof.
  induction count as [|count IH]; cbn [wait_timeout_2ms_loop];
    (apply (keeps_bind P P_trans); [apply keeps_iec_poll | intros v]); keep.
Qed.

Lemma keeps_iec_wait_timeout_2ms (mask st : Z) :
  keeps P (iec_wait_timeout_2ms E mask st).
Proof.
  unfold iec_wait_timeout_2ms.
  apply (keeps_bind P P_trans); [apply P_emit; reflexivity | intros _].
  apply (keeps_bind P P_trans); [apply keeps_wait_timeout_2ms_loop | intros _].
  apply (keeps_bind P P_trans); [apply keeps_iec_poll | intros v].
  keep.
Qed.

Lemma keeps_wait_clk_loop (count : nat) : keeps P (wait_clk_loop E count).
Proof.
  induction count as [|count IH]; cbn [wait_clk_loop];
    (apply (keeps_bind P P_trans); [apply keeps_iec_get | intros c]); keep.
Qed.

Lemma keeps_xu1541_wait_loop (fuel : nat) (hw_mask hw_state : Z) :
  keeps P (xu1541_wait_loop E fuel hw_mask hw_state).
Proof.
  induction fuel as [|fuel IH]; cbn [xu1541_wait_loop];
    (apply (keeps_bind P P_trans); [apply keeps_iec_poll | intros v]); keep.
Qed.

Lemma keeps_xu1541_wait (fuel : nat) (line st : Z) : keeps P (xu1541_wait E fuel line st).
Proof.
  unfold xu1541_wait. destruct (iec2hw line); [apply keeps_xu1541_wait_loop | keep].
Qed.

Lemma keeps_wait_for_listener_loop (fuel : nat) : keeps P (wait_for_listener_loop E fuel).
Proof.
  induction fuel as [|fuel IH]; cbn [wait_for_listener_loop];
    (apply (keeps_bind P P_trans); [apply keeps_iec_get | intros d]); keep.
Qed.

Lemma keeps_talk_wait_loop (fuel : nat) (rv : Z) : keeps P (talk_wait_loop E fuel rv).
Proof.
  induction fuel as [|fuel IH]; cbn [talk_wait_loop];
    (apply (keeps_bind P P_trans); [apply keeps_iec_get | intros c]); keep.
Qed.

Lemma keeps_send_byte_bits (left : nat) :
  may_set IO_DATA -> may_set IO_CLK -> may_release IO_DATA -> may_release IO_CLK ->
  forall b, keeps P (send_byte_bits left b).
Proof.
  intros Hd Hc Hd' Hc'. induction left as [|left IH]; intros b; cbn [send_byte_bits]; [keep|].
  pose proof (P_set IO_DATA Hd). pose proof (P_set IO_CLK Hc).
  pose proof (P_release IO_DATA Hd'). pose proof (P_release IO_CLK Hc').
  unfold iec_set_release. pose proof (IH (Z.shiftr b 1)). keep.
Qed.

Lemma keeps_send_byte (b : Z) :
  may_set IO_DATA -> may_set IO_CLK -> may_release IO_DATA -> may_release IO_CLK ->
  keeps P (send_byte E b).
Proof.
  intros Hd Hc Hd' Hc'. unfold send_byte.
  apply (keeps_bind P P_trans); [apply keeps_send_byte_bits; assumption | intros _].
  apply (keeps_bind P P_trans); [apply keeps_iec_wait_timeout_2ms | intros ack].
  keep.
Qed.

Lemma keeps_cbm_raw_write_loop (inner fuel : nat) :
  may_set IO_DATA -> may_set IO_CLK -> may_release IO_DATA -> may_release IO_CLK ->
  forall atn len rv, keeps P (cbm_raw_write_loop E inner fuel atn len rv).
Proof.
  intros Hd Hc Hd' Hc'.
  pose proof (P_set IO_CLK Hc). pose proof (P_release IO_CLK Hc').
  pose proof (keeps_wait_for_listener_loop inner).
  pose proof (keeps_iec_wait_timeout_2ms IO_DATA IO_DATA).
  pose proof (keeps_iec_wait_timeout_2ms IO_DATA 0).
  induction fuel as [|fuel IH]; intros atn len rv; cbn [cbm_raw_write_loop].
  - keep.
  - destruct ((len =? 0) || (rv =? 0)); [keep|].
    apply (keeps_bind P P_trans); [keep | intros _].
    apply (keeps_bind P P_trans); [apply keeps_iec_get | intros d].
    destruct d.
    + unfold wait_for_listener.
      apply (keeps_bind P P_trans); [keep | intros ready].
      destruct ready; cbn [negb]; [|keep].
      apply (keeps_bind P P_trans); [keep | intros _].
      apply (keeps_bind P P_trans); [keep | intros _].
      apply (keeps_bind P P_trans); [keep | intros r].
      destruct (negb (fst r =? 0)); [keep|].
      apply (keeps_bind P P_trans); [apply keeps_send_byte; assumption | intros ack].
      destruct ack.
      * apply (keeps_bind P P_trans); [keep | intros _].
        apply (keeps_bind P P_trans); [keep | intros _]. apply IH.
      * apply (keeps_bind P P_trans); [keep | intros _].
        apply (keeps_bind P P_trans); [keep | intros _]. apply IH.
    + apply (keeps_bind P P_trans); [keep | intros _].
      apply (keeps_bind P P_trans); [keep | intros _]. apply IH.
Qed.

(** What follows [eoi = 0] in [cbm_raw_write]. *)
Lemma keeps_cbm_raw_write_body (TALK ATN : Z) (fuel : nat) (len flags : Z) :
  may_set IO_DATA -> may_set IO_CLK ->
  may_set (Z.lor IO_CLK IO_ATN) -> may_set (Z.lor IO_CLK 0) ->
  may_release IO_DATA -> may_release IO_CLK -> may_release IO_ATN ->
  may_release (Z.lor IO_CLK IO_ATN) ->
  exists body,
    cbm_raw_write E TALK ATN fuel len flags = (set_eoi 0 ;; body) /\ keeps P body.
Proof.
  intros Hd Hc Hca Hc0 Hd' Hc' Ha' Hca'.
  eexists. split; [reflexivity|].
  pose proof (P_set IO_DATA Hd). pose proof (P_release IO_DATA Hd').
  pose proof (P_release IO_ATN Ha'). pose proof (P_release _ Hca').
  pose proof (P_set _ Hca). pose proof (P_set _ Hc0).
  apply (keeps_bind P P_trans); [keep | intros _].
  apply (keeps_bind P P_trans); [keep | intros _].
  apply (keeps_bind P P_trans); [destruct (negb _); keep | intros _].
  apply (keeps_bind P P_trans); [apply keeps_iec_wait_timeout_2ms | intros dev].
  destruct dev; cbn [negb]; [|keep].
  apply (keeps_bind P P_trans); [apply keeps_cbm_raw_write_loop; assumption | intros lr].
  apply (keeps_bind P P_trans); [keep | intros _].
  destruct (negb (snd lr =? 0)); [|keep].
  apply (keeps_bind P P_trans); [|intros rv'; keep].
  destruct (negb _); [|keep].
  apply (keeps_bind P P_trans); [keep | intros _].
  apply (keeps_bind P P_trans); [keep | intros _].
  apply keeps_talk_wait_loop.
Qed.

Lemma keeps_cbm_raw_write (TALK ATN : Z) (fuel : nat) (len flags : Z) :
  may_set IO_DATA -> may_set IO_CLK ->
  may_set (Z.lor IO_CLK IO_ATN) -> may_set (Z.lor IO_CLK 0) ->
  may_release IO_DATA -> may_release IO_CLK -> may_release IO_ATN ->
  may_release (Z.lor IO_CLK IO_ATN) ->
  may_latch 0 ->
  keeps P (cbm_raw_write E TALK ATN fuel len flags).
Proof.
  intros Hd Hc Hca Hc0 Hd' Hc' Ha' Hca' Hl.
  destruct (keeps_cbm_raw_write_body TALK ATN fuel len flags Hd Hc Hca Hc0 Hd' Hc' Ha' Hca')
    as (body & -> & Hb).
  apply (keeps_bind P P_trans); [apply P_latch; exact Hl | intros _; exact Hb].
Qed.

Lemma keeps_wait_clk_released_loop (fuel : nat) :
  forall to, keeps P (wait_clk_released_loop E fuel to).
Proof.
  induction fuel as [|fuel IH]; intros to; cbn [wait_clk_released_loop];
    (apply (keeps_bind P P_trans); [apply keeps_iec_get | intros c]);
    (destruct c; [|keep]);
    (apply (keeps_bind P P_trans); [destruct (50000 <=? to); keep | intros timed_out]);
    (destruct timed_out; [keep|]); [keep|].
  apply (keeps_bind P P_trans); [keep | intros _]. apply IH.
Qed.

Lemma keeps_read_byte_bits (left : nat) :
  forall b ok, keeps P (read_byte_bits E left b ok).
Proof.
  induction left as [|left IH]; intros b ok; cbn [read_byte_bits]; [keep|].
  destruct ok; [|keep].
  apply (keeps_bind P P_trans); [apply keeps_iec_wait_timeout_2ms | intros ok1].
  destruct ok1; [|apply IH].
  apply (keeps_bind P P_trans); [apply keeps_iec_get | intros d].
  apply (keeps_bind P P_trans); [apply keeps_iec_wait_timeout_2ms | intros ok2].
  apply IH.
Qed.

Lemma keeps_cbm_raw_read_end (count : Z) (ok : bool) : keeps P (cbm_raw_read_end count ok).
Proof. unfold cbm_raw_read_end. keep. Qed.

Lemma keeps_cbm_raw_read_iteration (inner : nat) (len count : Z) (again : M Z) :
  may_set IO_DATA -> may_release IO_DATA -> may_latch 1 ->
  keeps P again ->
  keeps P (cbm_raw_read_iteration E inner len count again).
Proof.
  intros Hd Hd' Hl Hagain. unfold cbm_raw_read_iteration.
  pose proof (P_set IO_DATA Hd). pose proof (P_release IO_DATA Hd').
  pose proof (P_latch 1 Hl).
  apply (keeps_bind P P_trans); [apply keeps_wait_clk_released_loop | intros released].
  destruct released; cbn [negb]; [|keep].
  apply (keeps_bind P P_trans); [apply keeps_get_eoi | intros latched].
  destruct (negb (latched =? 0)); [keep|].
  apply (keeps_bind P P_trans); [keep | intros _].
  apply (keeps_bind P P_trans); [apply keeps_wait_clk_loop | intros _].
  apply (keeps_bind P P_trans); [apply keeps_iec_get | intros c].
  apply (keeps_bind P P_trans); [destruct (negb c); keep | intros _].
  apply (keeps_bind P P_trans).
  { unfold read_byte.
    apply (keeps_bind P P_trans); [keep | intros _].
    apply (keeps_bind P P_trans); [apply keeps_iec_wait_timeout_2ms | intros ok0].
    apply (keeps_bind P P_trans); [apply keeps_read_byte_bits | intros bo].
    keep. }
  intros bo. destruct (snd bo).
  - apply (keeps_bind P P_trans); [keep | intros _].
    apply (keeps_bind P P_trans); [keep | intros st].
    destruct (negb (st =? 0)); [apply keeps_cbm_raw_read_end|].
    apply (keeps_bind P P_trans); [keep | intros _].
    apply (keeps_bind P P_trans); [keep | intros _].
    apply (keeps_bind P P_trans); [apply keeps_get_eoi | intros latched'].
    destruct (_ && _); [exact Hagain | apply keeps_cbm_raw_read_end].
  - apply (keeps_bind P P_trans); [keep | intros _]. apply keeps_cbm_raw_read_end.
Qed.

Lemma keeps_cbm_raw_read (fuel : nat) (len : Z) :
  may_set IO_DATA -> may_release IO_DATA -> may_latch 1 ->
  keeps P (cbm_raw_read E fuel len).
Proof.
  intros Hd Hd' Hl. unfold cbm_raw_read.
  apply (keeps_bind P P_trans); [keep | intros _].
  generalize 0 at 1. generalize fuel at 1.
  induction fuel as [|fuel' IH]; intros inner count; cbn [cbm_raw_read_loop];
    apply keeps_cbm_raw_read_iteration; try assumption;
    first [ apply IH | keep ].
Qed.

Lemma keeps_check_if_bus_free :
  may_release all_lines -> may_set IO_ATN -> may_release IO_ATN ->
  keeps P (check_if_bus_free E).
Proof.
  intros Hall Ha Ha'. unfold check_if_bus_free.
  pose proof (P_release _ Hall). pose proof (P_set IO_ATN Ha).
  pose proof (P_release IO_ATN Ha').
  pose proof (keeps_iec_get IO_DATA).
  keep.
Qed.

Lemma keeps_wait_for_free_bus_loop (i : nat) :
  may_release all_lines -> may_set IO_ATN -> may_release IO_ATN ->
  keeps P (wait_for_free_bus_loop E i).
Proof.
  intros Hall Ha Ha'. pose proof (keeps_check_if_bus_free Hall Ha Ha').
  induction i as [|i IH]; cbn [wait_for_free_bus_loop]; keep.
Qed.

End Footprint.

(** ** The lines that the transfers drive *)

Lemma drives_within_app (lines : Z) (l1 l2 : list event) :
  drives_within lines (l1 ++ l2) = drives_within lines l1 && drives_within lines l2.
Proof. apply forallb_app. Qed.

Lemma set_within (d line lines : Z) :
  Z.land line (Z.lnot lines) = 0 ->
  Z.land (Z.lor d line) (Z.lnot lines) = Z.land d (Z.lnot lines).
Proof. intros H. rewrite Z.land_lor_distr_l, H. apply Z.lor_0_r. Qed.

Lemma release_within (d line lines : Z) :
  Z.land line (Z.lnot lines) = 0 ->
  Z.land (Z.land d (Z.lnot line)) (Z.lnot lines) = Z.land d (Z.lnot lines).
Proof.
  intros H. apply Z.bits_inj'. intros n Hn.
  apply (f_equal (fun z => Z.testbit z n)) in H.
  rewrite ?Z.land_spec, ?Z.lnot_spec, ?Z.bits_0 in * by exact Hn.
  destruct (Z.testbit d n); destruct (Z.testbit line n); destruct (Z.testbit lines n);
    cbn in *; congruence.
Qed.

Section Lines.

Variable E : env.
Variable lines : Z.

Lemma stays_within_refl (s : state) : stays_within lines s [] s.
Proof. split; reflexivity. Qed.

Lemma stays_within_trans (s : state) (tr1 : list event) (s1 : state)
      (tr2 : list event) (s2 : state) :
  stays_within lines s tr1 s1 -> stays_within lines s1 tr2 s2 ->
  stays_within lines s (tr1 ++ tr2) s2.
Proof.
  intros [H1 F1] [H2 F2]. split.
  - rewrite drives_within_app, H1, H2. reflexivity.
  - rewrite F2, F1. reflexivity.
Qed.

Lemma stays_within_emit (e : event) :
  is_plain e = true -> keeps (stays_within lines) (emit e).
Proof.
  intros He s. split; [|reflexivity].
  destruct e; try discriminate He; reflexivity.
Qed.

Lemma stays_within_pin : keeps (stays_within lines) (read_IEC_PIN E).
Proof. intros s. split; reflexivity. Qed.

Lemma stays_within_timer : keeps (stays_within lines) (TimerWorker E).
Proof. intros s. split; reflexivity. Qed.

Lemma stays_within_recv : keeps (stays_within lines) (usbRecvByte E).
Proof. intros s. split; reflexivity. Qed.

Lemma stays_within_send (b : Z) : keeps (stays_within lines) (usbSendByte E b).
Proof. intros s. split; reflexivity. Qed.

Lemma stays_within_latch (v : Z) : keeps (stays_within lines) (set_eoi v).
Proof. intros s. split; reflexivity. Qed.

Lemma stays_within_set (line : Z) :
  Z.land line (Z.lnot lines) = 0 -> keeps (stays_within lines) (iec_set line).
Proof.
  intros H s. split.
  - cbn. rewrite H. reflexivity.
  - cbn [iec_set final IEC_DDR]. apply set_within. exact H.
Qed.

Lemma stays_within_release (line : Z) :
  Z.land line (Z.lnot lines) = 0 -> keeps (stays_within lines) (iec_release line).
Proof.
  intros H s. split.
  - cbn. rewrite H. reflexivity.
  - cbn [iec_release final IEC_DDR]. apply release_within. exact H.
Qed.

End Lines.

Lemma fetches_app (l1 l2 : list event) : fetches (l1 ++ l2) = (fetches l1 + fetches l2)%nat.
Proof. unfold fetches. rewrite filter_app, length_app. reflexivity. Qed.

Lemma sends_app (l1 l2 : list event) : sends (l1 ++ l2) = (sends l1 + sends l2)%nat.
Proof. unfold sends. rewrite filter_app, length_app. reflexivity. Qed.

Lemma write_keeps_lines (E : env) (TALK ATN : Z) (fuel : nat) (len flags : Z) :
  keeps (stays_within (Z.lor (Z.lor IO_DATA IO_CLK) IO_ATN))
        (cbm_raw_write E TALK ATN fuel len flags).
Proof.
  apply keeps_cbm_raw_write
    with (may_set := fun line => Z.land line (Z.lnot (Z.lor (Z.lor IO_DATA IO_CLK) IO_ATN)) = 0)
         (may_release :=
            fun line => Z.land line (Z.lnot (Z.lor (Z.lor IO_DATA IO_CLK) IO_ATN)) = 0)
         (may_latch := fun _ => True);
    try reflexivity; try exact I.
  - apply stays_within_refl.
  - apply stays_within_trans.
  - apply stays_within_emit.
  - apply stays_within_pin.
  - apply stays_within_timer.
  - apply stays_within_set.
  - apply stays_within_release.
  - intros v _. apply stays_within_latch.
  - apply stays_within_recv.
Qed.

Lemma read_keeps_lines (E : env) (fuel : nat) (len : Z) :
  keeps (stays_within IO_DATA) (cbm_raw_read E fuel len).
Proof.
  apply keeps_cbm_raw_read
    with (may_set := fun line => Z.land line (Z.lnot IO_DATA) = 0)
         (may_release := fun line => Z.land line (Z.lnot IO_DATA) = 0)
         (may_latch := fun _ => True);
    try reflexivity; try exact I.
  - apply stays_within_refl.
  - apply stays_within_trans.
  - apply stays_within_emit.
  - apply stays_within_pin.
  - apply stays_within_timer.
  - apply stays_within_set.
  - apply stays_within_release.
  - intros v _. apply stays_within_latch.
  - apply stays_within_send.
Qed.

Lemma read_keeps_latch (E : env) (fuel : nat) (len : Z) :
  keeps latch_stays_set (cbm_raw_read E fuel len).
Proof.
  apply keeps_cbm_raw_read
    with (may_set := fun _ => True) (may_release := fun _ => True)
         (may_latch := fun v => v <> 0);
    try exact I; try discriminate; unfold latch_stays_set.
  - intros s H. exact H.
  - intros s tr1 s1 tr2 s2 H1 H2 H. apply H2, H1, H.
  - intros e _ s H. exact H.
  - intros s H. exact H.
  - intros s H. exact H.
  - intros line _ s H. exact H.
  - intros line _ s H. exact H.
  - intros v Hv s _. exact Hv.
  - intros b s H. exact H.
Qed.

Lemma read_fetches_nothing (E : env) (fuel : nat) (len : Z) :
  keeps fetches_nothing (cbm_raw_read E fuel len).
Proof.
  apply keeps_cbm_raw_read
    with (may_set := fun _ => True) (may_release := fun _ => True)
         (may_latch := fun _ => True);
    try exact I; unfold fetches_nothing.
  - intros s. split; reflexivity.
  - intros s tr1 s1 tr2 s2 [H1 F1] [H2 F2]. split; [congruence|].
    rewrite fetches_app, F1, F2. reflexivity.
  - intros e He s. split; [reflexivity|]. destruct e; try discriminate He; reflexivity.
  - intros s. split; reflexivity.
  - intros s. split; reflexivity.
  - intros line _ s. split; reflexivity.
  - intros line _ s. split; reflexivity.
  - intros v _ s. split; reflexivity.
  - intros b s. split; reflexivity.
Qed.

Lemma write_offers_nothing (E : env) (TALK ATN : Z) (fuel : nat) (len flags : Z) :
  keeps offers_nothing (cbm_raw_write E TALK ATN fuel len flags).
Proof.
  apply keeps_cbm_raw_write
    with (may_set := fun _ => True) (may_release := fun _ => True)
         (may_latch := fun _ => True);
    try exact I; unfold offers_nothing.
  - intros s. split; reflexivity.
  - intros s tr1 s1 tr2 s2 [H1 F1] [H2 F2]. split; [congruence|].
    rewrite sends_app, F1, F2. reflexivity.
  - intros e He s. split; [reflexivity|]. destruct e; try discriminate He; reflexivity.
  - intros s. split; reflexivity.
  - intros s. split; reflexivity.
  - intros line _ s. split; reflexivity.
  - intros line _ s. split; reflexivity.
  - intros v _ s. split; reflexivity.
  - intros s. split; reflexivity.
Qed.

Lemma write_body_keeps_latch (E : env) (TALK ATN : Z) (fuel : nat) (len flags : Z) :
  exists body,
    cbm_raw_write E TALK ATN fuel len flags = (set_eoi 0 ;; body) /\
    keeps latch_stays_clear body.
Proof.
  apply keeps_cbm_raw_write_body
    with (may_set := fun _ => True) (may_release := fun _ => True);
    try exact I; unfold latch_stays_clear.
  - intros s H. exact H.
  - intros s tr1 s1 tr2 s2 H1 H2 H. apply H2, H1, H.
  - intros e _ s H. exact H.
  - intros s H. exact H.
  - intros s H. exact H.
  - intros line _ s H. exact H.
  - intros line _ s H. exact H.
  - intros s H. exact H.
Qed.

(** X4: whatever the bus does and however it ends, [cbm_raw_write] leaves the
    EOI latch clear: the latch that a read has set does not outlast the next
    write. *)
Theorem cbm_raw_write_clears_latch (E : env) (TALK ATN : Z) (fuel : nat)
        (len flags : Z) (s : state) :
  eoi (final (cbm_raw_write E TALK ATN fuel len flags s)) = 0.
Proof.
  destruct (write_body_keeps_latch E TALK ATN fuel len flags) as (body & -> & Hb).
  unfold bind at 1. cbn [set_eoi result final emitted].
  apply (Hb (State (IEC_DDR s) 0 (n_pin s) (n_timer s) (n_recv s) (n_send s))).
  reflexivity.
Qed.

(** X5: [cbm_raw_write] pulls and lets go of DATA, CLOCK and ATN only: RESET,
    SRQ and the other pins of the port are in no line change of its trace
    and keep their direction; it offers no byte to the host. *)
Theorem cbm_raw_write_drives_its_lines (E : env) (TALK ATN : Z) (fuel : nat)
        (len flags : Z) (s : state) :
  let r := cbm_raw_write E TALK ATN fuel len flags s in
  let lines := Z.lor (Z.lor IO_DATA IO_CLK) IO_ATN in
  drives_within lines (emitted r) = true /\
  Z.land (IEC_DDR (final r)) (Z.lnot lines) = Z.land (IEC_DDR s) (Z.lnot lines) /\
  Z.land (IEC_DDR (final r)) IO_RESET = Z.land (IEC_DDR s) IO_RESET /\
  Z.land (IEC_DDR (final r)) IO_SRQ = Z.land (IEC_DDR s) IO_SRQ /\
  sends (emitted r) = 0%nat.
Proof.
  intros r lines.
  destruct (write_keeps_lines E TALK ATN fuel len flags s) as [Hd Hf].
  destruct (write_offers_nothing E TALK ATN fuel len flags s) as [_ Hs].
  fold r in Hd, Hf, Hs. fold lines in Hd, Hf.
  split; [exact Hd|]. split; [exact Hf|]. split; [|split; [|exact Hs]].
  - apply (f_equal (fun z => Z.land z IO_RESET)) in Hf.
    rewrite <- !Z.land_assoc in Hf. exact Hf.
  - apply (f_equal (fun z => Z.land z IO_SRQ)) in Hf.
    rewrite <- !Z.land_assoc in Hf. exact Hf.
Qed.

(** X6: [cbm_raw_read] pulls and lets go of DATA only: CLOCK, ATN, RESET and
    SRQ are in no line change of its trace and keep their direction; it
    fetches no byte from the host; and it never clears the EOI latch. *)
Theorem cbm_raw_read_drives_data_only (E : env) (fuel : nat) (len : Z) (s : state) :
  let r := cbm_raw_read E fuel len s in
  drives_within IO_DATA (emitted r) = true /\
  Z.land (IEC_DDR (final r)) (Z.lnot IO_DATA) = Z.land (IEC_DDR s) (Z.lnot IO_DATA) /\
  fetches (emitted r) = 0%nat /\
  (eoi s <> 0 -> eoi (final r) <> 0).
Proof.
  intros r.
  destruct (read_keeps_lines E fuel len s) as [Hd Hf].
  destruct (read_fetches_nothing E fuel len s) as [_ Hn].
  pose proof (read_keeps_latch E fuel len s) as Hl.
  repeat split; assumption.
Qed.

(** ** The bounded waits *)

Lemma elapsed_us_app (l1 l2 : list event) :
  elapsed_us (l1 ++ l2) = elapsed_us l1 + elapsed_us l2.
Proof.
  induction l1 as [|e l1 IH]; [reflexivity|].
  destruct e; cbn [app elapsed_us]; rewrite IH; lia.
Qed.

Lemma elapsed_us_poll_wait (E : env) (us : Z) (j : nat) :
  forall off, elapsed_us (poll_wait E off j us) = us * Z.of_nat j.
Proof.
  induction j as [|j IH]; intros off; cbn [poll_wait elapsed_us]; [lia|].
  rewrite IH. lia.
Qed.

Lemma wait_timeout_2ms_loop_polls (E : env) (mask st : Z) (count : nat) :
  forall s,
  exists j,
    (j <= count)%nat /\
    (forall i, (i < j)%nat ->
               Z.land (Z.land (pin_sample E (i + n_pin s)) polled_lines) mask = st) /\
    ((j < count)%nat ->
     Z.land (Z.land (pin_sample E (j + n_pin s)) polled_lines) mask <> st) /\
    wait_timeout_2ms_loop E count mask st s =
    Run (poll_wait E (n_pin s) j 10 ++ [EvPin (pin_sample E (j + n_pin s))])
        (State (IEC_DDR s) (eoi s) (S j + n_pin s) (n_timer s) (n_recv s) (n_send s))
        (Done tt).
Proof.
  induction count as [|count IH]; intros s.
  - exists 0%nat. split; [lia|]. split; [intros i Hi; lia|]. split; [lia|].
    cbn [wait_timeout_2ms_loop]. run_with (iec_poll_run E s).
    destruct (Z.land (Z.land (pin_sample E (n_pin s)) 124) mask =? st); reflexivity.
  - cbn [wait_timeout_2ms_loop]. run_with (iec_poll_run E s).
    destruct (Z.eqb_spec (Z.land (Z.land (pin_sample E (n_pin s)) 124) mask) st) as [He|Hne].
    + run_prim.
      destruct (IH (State (IEC_DDR s) (eoi s) (S (n_pin s)) (n_timer s) (n_recv s) (n_send s)))
        as (j & Hj & Hheld & Hend & Hrun).
      cbn [n_pin IEC_DDR eoi n_timer n_recv n_send] in *.
      exists (S j). split; [lia|]. split; [|split].
      * intros [|i] Hi; [exact He|].
        replace (S i + n_pin s)%nat with (i + S (n_pin s))%nat by lia.
        apply Hheld. lia.
      * intros Hlt. replace (S j + n_pin s)%nat with (j + S (n_pin s))%nat by lia.
        apply Hend. lia.
      * rewrite Hrun. cbn [emitted final result poll_wait app].
        replace (S (S j) + n_pin s)%nat with (S j + S (n_pin s))%nat by lia.
        replace (S j + n_pin s)%nat with (j + S (n_pin s))%nat by lia.
        reflexivity.
    + exists 0%nat. split; [lia|]. split; [intros i Hi; lia|]. split; [intros _; exact Hne|].
      reflexivity.
Qed.

(** X7: [iec_wait_timeout_2ms] polls at most 201 times, 10 us apart, as long
    as the masked lines read [st], and so returns after at most 2 ms; its
    result comes from one more sample taken after the loop, not from the
    sample that ended it: it is true exactly when that last sample differs
    from [st].  The bus is not driven. *)
Theorem iec_wait_timeout_2ms_bounded (E : env) (mask st : Z) (s : state) :
  let r := iec_wait_timeout_2ms E mask st s in
  let polled i := Z.land (Z.land (pin_sample E (i + n_pin s)) polled_lines) mask in
  exists j,
    (j <= 200)%nat /\
    (forall i, (i < j)%nat -> polled i = st) /\
    ((j < 200)%nat -> polled j <> st) /\
    emitted r =
      EvWait2ms mask st
        :: poll_wait E (n_pin s) j 10
        ++ [EvPin (pin_sample E (j + n_pin s)); EvPin (pin_sample E (S j + n_pin s))] /\
    result r = Done (negb (polled (S j) =? st)) /\
    elapsed_us (emitted r) = 10 * Z.of_nat j /\
    elapsed_us (emitted r) <= 2000 /\
    final r = State (IEC_DDR s) (eoi s) (S (S j) + n_pin s) (n_timer s) (n_recv s)
                    (n_send s).
Proof.
  intros r polled.
  destruct (wait_timeout_2ms_loop_polls E mask st 200 s) as (j & Hj & Hheld & Hend & Hrun).
  exists j. split; [exact Hj|]. split; [exact Hheld|]. split; [exact Hend|].
  assert (r = Run (EvWait2ms mask st
                     :: poll_wait E (n_pin s) j 10
                     ++ [EvPin (pin_sample E (j + n_pin s));
                         EvPin (pin_sample E (S j + n_pin s))])
                  (State (IEC_DDR s) (eoi s) (S (S j) + n_pin s) (n_timer s) (n_recv s)
                         (n_send s))
                  (Done (negb (polled (S j) =? st)))) as Hr.
  { subst r. unfold iec_wait_timeout_2ms. run_prim. run_with Hrun.
    match goal with
    | |- context [bind (iec_poll E) ?f ?s'] => run_with (iec_poll_run E s')
    end.
    cbn [ret emitted final result]. rewrite <- app_assoc. reflexivity. }
  rewrite Hr. cbn [emitted result final].
  assert (elapsed_us
            (EvWait2ms mask st
               :: poll_wait E (n_pin s) j 10
               ++ [EvPin (pin_sample E (j + n_pin s)); EvPin (pin_sample E (S j + n_pin s))])
          = 10 * Z.of_nat j) as He.
  { cbn [elapsed_us]. rewrite elapsed_us_app, elapsed_us_poll_wait. cbn [elapsed_us]. lia. }
  repeat split; try reflexivity; try exact He.
  rewrite He. lia.
Qed.

Lemma wait_clk_loop_polls (E : env) (count : nat) :
  forall s,
  exists j,
    (j <= count)%nat /\
    (forall i, (i < j)%nat -> asserted IO_CLK (pin_sample E (i + n_pin s)) = false) /\
    ((j < count)%nat -> asserted IO_CLK (pin_sample E (j + n_pin s)) = true) /\
    wait_clk_loop E count s =
    Run (poll_wait E (n_pin s) j 2 ++ [EvPin (pin_sample E (j + n_pin s))])
        (State (IEC_DDR s) (eoi s) (S j + n_pin s) (n_timer s) (n_recv s) (n_send s))
        (Done tt).
Proof.
  induction count as [|count IH]; intros s.
  - exists 0%nat. split; [lia|]. split; [intros i Hi; lia|]. split; [lia|].
    cbn [wait_clk_loop]. run_with (iec_get_run E IO_CLK s).
    destruct (asserted IO_CLK (pin_sample E (n_pin s))); reflexivity.
  - cbn [wait_clk_loop]. run_with (iec_get_run E IO_CLK s).
    destruct (asserted IO_CLK (pin_sample E (n_pin s))) eqn:Ha; cbn [negb].
    + exists 0%nat. split; [lia|]. split; [intros i Hi; lia|]. split; [intros _; exact Ha|].
      reflexivity.
    + run_prim.
      destruct (IH (State (IEC_DDR s) (eoi s) (S (n_pin s)) (n_timer s) (n_recv s) (n_send s)))
        as (j & Hj & Hheld & Hend & Hrun).
      cbn [n_pin IEC_DDR eoi n_timer n_recv n_send] in *.
      exists (S j). split; [lia|]. split; [|split].
      * intros [|i] Hi; [exact Ha|].
        replace (S i + n_pin s)%nat with (i + S (n_pin s))%nat by lia.
        apply Hheld. lia.
      * intros Hlt. replace (S j + n_pin s)%nat with (j + S (n_pin s))%nat by lia.
        apply Hend. lia.
      * rewrite Hrun. cbn [emitted final result poll_wait app].
        replace (S (S j) + n_pin s)%nat with (S j + S (n_pin s))%nat by lia.
        replace (S j + n_pin s)%nat with (j + S (n_pin s))%nat by lia.
        reflexivity.
Qed.

(** X8: [iec_wait_clk] samples CLOCK at most 201 times, 2 us apart, and
    returns at the first sample that finds it pulled, or once 200 delays have
    elapsed, that is within 400 us; it has no result, and drives no line. *)
Theorem iec_wait_clk_bounded (E : env) (s : state) :
  let r := iec_wait_clk E s in
  exists j,
    (j <= 200)%nat /\
    (forall i, (i < j)%nat -> asserted IO_CLK (pin_sample E (i + n_pin s)) = false) /\
    ((j < 200)%nat -> asserted IO_CLK (pin_sample E (j + n_pin s)) = true) /\
    emitted r = poll_wait E (n_pin s) j 2 ++ [EvPin (pin_sample E (j + n_pin s))] /\
    result r = Done tt /\
    elapsed_us (emitted r) = 2 * Z.of_nat j /\
    elapsed_us (emitted r) <= 400 /\
    final r = State (IEC_DDR s) (eoi s) (S j + n_pin s) (n_timer s) (n_recv s) (n_send s).
Proof.
  intros r.
  destruct (wait_clk_loop_polls E 200 s) as (j & Hj & Hheld & Hend & Hrun).
  exists j. split; [exact Hj|]. split; [exact Hheld|]. split; [exact Hend|].
  subst r. unfold iec_wait_clk. rewrite Hrun. cbn [emitted result final].
  assert (elapsed_us (poll_wait E (n_pin s) j 2 ++ [EvPin (pin_sample E (j + n_pin s))])
          = 2 * Z.of_nat j) as He.
  { rewrite elapsed_us_app, elapsed_us_poll_wait. cbn [elapsed_us]. lia. }
  repeat split; try reflexivity; try exact He.
  rewrite He. lia.
Qed.

Lemma xu1541_wait_loop_outcome (E : env) (hw hw_state : Z) (fuel : nat) :
  forall s,
    wp (xu1541_wait_loop E fuel hw hw_state) s
       (fun tr s' o =>
          let held i :=
            Z.land (Z.land (pin_sample E (i + n_pin s)) polled_lines) hw =? hw_state in
          let go i := timer_sample E (i + n_timer s) in
          IEC_DDR s' = IEC_DDR s /\
          ((exists k, (k <= fuel)%nat /\
                      (forall i, (i < k)%nat -> held i = true /\ go i = true) /\
                      held k = false /\ o = Done true /\
                      elapsed_us tr = 10 * Z.of_nat k) \/
           (exists k, (k <= fuel)%nat /\
                      (forall i, (i < k)%nat -> held i = true /\ go i = true) /\
                      held k = true /\ go k = false /\ o = Done false /\
                      elapsed_us tr = 10 * Z.of_nat k) \/
           ((forall i, (i <= fuel)%nat -> held i = true /\ go i = true) /\ o = Spin))).
Proof.
  induction fuel as [|fuel IH]; intros s; cbn [xu1541_wait_loop];
    wp_call (iec_poll_run E s); change 124 with polled_lines;
    destruct (Z.land (Z.land (pin_sample E (n_pin s)) polled_lines) hw =? hw_state) eqn:Hh.
  - wp_prim. cbn [n_timer].
    destruct (timer_sample E (n_timer s)) eqn:Hg; cbn [negb]; cbv iota.
    + wp_prim. wp_last. cbv zeta. split; [reflexivity|].
      right. right. split; [|reflexivity].
      intros i Hi. assert (i = 0%nat) as -> by lia. cbn [Nat.add]. auto.
    + apply wp_ret. cbv zeta. split; [reflexivity|].
      right. left. exists 0%nat. cbn [Nat.add].
      repeat split; try assumption; try lia.
  - apply wp_ret. cbv zeta. split; [reflexivity|].
    left. exists 0%nat. cbn [Nat.add].
    repeat split; try assumption; try lia.
  - wp_prim. cbn [n_timer].
    destruct (timer_sample E (n_timer s)) eqn:Hg; cbn [negb]; cbv iota.
    + wp_prim. eapply wp_weaken; [apply IH|]. cbv beta zeta.
      cbn [n_pin n_timer IEC_DDR].
      intros tr s' o [Hd Hcases]. split; [exact Hd|].
      assert (forall k,
                 (forall i, (i < k)%nat ->
                    (Z.land (Z.land (pin_sample E (i + S (n_pin s))) polled_lines) hw
                     =? hw_state) = true /\
                    timer_sample E (i + S (n_timer s)) = true) ->
                 forall i, (i < S k)%nat ->
                    (Z.land (Z.land (pin_sample E (i + n_pin s)) polled_lines) hw
                     =? hw_state) = true /\
                    timer_sample E (i + n_timer s) = true) as Hshift.
      { intros k Hk [|i] Hi; [cbn [Nat.add]; auto|].
        replace (S i + n_pin s)%nat with (i + S (n_pin s))%nat by lia.
        replace (S i + n_timer s)%nat with (i + S (n_timer s))%nat by lia.
        apply Hk. lia. }
      destruct Hcases as [(k & Hk & Hb & He & Ho & Ht) |
                          [(k & Hk & Hb & He & Hg' & Ho & Ht) | (Hb & Ho)]].
      * left. exists (S k). split; [lia|]. split; [apply Hshift, Hb|].
        replace (S k + n_pin s)%nat with (k + S (n_pin s))%nat by lia.
        split; [exact He|]. split; [exact Ho|].
        cbn [app elapsed_us]. rewrite Ht. lia.
      * right. left. exists (S k). split; [lia|]. split; [apply Hshift, Hb|].
        replace (S k + n_pin s)%nat with (k + S (n_pin s))%nat by lia.
        replace (S k + n_timer s)%nat with (k + S (n_timer s))%nat by lia.
        split; [exact He|]. split; [exact Hg'|]. split; [exact Ho|].
        cbn [app elapsed_us]. rewrite Ht. lia.
      * right. right. split; [|exact Ho].
        intros i Hi. apply (Hshift (S fuel)); [|lia].
        intros i' Hi'. apply Hb. lia.
    + apply wp_ret. cbv zeta. split; [reflexivity|].
      right. left. exists 0%nat. cbn [Nat.add].
      repeat split; try assumption; try lia.
  - apply wp_ret. cbv zeta. split; [reflexivity|].
    left. exists 0%nat. cbn [Nat.add].
    repeat split; try assumption; try lia.
Qed.

(** X9: [xu1541_wait] on lines of the table polls every 10 us while the pins
    of the lines read as awaited (all 1 for a state other than 0, all 0 for
    the state 0) and the host does not abort: it returns true at the first
    poll that reads otherwise, false at the first abort, and does not return
    while neither happens; it drives no line; and asked to wait for no line
    at all it never returns true. *)
Theorem xu1541_wait_outcome (E : env) (fuel : nat) (line st hw : Z) (s : state) :
  let hw_state := if st =? 0 then 0 else hw in
  let held i :=
    Z.land (Z.land (pin_sample E (i + n_pin s)) polled_lines) hw =? hw_state in
  let go i := timer_sample E (i + n_timer s) in
  let r := xu1541_wait E fuel line st s in
  iec2hw line = Some hw ->
  IEC_DDR (final r) = IEC_DDR s /\
  ((exists k, (k <= fuel)%nat /\
              (forall i, (i < k)%nat -> held i = true /\ go i = true) /\
              held k = false /\ result r = Done true /\
              elapsed_us (emitted r) = 10 * Z.of_nat k) \/
   (exists k, (k <= fuel)%nat /\
              (forall i, (i < k)%nat -> held i = true /\ go i = true) /\
              held k = true /\ go k = false /\ result r = Done false /\
              elapsed_us (emitted r) = 10 * Z.of_nat k) \/
   ((forall i, (i <= fuel)%nat -> held i = true /\ go i = true) /\ result r = Spin)) /\
  (line = 0 -> result r <> Done true).
Proof.
  intros hw_state held go r Hhw.
  pose proof (xu1541_wait_loop_outcome E hw hw_state fuel s) as Hw.
  apply wp_elim in Hw. cbv beta zeta in Hw.
  assert (r = xu1541_wait_loop E fuel hw hw_state s) as Hr.
  { subst r hw_state. unfold xu1541_wait. rewrite Hhw.
    destruct (st =? 0); reflexivity. }
  rewrite Hr. destruct Hw as [Hd Hcases].
  split; [exact Hd|]. split; [exact Hcases|].
  intros ->. injection Hhw as <-.
  assert (forall i, held i = true) as Hheld.
  { intros i. subst held hw_state. cbv beta. rewrite Z.land_0_r.
    destruct (st =? 0); reflexivity. }
  destruct Hcases as [(k & _ & _ & He & _) |
                      [(k & _ & _ & _ & _ & Ho & _) | (_ & Ho)]].
  - fold (held k) in He. rewrite Hheld in He. discriminate He.
  - rewrite Ho. discriminate.
  - rewrite Ho. discriminate.
Qed.

Lemma xu1541_wait_outcome_witness :
  result (xu1541_wait (scripted [0xFF; 0xFF; 0xFB] 0xFF []) 5 1 1 (State 0 0 0 0 0 0))
  = Done true.
Proof.
  destruct (xu1541_wait_outcome (scripted [0xFF; 0xFF; 0xFB] 0xFF []) 5 1 1 IO_DATA
              (State 0 0 0 0 0 0) eq_refl)
    as (_ & [(k & _ & _ & _ & Ho & _) |
             [(k & _ & Hb & _ & Hg & _) | (Hb & _)]] & _).
  - exact Ho.
  - discriminate Hg.
  - destruct (Hb 2%nat ltac:(lia)) as [Hh _]. discriminate Hh.
Defined.

(** ** The probe for a free bus and the reset *)

Lemma probe_lines_released (d : Z) :
  Z.land (Z.lor (Z.land d (Z.lnot all_lines)) IO_ATN) (Z.lnot IO_ATN) =
  Z.land d (Z.lnot all_lines).
Proof. bitblast. Qed.

Lemma released_twice (d m : Z) :
  Z.land (Z.land d (Z.lnot m)) (Z.lnot m) = Z.land d (Z.lnot m).
Proof. bitwise. Qed.

Lemma released_lines (d m : Z) : Z.land (Z.land d (Z.lnot m)) m = 0.
Proof. bitwise. Qed.

Lemma check_if_bus_free_spec (E : env) (s : state) :
  wp (check_if_bus_free E) s
     (fun tr s' o =>
        exists free k,
          o = Done free /\ (free = 0 \/ free = 1) /\
          s' = State (Z.land (IEC_DDR s) (Z.lnot all_lines)) (eoi s) (k + n_pin s)
                     (n_timer s) (n_recv s) (n_send s) /\
          (1 <= k <= 4)%nat /\
          probes tr = 1%nat /\ debugs tr = [] /\
          50 <= elapsed_us tr <= 300 /\
          (free = 1 -> k = 4%nat /\ elapsed_us tr = 300)).
Proof.
  unfold check_if_bus_free.
  do 2 wp_prim. wp_call (iec_get_run E IO_DATA
                           (State (Z.land (IEC_DDR s) (Z.lnot all_lines)) (eoi s) (n_pin s)
                                  (n_timer s) (n_recv s) (n_send s))).
  cbn [n_pin].
  destruct (asserted IO_DATA (pin_sample E (n_pin s))); cbv iota.
  { apply wp_ret. exists 0, 1%nat. cbn [app elapsed_us].
    repeat split; auto; try lia; discriminate. }
  wp_prim.
  match goal with
  | |- wp (bind (iec_get E IO_DATA) _) ?s1 _ => wp_call (iec_get_run E IO_DATA s1)
  end.
  cbn [n_pin].
  destruct (asserted IO_DATA (pin_sample E (S (n_pin s)))); cbv iota.
  { apply wp_ret. exists 0, 2%nat. cbn [app elapsed_us].
    repeat split; auto; try lia; discriminate. }
  do 2 wp_prim.
  match goal with
  | |- wp (bind (iec_get E IO_DATA) _) ?s1 _ => wp_call (iec_get_run E IO_DATA s1)
  end.
  cbn [n_pin].
  destruct (asserted IO_DATA (pin_sample E (S (S (n_pin s))))); cbn [negb]; cbv iota.
  2: { wp_prim. apply wp_ret. exists 0, 3%nat. cbn [app elapsed_us].
       rewrite probe_lines_released.
       repeat split; auto; try lia; discriminate. }
  do 2 wp_prim.
  match goal with
  | |- wp (bind (iec_get E IO_DATA) _) ?s1 _ => wp_call (iec_get_run E IO_DATA s1)
  end.
  cbn [n_pin].
  apply wp_ret. rewrite probe_lines_released. cbn [app elapsed_us].
  destruct (asserted IO_DATA (pin_sample E (S (S (S (n_pin s)))))); cbn [negb].
  - exists 0, 4%nat. repeat split; auto; try lia; discriminate.
  - exists 1, 4%nat. repeat split; auto; try lia.
Qed.

(** X10: whatever it finds, [check_if_bus_free] returns with DATA, CLOCK, ATN
    and RESET let go, ATN included when it was pulled for the probe, and with
    every other pin as it was; it takes between one and four samples and
    between 50 and 300 us, and the full 300 us when it reports a free bus. *)
Theorem check_if_bus_free_lets_go (E : env) (s : state) :
  let r := check_if_bus_free E s in
  IEC_DDR (final r) = Z.land (IEC_DDR s) (Z.lnot all_lines) /\
  Z.land (IEC_DDR (final r)) all_lines = 0 /\
  (1 + n_pin s <= n_pin (final r) <= 4 + n_pin s)%nat /\
  50 <= elapsed_us (emitted r) <= 300 /\
  (result r = Done 0 \/ result r = Done 1) /\
  (result r = Done 1 ->
   n_pin (final r) = (4 + n_pin s)%nat /\ elapsed_us (emitted r) = 300).
Proof.
  intros r.
  pose proof (check_if_bus_free_spec E s) as Hw. apply wp_elim in Hw. cbv beta in Hw.
  fold r in Hw.
  destruct Hw as (free & k & Ho & Hfree & Hs & Hk & _ & _ & Ht & H1).
  rewrite Hs, Ho. cbn [IEC_DDR n_pin].
  split; [reflexivity|]. split; [apply released_lines|]. split; [lia|].
  split; [exact Ht|]. split.
  - destruct Hfree as [-> | ->]; auto.
  - intros H. injection H as ->. destruct (H1 eq_refl) as [-> He].
    split; [reflexivity | exact He].
Qed.

Lemma probes_app (l1 l2 : list event) : probes (l1 ++ l2) = (probes l1 + probes l2)%nat.
Proof. unfold probes. rewrite filter_app, length_app. reflexivity. Qed.

Lemma wait_for_free_bus_loop_spec (E : env) (i : nat) :
  forall s,
    wp (wait_for_free_bus_loop E i) s
       (fun tr s' o =>
          o = Done tt /\
          (probes tr <= i)%nat /\
          0 <= elapsed_us tr <= 400 * Z.of_nat i /\
          IEC_DDR s' =
            (if (probes tr =? 0)%nat then IEC_DDR s
             else Z.land (IEC_DDR s) (Z.lnot all_lines)) /\
          (debugs tr = [] \/
           (debugs tr = ["wait4free bus to\n"%string] /\
            probes tr = i /\
            n_timer s' = (i + n_timer s)%nat /\
            (forall j, (j < i)%nat -> timer_sample E (j + n_timer s) = true) /\
            150 * Z.of_nat i <= elapsed_us tr))).
Proof.
  induction i as [|i IH]; intros s; cbn [wait_for_free_bus_loop].
  - wp_last. split; [reflexivity|]. split; [cbn; lia|]. split; [cbn; lia|].
    split; [reflexivity|]. right. cbn.
    repeat split; try lia.
  - wp_use check_if_bus_free_spec.
    intros tr1 s1 o1 (free & k & -> & Hfree & -> & Hk & Hp1 & Hd1 & Ht1 & _).
    destruct Hfree as [-> | ->]; cbn [Z.eqb negb]; cbv iota.
    2: { apply wp_ret. rewrite app_nil_r, Hp1, Hd1. cbn [Nat.eqb IEC_DDR].
         split; [reflexivity|]. split; [lia|]. split; [lia|]. split; [reflexivity|].
         left. reflexivity. }
    do 2 wp_prim. cbn [n_timer].
    destruct (timer_sample E (n_timer s)) eqn:Hg; cbn [negb]; cbv iota.
    2: { apply wp_ret.
         rewrite !probes_app, !debugs_app, !elapsed_us_app, Hp1, Hd1.
         cbn [probes filter is_probe List.length debugs elapsed_us app Nat.add Nat.eqb IEC_DDR].
         split; [reflexivity|]. split; [lia|]. split; [lia|]. split; [reflexivity|].
         left. reflexivity. }
    eapply wp_weaken; [apply IH|]. cbv beta.
    intros tr s' o (-> & Hp & Ht & Hddr & Hlog).
    rewrite !probes_app, !debugs_app, !elapsed_us_app, Hp1, Hd1.
    cbn [probes filter is_probe List.length debugs elapsed_us app Nat.add Nat.eqb].
    cbn [IEC_DDR n_timer] in Hddr, Hlog.
    split; [reflexivity|]. split; [lia|]. split; [lia|]. split.
    + rewrite Hddr. destruct (probes tr =? 0)%nat; [reflexivity | apply released_twice].
    + destruct Hlog as [Hd | (Hd & Hn & Htm & Hgo & Hlow)]; [left; exact Hd|].
      right. split; [exact Hd|]. split; [lia|]. split; [lia|]. split; [|lia].
      intros [|j] Hj; [exact Hg|].
      replace (S j + n_timer s)%nat with (j + S (n_timer s))%nat by lia.
      apply Hgo. lia.
Qed.

(** X11: [wait_for_free_bus] probes the bus at most
    [(uint16_t)(XUM1541_TIMEOUT * 10000)] times, for at most 400 us a round;
    it logs its timeout only after it has made every one of these probes and
    the host has not asked to abort after any of them, and then it has spent
    at least 150 us a round; with a count of 0 it probes nothing and logs the
    timeout at once. *)
Theorem wait_for_free_bus_bounded (E : env) (ROUNDS : Z) (s : state) :
  let n := Z.to_nat (wrap16 ROUNDS) in
  let r := wait_for_free_bus E ROUNDS s in
  result r = Done tt /\
  (probes (emitted r) <= n)%nat /\
  elapsed_us (emitted r) <= 400 * Z.of_nat n /\
  (debugs (emitted r) = [] \/ debugs (emitted r) = ["wait4free bus to\n"%string]) /\
  (debugs (emitted r) <> [] ->
   probes (emitted r) = n /\
   n_timer (final r) = (n + n_timer s)%nat /\
   (forall j, (j < n)%nat -> timer_sample E (j + n_timer s) = true) /\
   150 * Z.of_nat n <= elapsed_us (emitted r)) /\
  (n = 0%nat -> emitted r = [EvDebug "wait4free bus to\n"]).
Proof.
  intros n r.
  pose proof (wait_for_free_bus_loop_spec E n s) as Hw.
  apply wp_elim in Hw. cbv beta in Hw.
  change (wait_for_free_bus_loop E n s) with r in Hw.
  destruct Hw as (Ho & Hp & Ht & _ & Hlog).
  split; [exact Ho|]. split; [exact Hp|]. split; [apply Ht|]. split; [|split].
  - destruct Hlog as [Hd | (Hd & _)]; auto.
  - intros Hne. destruct Hlog as [Hd | (_ & Hn & Htm & Hgo & Hlow)]; [contradiction|].
    repeat split; assumption.
  - intros Hn. subst r. unfold wait_for_free_bus. fold n. rewrite Hn. reflexivity.
Qed.

Lemma wait_for_free_bus_loop_spares_reset (E : env) (i : nat) (s : state) :
  forallb (fun e => negb (pulls IO_RESET e)) (emitted (wait_for_free_bus_loop E i s)) = true.
Proof.
  apply (keeps_wait_for_free_bus_loop E
           (fun _ tr _ => forallb (fun e => negb (pulls IO_RESET e)) tr = true))
    with (may_set := fun line => Z.land line IO_RESET = 0) (may_release := fun _ => True);
    try exact I; try reflexivity.
  - intros s0 tr1 s1 tr2 s2 H1 H2. rewrite forallb_app, H1, H2. reflexivity.
  - intros e He s0. destruct e; try discriminate He; reflexivity.
  - intros s0. reflexivity.
  - intros s0. reflexivity.
  - intros line Hl s0. cbn [iec_set emitted forallb pulls]. rewrite Hl. reflexivity.
  - intros line _ s0. reflexivity.
Qed.

Lemma reset_pulse_lines (d : Z) :
  Z.land (Z.land (Z.lor (Z.land d (Z.lnot (Z.lor (Z.lor IO_DATA IO_ATN) IO_CLK))) IO_RESET)
                 (Z.lnot IO_RESET)) all_lines = 0.
Proof. bitblast. Qed.

Lemma reset_pulse_rest (d : Z) :
  Z.land (Z.land (Z.lor (Z.land d (Z.lnot (Z.lor (Z.lor IO_DATA IO_ATN) IO_CLK))) IO_RESET)
                 (Z.lnot IO_RESET)) (Z.lnot all_lines) =
  Z.land d (Z.lnot all_lines).
Proof. bitblast. Qed.

(** X12: [cbm_reset] lets go of DATA, ATN and CLOCK, pulls RESET for one
    delay of 30 ms, lets go of it and does not pull it again while it waits
    for the bus; it returns with the four lines let go and every other pin as
    it was, after 30 ms and at most 400 us for each round of the wait. *)
Theorem cbm_reset_pulse (E : env) (ROUNDS : Z) (s : state) :
  let n := Z.to_nat (wrap16 ROUNDS) in
  let r := cbm_reset E ROUNDS s in
  exists tr,
    emitted r =
      [EvRelease (Z.lor (Z.lor IO_DATA IO_ATN) IO_CLK); EvSet IO_RESET; EvDelayMs 30;
       EvRelease IO_RESET] ++ tr /\
    forallb (fun e => negb (pulls IO_RESET e)) tr = true /\
    result r = Done tt /\
    Z.land (IEC_DDR (final r)) all_lines = 0 /\
    Z.land (IEC_DDR (final r)) (Z.lnot all_lines) = Z.land (IEC_DDR s) (Z.lnot all_lines) /\
    30000 <= elapsed_us (emitted r) <= 30000 + 400 * Z.of_nat n.
Proof.
  intros n r.
  set (s1 := State (Z.land (Z.lor (Z.land (IEC_DDR s)
                                          (Z.lnot (Z.lor (Z.lor IO_DATA IO_ATN) IO_CLK)))
                                  IO_RESET) (Z.lnot IO_RESET))
                   (eoi s) (n_pin s) (n_timer s) (n_recv s) (n_send s)).
  assert (r = Run ([EvRelease (Z.lor (Z.lor IO_DATA IO_ATN) IO_CLK); EvSet IO_RESET;
                    EvDelayMs 30; EvRelease IO_RESET]
                     ++ emitted (wait_for_free_bus_loop E n s1))
                  (final (wait_for_free_bus_loop E n s1))
                  (result (wait_for_free_bus_loop E n s1))) as Hr.
  { subst r. unfold cbm_reset. do 4 run_prim. reflexivity. }
  pose proof (wait_for_free_bus_loop_spec E n s1) as Hw.
  apply wp_elim in Hw. cbv beta in Hw.
  destruct Hw as (Ho & _ & Ht & Hddr & _).
  exists (emitted (wait_for_free_bus_loop E n s1)).
  rewrite Hr. cbn [emitted final result].
  split; [reflexivity|]. split; [apply wait_for_free_bus_loop_spares_reset|].
  split; [exact Ho|].
  rewrite Hddr. cbn [IEC_DDR s1].
  split; [|split].
  - destruct (probes _ =? 0)%nat; [apply reset_pulse_lines | apply released_lines].
  - destruct (probes _ =? 0)%nat; [|rewrite released_twice]; apply reset_pulse_rest.
  - cbn [app elapsed_us]. lia.
Qed.

(** ** What a write fetches, and how it leaves the lines *)


Lemma usb_calls_marks (tr : list event) : usb_calls (marks tr) = usb_calls tr.
Proof.
  unfold usb_calls. induction tr as [|e tr IH]; [reflexivity|].
  destruct e; cbn [marks quiet filter is_usb]; rewrite ?IH; reflexivity.
Qed.

Lemma usb_calls_app (l1 l2 : list event) :
  usb_calls (l1 ++ l2) = usb_calls l1 ++ usb_calls l2.
Proof. apply filter_app. Qed.



Lemma usb_calls_eoi_marks (atn len : Z) : usb_calls (eoi_marks atn len) = [].
Proof. unfold eoi_marks. destruct ((len =? 1) && (atn =? 0)); reflexivity. Qed.





Lemma write_run_usb (atn len rv : Z) (ms : list event) (o : outcome (Z * Z)) :
  write_run atn len rv ms o ->
  exists fetched : list (Z * Z),
    usb_calls ms = map (fun f => EvUsbRecvByte (fst f) (snd f)) fetched.
Proof.
  induction 1 as [len rv Hx | len rv Hx | len rv Hx | len rv Hx
                  | len rv st d Hx Hst | len rv d Hx | len rv d ms o Hx Hrun IH].
  - exists []. reflexivity.
  - exists []. reflexivity.
  - exists []. reflexivity.
  - exists []. reflexivity.
  - exists [(st, d)]. rewrite usb_calls_app, usb_calls_eoi_marks. reflexivity.
  - exists [(0, d)]. rewrite usb_calls_app, usb_calls_eoi_marks. reflexivity.
  - destruct IH as [fetched IH]. exists ((0, d) :: fetched).
    rewrite !usb_calls_app, usb_calls_eoi_marks, IH. reflexivity.
Qed.

(** X14: in a call of [cbm_raw_write] the byte channel is opened first, by
    one [usbInitIo] for the requested length, then bytes are fetched, and
    [usbIoDone] is called at most once and after the last fetch; a call that
    returns has called it exactly once. *)
Theorem cbm_raw_write_usb_session (E : env) (TALK ATN : Z) (fuel : nat)
        (len flags : Z) (s : state) :
  let r := cbm_raw_write E TALK ATN fuel len flags s in
  exists (fetched : list (Z * Z)) (closed : bool),
    usb_calls (emitted r) =
      EvUsbInitIo len ENDPOINT_DIR_OUT
        :: map (fun f => EvUsbRecvByte (fst f) (snd f)) fetched
        ++ (if closed then [EvUsbIoDone] else []) /\
    (forall rv, result r = Done rv -> closed = true).
Proof.
  intros r.
  pose proof (cbm_raw_write_run E TALK ATN fuel len flags s) as Hw.
  cbv zeta in Hw. apply wp_elim in Hw. cbv beta in Hw. fold r in Hw.
  rewrite <- (usb_calls_marks (emitted r)).
  destruct Hw
    as [[Hm Hr] | (ms & o & Hrun & [(-> & Hm & Hr) | (l & rv0 & -> & Hm & Hr)])];
    rewrite Hm.
  - exists [], true. split; [reflexivity | auto].
  - destruct (write_run_usb _ _ _ _ _ Hrun) as [fetched Hu].
    exists fetched, false. split.
    + rewrite usb_calls_app, Hu. cbn [usb_calls filter is_usb app].
      rewrite app_nil_r. reflexivity.
    + intros rv Hd. rewrite Hr in Hd. discriminate Hd.
  - destruct (write_run_usb _ _ _ _ _ Hrun) as [fetched Hu].
    exists fetched, true. split; [|auto].
    rewrite !usb_calls_app, Hu. reflexivity.
Qed.

Ltac wp_any :=
  apply wp_bind;
  match goal with
  | |- wp ?c ?s _ =>
      let tr := fresh "tr" in
      let s' := fresh "s" in
      let o := fresh "o" in
      let H := fresh "Hrun" in
      destruct (c s) as [tr s' o] eqn:H;
      apply (wp_run _ _ _ _ _ _ H); cbv beta iota; clear H
  end.

Lemma clk_after_bit (x : Z) :
  Z.land (Z.land (Z.lor x IO_CLK) (Z.lnot IO_DATA)) IO_CLK = IO_CLK.
Proof. bitblast. Qed.

Lemma send_byte_bits_lines (left : nat) :
  forall b s,
    wp (send_byte_bits left b) s
       (fun _ s' o =>
          o = Done tt /\
          ((Z.land (IEC_DDR s) IO_DATA = 0 /\ Z.land (IEC_DDR s) IO_CLK = IO_CLK)
           \/ left <> O ->
           Z.land (IEC_DDR s') IO_DATA = 0 /\ Z.land (IEC_DDR s') IO_CLK = IO_CLK)).
Proof.
  induction left as [|left IH]; intros b s.
  - apply wp_ret. split; [reflexivity|].
    intros [H|H]; [exact H | contradiction H; reflexivity].
  - cbn [send_byte_bits]. wp_prim.
    destruct (Z.land b 1 =? 0); cbv iota;
      do 4 wp_prim;
      (eapply wp_weaken; [apply IH|]); cbv beta;
      intros tr s' o [Ho H]; (split; [exact Ho|]); intros _; apply H; left; cbn [IEC_DDR];
      (split; [apply land_data_after_release | apply clk_after_bit]).
Qed.

(** After [send_byte] DATA is let go and CLOCK is pulled. *)
Lemma send_byte_lines (E : env) (b : Z) (s : state) :
  wp (send_byte E b) s
     (fun _ s' o =>
        (exists ack, o = Done ack) /\
        Z.land (IEC_DDR s') IO_DATA = 0 /\ Z.land (IEC_DDR s') IO_CLK = IO_CLK).
Proof.
  unfold send_byte.
  wp_use send_byte_bits_lines. intros tr1 s1 o1 [-> H1].
  assert (Z.land (IEC_DDR s1) IO_DATA = 0 /\ Z.land (IEC_DDR s1) IO_CLK = IO_CLK) as Hd
      by (apply H1; right; discriminate).
  destruct (iec_wait_timeout_2ms_total E IO_DATA IO_DATA s1) as (k & tr & ack & Hrun & _).
  wp_call Hrun.
  destruct ack; cbv iota; wp_prim; apply wp_ret; (split; [eexists; reflexivity | exact Hd]).
Qed.

Lemma cbm_raw_write_loop_lines (E : env) (inner fuel : nat) :
  forall atn len rv s,
    Z.land (IEC_DDR s) IO_DATA = 0 -> Z.land (IEC_DDR s) IO_CLK = IO_CLK ->
    wp (cbm_raw_write_loop E inner fuel atn len rv) s
       (fun _ s' o =>
          forall l rv',
            o = Done (l, rv') -> rv' <> 0 ->
            Z.land (IEC_DDR s') IO_DATA = 0 /\ Z.land (IEC_DDR s') IO_CLK = IO_CLK).
Proof.
  induction fuel as [|fuel IH]; intros atn len rv s Hd Hc; cbn [cbm_raw_write_loop];
    (destruct ((len =? 0) || (rv =? 0)); cbv iota;
     [ apply wp_ret; intros l rv' _ _; split; assumption | ]).
  - wp_last. intros l rv' Ho. discriminate Ho.
  - wp_prim. wp_call (iec_get_run E IO_DATA s).
    destruct (asserted IO_DATA (pin_sample E (n_pin s))); cbv iota.
    2: { do 2 wp_prim.
         match goal with
         | |- wp (cbm_raw_write_loop E inner fuel atn len 0) ?s1 _ =>
             apply (wp_run _ _ _ _ _ _
                      (cbm_raw_write_loop_exit E inner fuel atn len 0 s1
                         ltac:(rewrite Z.eqb_refl; apply orb_true_r)))
         end.
         intros l rv' Ho Hrv. injection Ho as _ <-. contradiction Hrv. reflexivity. }
    wp_any. destruct o as [ready| |]; try (intros l rv' Ho; discriminate Ho).
    destruct ready; cbn [negb]; cbv iota.
    2: { wp_prim. apply wp_ret.
         intros l rv' Ho Hrv. injection Ho as _ <-. contradiction Hrv. reflexivity. }
    wp_any. destruct o as [[]| |]; try (intros l rv' Ho; discriminate Ho).
    do 2 wp_prim.
    match goal with
    | |- context [usb_recv_sample E ?n] => destruct (usb_recv_sample E n) as [st d]
    end.
    cbn [fst snd].
    destruct (st =? 0); cbn [negb]; cbv iota.
    2: { apply wp_ret.
         intros l rv' Ho Hrv. injection Ho as _ <-. contradiction Hrv. reflexivity. }
    wp_use send_byte_lines. intros tr2 s2 o2 ([ack ->] & Hd2 & Hc2).
    destruct ack; cbv iota.
    + do 2 wp_prim. eapply wp_weaken; [apply IH; assumption|]. cbv beta.
      intros tr3 s3 o3 H. exact H.
    + do 2 wp_prim.
      match goal with
      | |- wp (cbm_raw_write_loop E inner fuel atn len 0) ?s1 _ =>
          apply (wp_run _ _ _ _ _ _
                   (cbm_raw_write_loop_exit E inner fuel atn len 0 s1
                      ltac:(rewrite Z.eqb_refl; apply orb_true_r)))
      end.
      intros l rv' Ho Hrv. injection Ho as _ <-. contradiction Hrv. reflexivity.
Qed.

Lemma talk_wait_loop_passive (E : env) (fuel : nat) (rv : Z) (s : state) :
  IEC_DDR (final (talk_wait_loop E fuel rv s)) = IEC_DDR s.
Proof.
  apply (keeps_talk_wait_loop E (fun s0 _ s' => IEC_DDR s' = IEC_DDR s0)).
  - reflexivity.
  - intros s0 tr1 s1 tr2 s2 H1 H2. congruence.
  - intros s0. reflexivity.
  - intros s0. reflexivity.
Qed.

Lemma write_lines_at_start (d x : Z) :
  x = IO_ATN \/ x = 0 ->
  Z.land (Z.lor (Z.land d (Z.lnot IO_DATA)) (Z.lor IO_CLK x)) IO_DATA = 0 /\
  Z.land (Z.lor (Z.land d (Z.lnot IO_DATA)) (Z.lor IO_CLK x)) IO_CLK = IO_CLK.
Proof. intros [-> | ->]; split; bitblast. Qed.

Lemma write_lines_at_error (d : Z) :
  Z.land (Z.land d (Z.lnot (Z.lor IO_CLK IO_ATN))) IO_ATN = 0 /\
  Z.land (Z.land d (Z.lnot (Z.lor IO_CLK IO_ATN))) IO_CLK = 0.
Proof. split; bitblast. Qed.

Lemma write_lines_at_talk (d : Z) :
  Z.land (Z.land (Z.lor d IO_DATA) (Z.lnot (Z.lor IO_CLK IO_ATN))) IO_ATN = 0 /\
  Z.land (Z.land (Z.lor d IO_DATA) (Z.lnot (Z.lor IO_CLK IO_ATN))) IO_CLK = 0 /\
  Z.land (Z.land (Z.lor d IO_DATA) (Z.lnot (Z.lor IO_CLK IO_ATN))) IO_DATA = IO_DATA.
Proof. repeat split; bitblast. Qed.

Lemma write_lines_at_end (d : Z) :
  Z.land (Z.land d (Z.lnot IO_ATN)) IO_ATN = 0 /\
  Z.land (Z.land d (Z.lnot IO_ATN)) IO_CLK = Z.land d IO_CLK /\
  Z.land (Z.land d (Z.lnot IO_ATN)) IO_DATA = Z.land d IO_DATA.
Proof. repeat split; bitblast. Qed.

(** X15: when [cbm_raw_write] returns, ATN is let go; after a failure
    (result 0) CLOCK is let go as well; after a success without the TALK flag
    the adapter still holds CLOCK and has let go of DATA; after a success
    with the TALK flag the lines are turned around: DATA is pulled and CLOCK
    is let go. *)
Theorem cbm_raw_write_lines_on_return (E : env) (TALK ATN : Z) (fuel : nat)
        (len flags : Z) (s : state) :
  let talk := wrap8 (Z.land flags TALK) in
  let r := cbm_raw_write E TALK ATN fuel len flags s in
  let ddr := IEC_DDR (final r) in
  forall rv,
    result r = Done rv ->
    Z.land ddr IO_ATN = 0 /\
    (rv = 0 -> Z.land ddr IO_CLK = 0) /\
    (rv <> 0 -> talk = 0 -> Z.land ddr IO_CLK = IO_CLK /\ Z.land ddr IO_DATA = 0) /\
    (rv <> 0 -> talk <> 0 -> Z.land ddr IO_CLK = 0 /\ Z.land ddr IO_DATA = IO_DATA).
Proof.
  intros talk r ddr.
  assert (wp (cbm_raw_write E TALK ATN fuel len flags) s
             (fun _ s' o =>
                forall rv,
                  o = Done rv ->
                  Z.land (IEC_DDR s') IO_ATN = 0 /\
                  (rv = 0 -> Z.land (IEC_DDR s') IO_CLK = 0) /\
                  (rv <> 0 -> talk = 0 ->
                   Z.land (IEC_DDR s') IO_CLK = IO_CLK /\ Z.land (IEC_DDR s') IO_DATA = 0) /\
                  (rv <> 0 -> talk <> 0 ->
                   Z.land (IEC_DDR s') IO_CLK = 0 /\
                   Z.land (IEC_DDR s') IO_DATA = IO_DATA))) as Hwp.
  { cbv beta zeta delta [cbm_raw_write]. fold talk.
    do 4 wp_prim.
    match goal with
    | |- wp (bind (iec_wait_timeout_2ms E IO_DATA IO_DATA) _) ?s0 _ =>
        destruct (iec_wait_timeout_2ms_total E IO_DATA IO_DATA s0)
          as (k & trp & dev & Hrunp & _);
        wp_call Hrunp
    end.
    cbn [IEC_DDR].
    match goal with
    | |- context [Z.lor IO_CLK (if ?c then IO_ATN else 0)] =>
        destruct (write_lines_at_start (IEC_DDR s) (if c then IO_ATN else 0))
          as [Hd0 Hc0];
        [destruct c; auto|]
    end.
    destruct dev; cbn [negb]; cbv iota.
    2: { do 3 wp_prim. apply wp_ret. cbn [IEC_DDR].
         intros rv Ho. injection Ho as <-.
         match goal with
         | |- context [Z.land ?d (Z.lnot (Z.lor IO_CLK IO_ATN))] =>
             destruct (write_lines_at_error d) as [Ha Hc]
         end.
         repeat split; intros; try assumption; congruence. }
    apply wp_bind. eapply wp_weaken.
    { apply cbm_raw_write_loop_lines; cbn [IEC_DDR]; assumption. }
    cbv beta. intros trl sl ol Hl.
    destruct ol as [[l rvl]| |]; try (intros rv Ho; discriminate Ho).
    specialize (Hl l rvl eq_refl).
    wp_prim. cbn [snd].
    destruct (Z.eqb_spec rvl 0) as [->|Hrv]; cbn [negb]; cbv iota.
    { wp_prim. apply wp_ret. cbn [IEC_DDR].
      intros rv Ho. injection Ho as <-.
      match goal with
      | |- context [Z.land ?d (Z.lnot (Z.lor IO_CLK IO_ATN))] =>
          destruct (write_lines_at_error d) as [Ha Hc]
      end.
      repeat split; intros; try assumption; congruence. }
    destruct (Hl Hrv) as [Hdl Hcl].
    destruct (Z.eqb_spec talk 0) as [Ht|Ht]; cbn [negb]; cbv iota.
    - do 2 wp_prim. apply wp_ret. cbn [IEC_DDR].
      intros rv Ho. injection Ho as <-.
      destruct (write_lines_at_end (IEC_DDR sl)) as (Ha & Hc & Hd).
      rewrite Hc, Hd.
      repeat split; intros; try assumption; congruence.
    - apply wp_bind. do 2 wp_prim.
      match goal with
      | |- wp (talk_wait_loop E fuel rvl) ?s2 _ =>
          pose proof (talk_wait_loop_passive E fuel rvl s2) as Hp;
          destruct (talk_wait_loop E fuel rvl s2) as [trt st ot] eqn:Hrunt;
          apply (wp_run _ _ _ _ _ _ Hrunt)
      end.
      cbn [final IEC_DDR] in Hp.
      destruct ot as [rv'| |]; try (intros rv Ho; discriminate Ho).
      wp_prim. apply wp_ret. cbn [IEC_DDR].
      intros rv Ho. injection Ho as <-. rewrite Hp.
      destruct (write_lines_at_talk (IEC_DDR sl)) as (Ha & Hc & Hd).
      repeat split; intros; try assumption; congruence. }
  intros rv Ho. apply wp_elim in Hwp. cbv beta in Hwp. apply Hwp. exact Ho.
Qed.

Lemma cbm_raw_write_lines_on_return_witness :
  Z.land (IEC_DDR (final (cbm_raw_write listener_bus 1 2 4 2 0 (State 0 0 0 0 0 0))))
         IO_CLK = IO_CLK.
Proof.
  apply (cbm_raw_write_lines_on_return listener_bus 1 2 4 2 0 (State 0 0 0 0 0 0) 2).
  - vm_compute. reflexivity.
  - discriminate.
  - reflexivity.
Defined.

(** ** The calls of a read *)










Section ReadCalls.

Variable E : env.








End ReadCalls.








(** ** The burst backend: which drives get the routine, and how much is read *)

(** X18: [upload] calls the upload primitive only for a drive that
    [cbm_identify] has identified, without an error, as a 1570 or a 1571, and
    then once, for the whole routine at the address [0x700] of that drive; it
    returns 0 only after that call; when the identification fails it returns
    1 without a message; it never writes to the memory of the caller. *)
Theorem upload_only_to_supported_drives
        (prog : list Z) (ident : Z -> Z * Srq.cbm_device_type_e)
        (upl : Z -> Z -> list Z -> Z -> Z) (drive : Z) (s : Srq.state) :
  let r := Srq.upload prog ident upl drive s in
  let len := wrap32 (Z.of_nat (List.length prog)) in
  (forall d a p n,
      In (Srq.EvUpload d a p n) (emitted r) ->
      fst (ident drive) = 0 /\
      (snd (ident drive) = Srq.cbm_dt_cbm1570 \/ snd (ident drive) = Srq.cbm_dt_cbm1571) /\
      len < 256 /\
      d = drive /\ a = 0x700 /\ p = prog /\ n = len) /\
  (result r = Done 0 -> In (Srq.EvUpload drive 0x700 prog len) (emitted r)) /\
  (fst (ident drive) <> 0 -> emitted r = [Srq.EvIdentify drive] /\ result r = Done 1) /\
  (result r = Done 0 \/ result r = Done 1 \/ result r = Fault) /\
  final r = s.
Proof.
  cbv zeta. unfold Srq.upload, Srq.cbm_identify.
  cbn [bind emit ret result final emitted app].
  destruct (ident drive) as [rc t]. cbn [fst snd].
  destruct (Z.eqb_spec rc 0) as [->|Hrc]; cbn [negb];
    [ destruct t; cbn [bind emit ret result final emitted app];
      try (unfold Srq.assert;
           destruct (Z.ltb_spec (wrap32 (Z.of_nat (List.length prog))) 256) as [Hlt|Hge];
           cbn [bind emit ret fault result final emitted app Srq.cbm_upload];
           try (destruct (wrap32 (upl drive 1792 prog (wrap32 (Z.of_nat (List.length prog))))
                          =? wrap32 (Z.of_nat (List.length prog)));
                cbn [negb bind emit ret result final emitted app]))
    | cbn [ret result final emitted app] ];
    (split;
     [ intros d a p n Hin; cbn [In] in Hin;
       repeat (destruct Hin as [Hin|Hin]); try discriminate Hin; try contradiction;
       injection Hin as <- <- <- <-; repeat split; auto
     | split;
       [ intros Hr; try discriminate Hr; cbn [In]; auto 6
       | split;
         [ intros Hne; try congruence; split; reflexivity
         | split; [ auto | reflexivity ] ] ] ]).
Qed.

Lemma wrap32_past_256 (length : Z) :
  256 < length < 4294967296 -> wrap32 (256 - length) = 4294967296 + 256 - length.
Proof.
  intros H. unfold wrap32.
  rewrite <- (Z.mod_add (256 - length) 1 4294967296) by lia.
  rewrite Z.mod_small by lia. lia.
Qed.

Lemma readblock_loop_past (burst : nat -> Z) (fuel : nat) (p length : Z) (s : Srq.state) :
  256 <= length ->
  Srq.readblock_loop burst fuel p length s = Run [] s (Done tt).
Proof.
  intros H.
  assert ((length <? 256) = false) as Hf by (apply Z.ltb_ge; exact H).
  destruct fuel; cbn [Srq.readblock_loop]; rewrite Hf; reflexivity.
Qed.

(** X19: [readblock] does not clamp its length: started with [length] above
    256, the build without the handshake asks the track read for
    [2^32 + 256 - length] bytes, the difference of the unsigned subtraction,
    where the handshaked build reads nothing; with [length = 256] both read
    nothing. *)
Theorem readblock_past_256
        (burst : nat -> Z) (track : (Z -> Z) -> Z -> Z -> (Z -> Z) * Z)
        (fuel : nat) (p length : Z) (s : Srq.state) :
  let asked := if length =? 256 then 0 else 4294967296 + 256 - length in
  256 <= length < 4294967296 ->
  Srq.readblock burst track false fuel p length s =
    Run [Srq.EvBurstReadTrack p asked]
        (Srq.State (fst (track (Srq.mem s) p asked)) (Srq.n_burst s))
        (Done (snd (track (Srq.mem s) p asked))) /\
  Srq.readblock burst track true fuel p length s = Run [] s (Done 0).
Proof.
  intros asked Hl. split.
  - unfold Srq.readblock, Srq.cbm_srq_burst_read_track.
    assert (wrap32 (256 - length) = asked) as ->; [|reflexivity].
    subst asked. destruct (Z.eqb_spec length 256) as [->|Hne]; [reflexivity|].
    apply wrap32_past_256. lia.
  - unfold Srq.readblock.
    rewrite (bind_done _ _ _ _ _ _ (readblock_loop_past burst fuel p length s (proj1 Hl))).
    reflexivity.
Qed.

Lemma readblock_past_256_witness :
  emitted (Srq.readblock (fun _ => 0) (fun m _ _ => (m, 0)) false 0 10 257
                         (Srq.State (fun a => a) 0)) =
  [Srq.EvBurstReadTrack 10 4294967295].
Proof.
  rewrite (proj1 (readblock_past_256 (fun _ => 0) (fun m _ _ => (m, 0)) 0 10 257
                    (Srq.State (fun a => a) 0) ltac:(lia))).
  reflexivity.
Defined.

(** ** The ports of the board *)

Lemma parallel_byte (pc pd val : Z) :
  0 <= val < 256 ->
  Z.lor (Z.land (Z.lor (Z.land pc (Z.lnot Board.PAR_PORT0_MASK))
                       (Z.land val Board.PAR_PORT0_MASK)) 0xf0)
        (Z.land (Z.lor (Z.land pd (Z.lnot Board.PAR_PORT1_MASK))
                       (Z.land val Board.PAR_PORT1_MASK)) 0x0f) = val.
Proof. intros Hv. bitblast. Qed.

Lemma nibble_set (x m : Z) : Z.land (Z.lor x m) m = m.
Proof. bitwise. Qed.

Lemma nibble_set_rest (x m k : Z) : Z.land m k = 0 -> Z.land (Z.lor x m) k = Z.land x k.
Proof. intros H. rewrite Z.land_lor_distr_l, H. apply Z.lor_0_r. Qed.

Lemma nibble_cleared (x m : Z) : Z.land (Z.land x (Z.lnot m)) m = 0.
Proof. bitwise. Qed.

Lemma nibble_written_rest (x v m k : Z) :
  Z.land m k = 0 ->
  Z.land (Z.lor (Z.land x (Z.lnot m)) (Z.land v m)) k = Z.land x k.
Proof.
  intros H. apply Z.bits_inj'. intros n Hn.
  apply (f_equal (fun z => Z.testbit z n)) in H.
  repeat rewrite ?Z.land_spec, ?Z.lor_spec, ?Z.lnot_spec, ?Z.bits_0 in * by exact Hn.
  destruct (Z.testbit x n); destruct (Z.testbit v n); destruct (Z.testbit m n);
    destruct (Z.testbit k n); cbn in *; congruence.
Qed.

Lemma nibble_cleared_rest (x m k : Z) :
  Z.land m k = 0 -> Z.land (Z.land x (Z.lnot m)) k = Z.land x k.
Proof.
  intros H. apply Z.bits_inj'. intros n Hn.
  apply (f_equal (fun z => Z.testbit z n)) in H.
  repeat rewrite ?Z.land_spec, ?Z.lnot_spec, ?Z.bits_0 in * by exact Hn.
  destruct (Z.testbit x n); destruct (Z.testbit m n); destruct (Z.testbit k n);
    cbn in *; congruence.
Qed.

Lemma nibble_written_twice (x v0 v m : Z) :
  Z.lor (Z.land (Z.lor (Z.land x (Z.lnot m)) (Z.land v0 m)) (Z.lnot m)) (Z.land v m) =
  Z.lor (Z.land x (Z.lnot m)) (Z.land v m).
Proof. bitwise. Qed.

Lemma nibble_set_twice (x m : Z) : Z.lor (Z.lor x m) m = Z.lor x m.
Proof. bitwise. Qed.

Lemma iec_pp_write_run (val : Z) (s : Board.state) :
  Board.iec_pp_write val s =
  Run [Board.EvWrite Board.DDRC (Z.lor (Board.ddr_c s) Board.PAR_PORT0_MASK);
       Board.EvWrite Board.DDRD (Z.lor (Board.ddr_d s) Board.PAR_PORT1_MASK);
       Board.EvWrite Board.PORTC (Z.land (Board.port_c s) (Z.lnot Board.PAR_PORT0_MASK));
       Board.EvWrite Board.PORTD (Z.land (Board.port_d s) (Z.lnot Board.PAR_PORT1_MASK));
       Board.EvWrite Board.PORTC
         (Z.lor (Z.land (Board.port_c s) (Z.lnot Board.PAR_PORT0_MASK))
                (Z.land val Board.PAR_PORT0_MASK));
       Board.EvWrite Board.PORTD
         (Z.lor (Z.land (Board.port_d s) (Z.lnot Board.PAR_PORT1_MASK))
                (Z.land val Board.PAR_PORT1_MASK))]
      (Board.State (Board.iec s) (Board.port_b s)
         (Z.lor (Board.ddr_c s) Board.PAR_PORT0_MASK)
         (Z.lor (Z.land (Board.port_c s) (Z.lnot Board.PAR_PORT0_MASK))
                (Z.land val Board.PAR_PORT0_MASK))
         (Z.lor (Board.ddr_d s) Board.PAR_PORT1_MASK)
         (Z.lor (Z.land (Board.port_d s) (Z.lnot Board.PAR_PORT1_MASK))
                (Z.land val Board.PAR_PORT1_MASK))
         (Board.n_pinc s) (Board.n_pind s))
      (Done tt).
Proof. reflexivity. Qed.

(** X20: [iec_pp_write] makes the eight pins of the parallel port outputs and
    puts the byte on them, its upper four bits on port C and its lower four
    on port D; the other pins of the two ports, the LED among them, and the
    IEC port keep their direction and their level; writing a second byte
    leaves the registers as writing it alone does. *)
Theorem iec_pp_write_drives_byte (val : Z) (s : Board.state) :
  let s' := final (Board.iec_pp_write val s) in
  0 <= val < 256 ->
  Z.lor (Z.land (Board.port_c s') 0xf0) (Z.land (Board.port_d s') 0x0f) = val /\
  Z.land (Board.ddr_c s') 0xf0 = 0xf0 /\
  Z.land (Board.ddr_d s') 0x0f = 0x0f /\
  Z.land (Board.port_c s') 0x0f = Z.land (Board.port_c s) 0x0f /\
  Z.land (Board.ddr_c s') 0x0f = Z.land (Board.ddr_c s) 0x0f /\
  Z.land (Board.port_d s') 0xf0 = Z.land (Board.port_d s) 0xf0 /\
  Z.land (Board.ddr_d s') 0xf0 = Z.land (Board.ddr_d s) 0xf0 /\
  Z.land (Board.port_d s') Board.LED_MASK = Z.land (Board.port_d s) Board.LED_MASK /\
  Board.iec s' = Board.iec s /\
  Board.port_b s' = Board.port_b s /\
  (forall val0, final (Board.iec_pp_write val (final (Board.iec_pp_write val0 s))) = s').
Proof.
  intros s' Hv. subst s'. rewrite iec_pp_write_run.
  cbn [final Board.port_c Board.port_d Board.ddr_c Board.ddr_d Board.iec Board.port_b].
  split; [apply parallel_byte; exact Hv|].
  split; [apply nibble_set|]. split; [apply nibble_set|].
  split; [apply nibble_written_rest; reflexivity|].
  split; [apply nibble_set_rest; reflexivity|].
  split; [apply nibble_written_rest; reflexivity|].
  split; [apply nibble_set_rest; reflexivity|].
  split; [apply nibble_written_rest; reflexivity|].
  split; [reflexivity|]. split; [reflexivity|].
  intros val0. rewrite !iec_pp_write_run.
  cbn [final Board.port_c Board.port_d Board.ddr_c Board.ddr_d Board.iec Board.port_b
       Board.n_pinc Board.n_pind].
  rewrite !nibble_written_twice, !nibble_set_twice. reflexivity.
Qed.

Lemma iec_pp_write_drives_byte_witness :
  Z.lor (Z.land (Board.port_c
                   (final (Board.iec_pp_write 0xA5
                             (Board.State (State 0 0 0 0 0 0) 0 0 0xFF 0x20 0x2F 0 0))))
                0xf0)
        (Z.land (Board.port_d
                   (final (Board.iec_pp_write 0xA5
                             (Board.State (State 0 0 0 0 0 0) 0 0 0xFF 0x20 0x2F 0 0))))
                0x0f) = 0xA5.
Proof.
  apply (iec_pp_write_drives_byte 0xA5
           (Board.State (State 0 0 0 0 0 0) 0 0 0xFF 0x20 0x2F 0 0)).
  lia.
Defined.

Lemma iec_pp_read_run (E : Board.env) (s : Board.state) :
  Board.iec_pp_read E s =
  Run [Board.EvWrite Board.DDRC (Z.land (Board.ddr_c s) (Z.lnot Board.PAR_PORT0_MASK));
       Board.EvWrite Board.DDRD (Z.land (Board.ddr_d s) (Z.lnot Board.PAR_PORT1_MASK));
       Board.EvWrite Board.PORTC (Z.land (Board.port_c s) (Z.lnot Board.PAR_PORT0_MASK));
       Board.EvWrite Board.PORTD (Z.land (Board.port_d s) (Z.lnot Board.PAR_PORT1_MASK));
       Board.EvInput Board.PINC (Board.input_sample E Board.PINC (Board.n_pinc s));
       Board.EvInput Board.PIND (Board.input_sample E Board.PIND (Board.n_pind s))]
      (Board.State (Board.iec s) (Board.port_b s)
         (Z.land (Board.ddr_c s) (Z.lnot Board.PAR_PORT0_MASK))
         (Z.land (Board.port_c s) (Z.lnot Board.PAR_PORT0_MASK))
         (Z.land (Board.ddr_d s) (Z.lnot Board.PAR_PORT1_MASK))
         (Z.land (Board.port_d s) (Z.lnot Board.PAR_PORT1_MASK))
         (S (Board.n_pinc s)) (S (Board.n_pind s)))
      (Done (Z.lor (Z.land (Board.input_sample E Board.PINC (Board.n_pinc s))
                           Board.PAR_PORT0_MASK)
                   (Z.land (Board.input_sample E Board.PIND (Board.n_pind s))
                           Board.PAR_PORT1_MASK))).
Proof. reflexivity. Qed.

Lemma nibbles_byte (c d : Z) : 0 <= Z.lor (Z.land c 0xf0) (Z.land d 0x0f) < 256.
Proof.
  assert (Z.lor (Z.land c 0xf0) (Z.land d 0x0f) =
          Z.land (Z.lor (Z.land c 0xf0) (Z.land d 0x0f)) (Z.ones 8)) as ->.
  { change (Z.ones 8) with 255. symmetry. bitblast. }
  rewrite Z.land_ones by lia. apply Z.mod_pos_bound. reflexivity.
Qed.

(** X21: [iec_pp_read] returns a byte made of the upper four bits of what it
    samples on port C and the lower four bits of what it samples on port D,
    whatever else these ports read; it leaves the eight pins of the parallel
    port as inputs without pull-ups, so that a byte written before is no
    longer put out, and leaves the other pins of the two ports, the LED among
    them, as they were. *)
Theorem iec_pp_read_samples (E : Board.env) (val : Z) (s : Board.state) :
  let c := Board.input_sample E Board.PINC (Board.n_pinc s) in
  let d := Board.input_sample E Board.PIND (Board.n_pind s) in
  let r := Board.iec_pp_read E s in
  let r2 := Board.iec_pp_read E (final (Board.iec_pp_write val s)) in
  (exists b, result r = Done b /\ 0 <= b < 256 /\
             Z.land b 0xf0 = Z.land c 0xf0 /\ Z.land b 0x0f = Z.land d 0x0f) /\
  Z.land (Board.ddr_c (final r)) 0xf0 = 0 /\
  Z.land (Board.port_c (final r)) 0xf0 = 0 /\
  Z.land (Board.ddr_d (final r)) 0x0f = 0 /\
  Z.land (Board.port_d (final r)) 0x0f = 0 /\
  Z.land (Board.ddr_d (final r)) Board.LED_MASK = Z.land (Board.ddr_d s) Board.LED_MASK /\
  Z.land (Board.port_d (final r)) Board.LED_MASK = Z.land (Board.port_d s) Board.LED_MASK /\
  Z.land (Board.ddr_c (final r2)) 0xf0 = 0 /\
  Z.land (Board.ddr_d (final r2)) 0x0f = 0 /\
  result r2 = result r.
Proof.
  cbv zeta. rewrite !iec_pp_read_run, iec_pp_write_run.
  cbn [final result Board.port_c Board.port_d Board.ddr_c Board.ddr_d Board.n_pinc
       Board.n_pind].
  split.
  { eexists. split; [reflexivity|]. split; [apply nibbles_byte|].
    split; bitblast. }
  split; [apply nibble_cleared|]. split; [apply nibble_cleared|].
  split; [apply nibble_cleared|]. split; [apply nibble_cleared|].
  split; [apply nibble_cleared_rest; reflexivity|].
  split; [apply nibble_cleared_rest; reflexivity|].
  split; [apply nibble_cleared|]. split; [apply nibble_cleared|].
  reflexivity.
Qed.

Lemma board_init_iec_run (s : Board.state) :
  Board.board_init_iec s =
  Run [Board.EvWrite Board.DDRB 0xFF;
       Board.EvWrite Board.PORTB 0xFF;
       Board.EvWrite Board.DDRC (Z.land (Board.ddr_c s) (Z.lnot Board.PAR_PORT0_MASK));
       Board.EvWrite Board.DDRD (Z.land (Board.ddr_d s) (Z.lnot Board.PAR_PORT1_MASK));
       Board.EvWrite Board.PORTC (Z.land (Board.port_c s) (Z.lnot Board.PAR_PORT0_MASK));
       Board.EvWrite Board.PORTD (Z.land (Board.port_d s) (Z.lnot Board.PAR_PORT1_MASK))]
      (Board.State
         (State 0xFF (eoi (Board.iec s)) (n_pin (Board.iec s)) (n_timer (Board.iec s))
                (n_recv (Board.iec s)) (n_send (Board.iec s)))
         0xFF
         (Z.land (Board.ddr_c s) (Z.lnot Board.PAR_PORT0_MASK))
         (Z.land (Board.port_c s) (Z.lnot Board.PAR_PORT0_MASK))
         (Z.land (Board.ddr_d s) (Z.lnot Board.PAR_PORT1_MASK))
         (Z.land (Board.port_d s) (Z.lnot Board.PAR_PORT1_MASK))
         (Board.n_pinc s) (Board.n_pind s))
      (Done tt).
Proof. reflexivity. Qed.

Lemma nibble_cleared_twice (x m : Z) :
  Z.land (Z.land x (Z.lnot m)) (Z.lnot m) = Z.land x (Z.lnot m).
Proof. bitwise. Qed.

(** X22: [board_init_iec] works from any state of the ports: it leaves
    [IEC_DDR] and [IEC_PORT] at [0xFF] and the eight pins of the parallel port
    as inputs without pull-ups, whatever they were, and the other pins of the
    ports C and D as they were; run a second time it changes nothing more.
    [cbm_init] after it lets go of DATA, CLOCK, ATN and RESET and leaves the
    direction bit of SRQ set: [IEC_DDR] is [0xA3]. *)
Theorem board_init_iec_from_any_state (s : Board.state) :
  let s1 := final (Board.board_init_iec s) in
  let s2 := final ((Board.board_init_iec ;; Board.lift cbm_init) s) in
  IEC_DDR (Board.iec s1) = 0xFF /\
  Board.port_b s1 = 0xFF /\
  Z.land (Board.ddr_c s1) 0xf0 = 0 /\
  Z.land (Board.port_c s1) 0xf0 = 0 /\
  Z.land (Board.ddr_d s1) 0x0f = 0 /\
  Z.land (Board.port_d s1) 0x0f = 0 /\
  Z.land (Board.ddr_c s1) 0x0f = Z.land (Board.ddr_c s) 0x0f /\
  Z.land (Board.port_c s1) 0x0f = Z.land (Board.port_c s) 0x0f /\
  Z.land (Board.ddr_d s1) 0xf0 = Z.land (Board.ddr_d s) 0xf0 /\
  Z.land (Board.port_d s1) 0xf0 = Z.land (Board.port_d s) 0xf0 /\
  final (Board.board_init_iec s1) = s1 /\
  IEC_DDR (Board.iec s2) = 0xA3 /\
  Z.land (IEC_DDR (Board.iec s2)) all_lines = 0 /\
  Z.land (IEC_DDR (Board.iec s2)) IO_SRQ = IO_SRQ.
Proof.
  cbv zeta.
  assert (final ((Board.board_init_iec ;; Board.lift cbm_init) s) =
          Board.with_iec (final (Board.board_init_iec s))
            (final (cbm_init (Board.iec (final (Board.board_init_iec s)))))) as ->.
  { rewrite (bind_done _ _ _ _ _ _ (board_init_iec_run s)). reflexivity. }
  rewrite !board_init_iec_run.
  cbn [final Board.with_iec Board.iec Board.port_b Board.port_c Board.port_d Board.ddr_c
       Board.ddr_d Board.n_pinc Board.n_pind IEC_DDR eoi n_pin n_timer n_recv n_send].
  split; [reflexivity|]. split; [reflexivity|].
  split; [apply nibble_cleared|]. split; [apply nibble_cleared|].
  split; [apply nibble_cleared|]. split; [apply nibble_cleared|].
  split; [apply nibble_cleared_rest; reflexivity|].
  split; [apply nibble_cleared_rest; reflexivity|].
  split; [apply nibble_cleared_rest; reflexivity|].
  split; [apply nibble_cleared_rest; reflexivity|].
  split; [rewrite !nibble_cleared_twice; reflexivity|].
  repeat split; reflexivity.
Qed.

(** ** A byte of the burst protocol written and read back *)

Lemma lift_iec_get_run (E : env) (line : Z) (s : Board.state) :
  Board.lift (iec_get E line) s =
  Run [Board.EvIec (EvPin (pin_sample E (n_pin (Board.iec s))))]
      (Board.with_iec s
         (State (IEC_DDR (Board.iec s)) (eoi (Board.iec s)) (S (n_pin (Board.iec s)))
                (n_timer (Board.iec s)) (n_recv (Board.iec s)) (n_send (Board.iec s))))
      (Done (asserted line (pin_sample E (n_pin (Board.iec s))))).
Proof. reflexivity. Qed.

Lemma lift_iec_release_run (line : Z) (s : Board.state) :
  Board.lift (iec_release line) s =
  Run [Board.EvIec (EvRelease line)]
      (Board.with_iec s
         (State (Z.land (IEC_DDR (Board.iec s)) (Z.lnot line)) (eoi (Board.iec s))
                (n_pin (Board.iec s)) (n_timer (Board.iec s)) (n_recv (Board.iec s))
                (n_send (Board.iec s))))
      (Done tt).
Proof. reflexivity. Qed.

Lemma write_reg_run (r : Board.register) (v : Z) (s : Board.state) :
  Board.write_reg r v s = Run [Board.EvWrite r v] (Board.set r v s) (Done tt).
Proof. reflexivity. Qed.

Lemma delay_ns_run (ns : Z) (s : Board.state) :
  Board.DELAY_NS ns s = Run [Board.EvDelayNs ns] s (Done tt).
Proof. reflexivity. Qed.

(** The bit that [iec_srq_write] puts on DATA: pulled for a 0 in bit 7. *)
Lemma srq_data_bit (d : Z) :
  Z.lxor (Z.land (Z.shiftr d 5) IO_DATA) IO_DATA = if Z.testbit d 7 then 0 else IO_DATA.
Proof.
  apply Z.bits_inj'. intros n Hn.
  rewrite Z.lxor_spec, Z.land_spec, Z.shiftr_spec by exact Hn.
  assert (n = 2 \/ n <> 2) as [-> | Hne] by lia.
  - change (2 + 5) with 7. change (Z.testbit IO_DATA 2) with true.
    destruct (Z.testbit d 7); reflexivity.
  - assert (Z.testbit IO_DATA n = false) as Hd.
    { unfold IO_DATA, _BV. change (Z.shiftl 1 2) with (2 ^ 2).
      apply Z.pow2_bits_false. lia. }
    rewrite Hd, andb_false_r.
    destruct (Z.testbit d 7); rewrite ?Hd, ?Z.bits_0; reflexivity.
Qed.

Lemma srq_level (data base : Z) :
  Z.land base IO_DATA = 0 ->
  (Z.land (Z.land (Z.lor (Z.lxor (Z.land (Z.shiftr data 5) IO_DATA) IO_DATA) base)
                  (Z.lnot IO_SRQ)) IO_DATA =? 0) = Z.testbit data 7.
Proof.
  intros Hb. rewrite srq_data_bit.
  destruct (Z.testbit data 7).
  - rewrite Z.lor_0_l, <- Z.land_assoc.
    change (Z.land (Z.lnot IO_SRQ) IO_DATA) with IO_DATA. rewrite Hb. reflexivity.
  - assert (Z.land (Z.land (Z.lor IO_DATA base) (Z.lnot IO_SRQ)) IO_DATA = IO_DATA) as ->
        by bitblast.
    reflexivity.
Qed.

Lemma iec_srq_write_bits_spec (i : nat) :
  forall base data s,
    Z.land base IO_DATA = 0 ->
    wp (Board.iec_srq_write_bits i base data) s
       (fun tr s' o =>
          o = Done tt /\
          (forall ddr, Board.data_at_srq_release ddr tr = Board.bits_from_top i data) /\
          Board.elapsed_ns tr = 1100 * Z.of_nat i /\
          IEC_DDR (Board.iec s') =
          match i with
          | O => IEC_DDR (Board.iec s)
          | S j =>
              Z.land (Z.lor (Z.lxor (Z.land (Z.shiftr
                                               (Nat.iter j (fun d => wrap8 (Z.shiftl d 1)) data)
                                               5) IO_DATA) IO_DATA) base)
                     (Z.lnot IO_SRQ)
          end /\
          Board.port_b s' = Board.port_b s /\
          Board.ddr_c s' = Board.ddr_c s /\ Board.port_c s' = Board.port_c s /\
          Board.ddr_d s' = Board.ddr_d s /\ Board.port_d s' = Board.port_d s).
Proof.
  induction i as [|i IH]; intros base data s Hb.
  - apply wp_ret. repeat split; reflexivity.
  - cbn [Board.iec_srq_write_bits].
    wp_call (write_reg_run Board.DDRB
               (Z.lor (Z.lxor (Z.land (Z.shiftr data 5) IO_DATA) IO_DATA) base) s).
    match goal with
    | |- wp (bind (Board.DELAY_NS 300) _) ?s1 _ => wp_call (delay_ns_run 300 s1)
    end.
    match goal with
    | |- wp (bind (Board.lift (iec_release IO_SRQ)) _) ?s1 _ =>
        wp_call (lift_iec_release_run IO_SRQ s1)
    end.
    match goal with
    | |- wp (bind (Board.DELAY_NS 800) _) ?s1 _ => wp_call (delay_ns_run 800 s1)
    end.
    eapply wp_weaken; [apply IH; exact Hb|]. cbv beta.
    cbn [Board.iec Board.with_iec Board.set IEC_DDR Board.port_b Board.ddr_c Board.port_c
         Board.ddr_d Board.port_d].
    intros tr s' o (-> & Hl & Ht & Hd & Hr).
    split; [reflexivity|]. split; [|split; [|split]].
    + intros ddr. cbn [app Board.data_at_srq_release Board.drive Xum1541.drive
                       Board.bits_from_top].
      change (Z.land IO_SRQ IO_SRQ =? 0) with false. cbv iota.
      rewrite srq_level by exact Hb. rewrite Hl. reflexivity.
    + cbn [app Board.elapsed_ns]. rewrite Ht, Nat2Z.inj_succ.
      change (elapsed_us [EvRelease IO_SRQ]) with 0. lia.
    + rewrite Hd. destruct i as [|j].
      * reflexivity.
      * rewrite Nat.iter_succ_r. reflexivity.
    + exact Hr.
Qed.

Lemma wrap8_shl_bit (b n : Z) :
  0 < n < 8 -> Z.testbit (wrap8 (Z.shiftl b 1)) n = Z.testbit b (n - 1).
Proof.
  intros Hn. unfold wrap8. change 256 with (2 ^ 8).
  rewrite Z.mod_pow2_bits_low by lia.
  apply Z.shiftl_spec. lia.
Qed.

Lemma bits_from_top_byte (b : Z) :
  Board.bits_from_top 8 b = map (Z.testbit b) [7; 6; 5; 4; 3; 2; 1; 0].
Proof.
  cbn [Board.bits_from_top map].
  repeat rewrite wrap8_shl_bit by lia.
  repeat (f_equal; try (f_equal; lia)).
Qed.

Lemma last_bit_sent (b : Z) :
  Z.testbit (Nat.iter 7 (fun d => wrap8 (Z.shiftl d 1)) b) 7 = Z.testbit b 0.
Proof.
  cbn [Nat.iter nat_rect].
  repeat rewrite wrap8_shl_bit by lia.
  f_equal.
Qed.

Lemma srq_write_lines (x ddr : Z) :
  let ddr' := Z.land (Z.lor (if Z.testbit x 7 then 0 else IO_DATA)
                            (Z.lor (Z.land ddr IO_ATN) IO_SRQ))
                     (Z.lnot IO_SRQ) in
  ddr' = Z.lor (if Z.testbit x 7 then 0 else IO_DATA) (Z.land ddr IO_ATN) /\
  Z.land ddr' (Z.lor (Z.lor IO_CLK IO_RESET) IO_SRQ) = 0 /\
  Z.land ddr' IO_ATN = Z.land ddr IO_ATN.
Proof.
  cbv zeta. destruct (Z.testbit x 7); repeat split; bitblast.
Qed.

Lemma shift_in_left_byte (b : Z) :
  0 <= b < 256 -> Board.shift_in_left (Board.bits_from_top 8 b) 0 = b.
Proof.
  intros Hb.
  assert (forallb (fun n => Board.shift_in_left (Board.bits_from_top 8 (Z.of_nat n)) 0
                            =? Z.of_nat n)
                  (seq 0 256) = true) as Hall by (vm_compute; reflexivity).
  rewrite forallb_forall in Hall.
  specialize (Hall (Z.to_nat b)).
  rewrite Z2Nat.id in Hall by lia.
  apply Z.eqb_eq, Hall, in_seq. lia.
Qed.

Lemma bits_from_top_length (n : nat) : forall b, List.length (Board.bits_from_top n b) = n.
Proof.
  induction n as [|n IH]; intros b; [reflexivity|].
  cbn [Board.bits_from_top List.length]. rewrite IH. reflexivity.
Qed.

Lemma wait_srq_pulled_exact (E : Board.env) (v u : Z) (w : nat) :
  asserted IO_SRQ v = false ->
  asserted IO_SRQ u = true ->
  forall fuel s,
    (w <= fuel)%nat ->
    plays (Board.iec_env E) (n_pin (Board.iec s)) (repeat v w ++ [u]) ->
    wp (Board.wait_srq_pulled E fuel) s
       (fun _ s' o =>
          o = Done tt /\
          s' = Board.with_iec s
                 (State (IEC_DDR (Board.iec s)) (eoi (Board.iec s))
                        (S w + n_pin (Board.iec s)) (n_timer (Board.iec s))
                        (n_recv (Board.iec s)) (n_send (Board.iec s)))).
Proof.
  intros Hv Hu. induction w as [|w IH]; intros fuel s Hf Hp.
  - cbn [repeat app] in Hp. apply plays_cons in Hp. destruct Hp as [Hp _].
    assert (Board.wait_srq_pulled E fuel =
            bind (Board.lift (iec_get (Board.iec_env E) IO_SRQ))
                 (fun q => if negb q
                           then match fuel with
                                | O => spin
                                | S fuel' => Board.wait_srq_pulled E fuel'
                                end
                           else ret tt)) as -> by (destruct fuel; reflexivity).
    wp_call (lift_iec_get_run (Board.iec_env E) IO_SRQ s).
    rewrite Hp, Hu. cbn [negb]. apply wp_ret. split; reflexivity.
  - destruct fuel as [|fuel]; [lia|].
    cbn [repeat app] in Hp. apply plays_cons in Hp. destruct Hp as [Hp Hrest].
    cbn [Board.wait_srq_pulled].
    wp_call (lift_iec_get_run (Board.iec_env E) IO_SRQ s).
    rewrite Hp, Hv. cbn [negb].
    eapply wp_weaken.
    + apply IH; [lia|]. cbn [Board.iec Board.with_iec n_pin]. exact Hrest.
    + cbv beta. cbn [Board.iec Board.with_iec IEC_DDR eoi n_pin n_timer n_recv n_send
                     Board.port_b Board.ddr_c Board.port_c Board.ddr_d Board.port_d
                     Board.n_pinc Board.n_pind].
      intros _ s' o (-> & ->). split; [reflexivity|].
      unfold Board.with_iec. cbn [Board.iec Board.port_b Board.ddr_c Board.port_c
                                  Board.ddr_d Board.port_d Board.n_pinc Board.n_pind].
      f_equal. f_equal. lia.
Qed.

Lemma wait_srq_released_exact (E : Board.env) (v u : Z) (w : nat) :
  asserted IO_SRQ v = true ->
  asserted IO_SRQ u = false ->
  forall fuel s,
    (w <= fuel)%nat ->
    plays (Board.iec_env E) (n_pin (Board.iec s)) (repeat v w ++ [u]) ->
    wp (Board.wait_srq_released E fuel) s
       (fun _ s' o =>
          o = Done tt /\
          s' = Board.with_iec s
                 (State (IEC_DDR (Board.iec s)) (eoi (Board.iec s))
                        (S w + n_pin (Board.iec s)) (n_timer (Board.iec s))
                        (n_recv (Board.iec s)) (n_send (Board.iec s)))).
Proof.
  intros Hv Hu. induction w as [|w IH]; intros fuel s Hf Hp.
  - cbn [repeat app] in Hp. apply plays_cons in Hp. destruct Hp as [Hp _].
    assert (Board.wait_srq_released E fuel =
            bind (Board.lift (iec_get (Board.iec_env E) IO_SRQ))
                 (fun q => if q
                           then match fuel with
                                | O => spin
                                | S fuel' => Board.wait_srq_released E fuel'
                                end
                           else ret tt)) as -> by (destruct fuel; reflexivity).
    wp_call (lift_iec_get_run (Board.iec_env E) IO_SRQ s).
    rewrite Hp, Hu. apply wp_ret. split; reflexivity.
  - destruct fuel as [|fuel]; [lia|].
    cbn [repeat app] in Hp. apply plays_cons in Hp. destruct Hp as [Hp Hrest].
    cbn [Board.wait_srq_released].
    wp_call (lift_iec_get_run (Board.iec_env E) IO_SRQ s).
    rewrite Hp, Hv.
    eapply wp_weaken.
    + apply IH; [lia|]. cbn [Board.iec Board.with_iec n_pin]. exact Hrest.
    + cbv beta. cbn [Board.iec Board.with_iec IEC_DDR eoi n_pin n_timer n_recv n_send
                     Board.port_b Board.ddr_c Board.port_c Board.ddr_d Board.port_d
                     Board.n_pinc Board.n_pind].
      intros _ s' o (-> & ->). split; [reflexivity|].
      unfold Board.with_iec. cbn [Board.iec Board.port_b Board.ddr_c Board.port_c
                                  Board.ddr_d Board.port_d Board.n_pinc Board.n_pind].
      f_equal. f_equal. lia.
Qed.

(** The bit loop of [iec_srq_read], on the samples of a sender that presents
    the levels [ds], shifts them in from the right. *)
Lemma iec_srq_read_bits_wave (E : Board.env) (fuel : nat) (lag : nat -> nat)
      (ds : list bool) :
  (forall j, (lag j <= fuel)%nat) ->
  forall i b s,
    plays (Board.iec_env E) (n_pin (Board.iec s)) (Board.srq_sender_samples lag i ds) ->
    wp (Board.iec_srq_read_bits E fuel (List.length ds) b) s
       (fun _ _ o => o = Done (Board.shift_in_left ds b)).
Proof.
  intros Hlag. induction ds as [|d ds IH]; intros i b s Hp.
  - apply wp_ret. reflexivity.
  - cbn [List.length Board.iec_srq_read_bits Board.srq_sender_samples
         Board.shift_in_left] in *.
    unfold Board.srq_bit_samples in Hp.
    apply plays_app in Hp. destruct Hp as [Hp Hrest].
    apply plays_app in Hp. destruct Hp as [Hw1 Hp].
    apply plays_app in Hp. destruct Hp as [Hw2 Hd].
    apply plays_cons in Hd. destruct Hd as [Hd _].
    rewrite !length_app, !repeat_length in *. cbn [List.length] in *.
    set (w1 := lag (2 * i)%nat) in *. set (w2 := lag (2 * i + 1)%nat) in *.
    wp_use (wait_srq_pulled_exact E (Board.srq_pins true d) (Board.srq_pins false d) w1).
    + destruct d; reflexivity.
    + destruct d; reflexivity.
    + apply Hlag.
    + exact Hw1.
    + intros _ s1 o1 (-> & ->).
      match goal with
      | |- wp (bind (Board.wait_srq_released E fuel) _) ?s1 _ =>
          wp_use (wait_srq_released_exact E (Board.srq_pins false d)
                                          (Board.srq_pins true d) w2
                                          ltac:(destruct d; reflexivity)
                                          ltac:(destruct d; reflexivity)
                                          fuel s1 (Hlag _))
      end.
      * cbn [Board.iec Board.with_iec n_pin].
        replace (S w1 + n_pin (Board.iec s))%nat
          with (w1 + 1 + n_pin (Board.iec s))%nat by lia.
        exact Hw2.
      * cbn [Board.iec Board.with_iec IEC_DDR eoi n_pin n_timer n_recv n_send].
        intros _ s2 o2 (-> & ->).
        match goal with
        | |- wp (bind (Board.DELAY_NS 375) _) ?s1 _ => wp_call (delay_ns_run 375 s1)
        end.
        match goal with
        | |- wp (bind (Board.lift (iec_get _ IO_DATA)) _) ?s1 _ =>
            wp_call (lift_iec_get_run (Board.iec_env E) IO_DATA s1)
        end.
        cbn [Board.iec Board.with_iec IEC_DDR eoi n_pin n_timer n_recv n_send].
        replace (S w2 + (S w1 + n_pin (Board.iec s)))%nat
          with (w2 + 1 + (w1 + 1 + n_pin (Board.iec s)))%nat by lia.
        rewrite Hd.
        eapply wp_weaken.
        -- apply (IH (S i)).
           cbn [Board.iec Board.with_iec n_pin].
           replace (S (w2 + 1 + (w1 + 1 + n_pin (Board.iec s))))%nat
             with (w1 + 1 + (w2 + 1 + 1) + n_pin (Board.iec s))%nat by lia.
           exact Hrest.
        -- cbv beta. intros _ _ o ->.
           destruct d; reflexivity.
Qed.

(** X23: [iec_srq_write] always returns, after 8 bits of 1100 ns of delays
    each.  At its eight releases of SRQ it presents the bits of the byte on
    DATA, bit 7 first, DATA pulled for a 0, whatever the port drove before.
    On return SRQ is released, DATA is left at the level of bit 0, ATN is
    driven as it was on entry, and CLOCK and RESET are no longer driven even
    if they were on entry; the other ports are untouched. *)
Theorem iec_srq_write_effects (data : Z) (s : Board.state) :
  let r := Board.iec_srq_write data s in
  let ddr := IEC_DDR (Board.iec s) in
  let ddr' := IEC_DDR (Board.iec (final r)) in
  result r = Done tt /\
  Board.data_at_srq_release ddr (emitted r) = map (Z.testbit data) [7; 6; 5; 4; 3; 2; 1; 0] /\
  Board.elapsed_ns (emitted r) = 8800 /\
  ddr' = Z.lor (if Z.testbit data 0 then 0 else IO_DATA) (Z.land ddr IO_ATN) /\
  Z.land ddr' (Z.lor (Z.lor IO_CLK IO_RESET) IO_SRQ) = 0 /\
  Z.land ddr' IO_ATN = Z.land ddr IO_ATN /\
  Board.port_b (final r) = Board.port_b s /\
  Board.ddr_c (final r) = Board.ddr_c s /\
  Board.port_c (final r) = Board.port_c s /\
  Board.ddr_d (final r) = Board.ddr_d s /\
  Board.port_d (final r) = Board.port_d s.
Proof.
  cbv zeta.
  apply (wp_elim (Board.iec_srq_write data) s
           (fun tr s' o =>
              o = Done tt /\
              Board.data_at_srq_release (IEC_DDR (Board.iec s)) tr =
              map (Z.testbit data) [7; 6; 5; 4; 3; 2; 1; 0] /\
              Board.elapsed_ns tr = 8800 /\
              IEC_DDR (Board.iec s') =
              Z.lor (if Z.testbit data 0 then 0 else IO_DATA)
                    (Z.land (IEC_DDR (Board.iec s)) IO_ATN) /\
              Z.land (IEC_DDR (Board.iec s')) (Z.lor (Z.lor IO_CLK IO_RESET) IO_SRQ) = 0 /\
              Z.land (IEC_DDR (Board.iec s')) IO_ATN = Z.land (IEC_DDR (Board.iec s)) IO_ATN /\
              Board.port_b s' = Board.port_b s /\
              Board.ddr_c s' = Board.ddr_c s /\ Board.port_c s' = Board.port_c s /\
              Board.ddr_d s' = Board.ddr_d s /\ Board.port_d s' = Board.port_d s)).
  unfold Board.iec_srq_write.
  apply wp_bind.
  apply (wp_run (Board.read_reg Board.DDRB) s s [] (Done (IEC_DDR (Board.iec s))) _ eq_refl).
  cbv beta iota.
  eapply wp_weaken.
  - apply iec_srq_write_bits_spec. bitblast.
  - cbv beta. intros tr s' o (-> & Hl & Ht & Hd & Hr).
    destruct (srq_write_lines (Nat.iter 7 (fun d => wrap8 (Z.shiftl d 1)) data)
                              (IEC_DDR (Board.iec s))) as (H1 & H2 & H3).
    rewrite last_bit_sent in H1, H2, H3.
    rewrite srq_data_bit, last_bit_sent in Hd.
    cbn [app]. rewrite Hd, Hl, Ht, bits_from_top_byte.
    repeat split; try assumption; try reflexivity; apply Hr.
Qed.

(** X24: what [iec_srq_write] puts on the wires for a byte, [iec_srq_read]
    reads as the same byte: a receiver that sees, for each of the eight
    releases of SRQ by the sender, SRQ pulled and then released, and then
    samples DATA at the level the sender presents at that release, returns
    the byte sent.  The sender may let the receiver poll up to [fuel] times
    for each edge of SRQ, [fuel] being the bound put on the two waits of
    [iec_srq_read], which have none of their own. *)
Theorem iec_srq_write_read_back (E' : Board.env) (fuel : nat) (lag : nat -> nat)
        (data : Z) (s s' : Board.state) :
  0 <= data < 256 ->
  (forall j, (lag j <= fuel)%nat) ->
  plays (Board.iec_env E') (n_pin (Board.iec s'))
        (Board.srq_sender_samples lag 0
           (Board.data_at_srq_release (IEC_DDR (Board.iec s))
                                      (emitted (Board.iec_srq_write data s)))) ->
  result (Board.iec_srq_read E' fuel s') = Done data.
Proof.
  intros Hb Hlag Hp.
  assert (Board.data_at_srq_release (IEC_DDR (Board.iec s))
                                    (emitted (Board.iec_srq_write data s)) =
          Board.bits_from_top 8 data) as Hsent.
  { apply (wp_elim (Board.iec_srq_write data) s
             (fun tr _ _ =>
                Board.data_at_srq_release (IEC_DDR (Board.iec s)) tr =
                Board.bits_from_top 8 data)).
    unfold Board.iec_srq_write.
    apply wp_bind.
    apply (wp_run (Board.read_reg Board.DDRB) s s [] (Done (IEC_DDR (Board.iec s))) _
                  eq_refl).
    cbv beta iota.
    eapply wp_weaken.
    - apply iec_srq_write_bits_spec. bitblast.
    - cbv beta. intros tr s1 o (_ & Hl & _). cbn [app]. apply Hl. }
  rewrite Hsent in Hp.
  unfold Board.iec_srq_read.
  change 8%nat with (List.length (Board.bits_from_top 8 data)) at 1.
  rewrite <- (shift_in_left_byte data Hb) at 2.
  apply (wp_elim (Board.iec_srq_read_bits E' fuel
                    (List.length (Board.bits_from_top 8 data)) 0) s'
                 (fun _ _ o => o = Done (Board.shift_in_left (Board.bits_from_top 8 data) 0))).
  apply (iec_srq_read_bits_wave E' fuel lag (Board.bits_from_top 8 data) Hlag 0%nat 0 s' Hp).
Qed.

Lemma iec_srq_write_read_back_witness :
  result
    (Board.iec_srq_read
       (Board.scripted
          (Board.srq_sender_samples (fun _ => 2%nat) 0
             (Board.data_at_srq_release 0xFF
                (emitted (Board.iec_srq_write 0xA5
                            (Board.State (State 0xFF 0 0 0 0 0) 0xFF 0 0 0 0 0 0)))))
          0xFF)
       5 (Board.State (State 0 0 0 0 0 0) 0xFF 0 0 0 0 0 0)) = Done 0xA5.
Proof.
  apply (iec_srq_write_read_back _ 5 (fun _ => 2%nat) 0xA5
           (Board.State (State 0xFF 0 0 0 0 0) 0xFF 0 0 0 0 0 0)
           (Board.State (State 0 0 0 0 0 0) 0xFF 0 0 0 0 0 0)).
  - lia.
  - intros j. lia.
  - apply scripted_plays.
Defined.
